(** * gcp-o11y-mcp: the quota-optimisation layer of the log tools

    A shallow embedding of package [internal/logging] (filter builder,
    preset catalogue, result cache, rate limiter and the three tools built
    on them) together with the properties its specification states.

    Conventions.
    - Go strings are byte strings: [string].  [strings.ToLower],
      [strings.ToUpper] and [strings.Fields] are modelled on the ASCII range;
      bytes above 127 are left alone and are not white space.
    - [int] and [time.Duration] are [Z]; durations and instants are counted
      in nanoseconds, instants from the Unix epoch.  No value in this
      package comes near the 64-bit bounds, so no wrap-around is written.
    - [time.Now()] is read from an explicit clock, and [time.RFC3339]
      formatting is done for the UTC location.
    - Where a source file carries several revisions, the revision with the
      cache and the rate limiter (the current one) is the one embedded. *)

From Stdlib Require Import ZArith Ascii Lia Bool.
From stdpp Require Import base option list strings gmap.

Local Open Scope Z_scope.

(** ** Go strings *)

Module GoString.

(** The double quote, which the filter syntax uses around literals. *)
Definition dq : string := String (ascii_of_nat 34) "".

Definition is_upper (c : ascii) : bool :=
  let n := nat_of_ascii c in (65 <=? n)%nat && (n <=? 90)%nat.

Definition is_lower (c : ascii) : bool :=
  let n := nat_of_ascii c in (97 <=? n)%nat && (n <=? 122)%nat.

Definition lower_char (c : ascii) : ascii :=
  if is_upper c then ascii_of_nat (nat_of_ascii c + 32) else c.

Definition upper_char (c : ascii) : ascii :=
  if is_lower c then ascii_of_nat (nat_of_ascii c - 32) else c.

Fixpoint map_string (f : ascii -> ascii) (s : string) : string :=
  match s with
  | EmptyString => EmptyString
  | String c s' => String (f c) (map_string f s')
  end.

(** [strings.ToLower] and [strings.ToUpper]. *)
Definition ToLower : string -> string := map_string lower_char.
Definition ToUpper : string -> string := map_string upper_char.

(** [strings.HasPrefix]. *)
Fixpoint HasPrefix (s prefix : string) {struct prefix} : bool :=
  match prefix with
  | EmptyString => true
  | String p prefix' =>
      match s with
      | EmptyString => false
      | String c s' => if Ascii.eqb c p then HasPrefix s' prefix' else false
      end
  end.

(** [strings.Contains]. *)
Fixpoint Contains (s substr : string) : bool :=
  HasPrefix s substr ||
  match s with
  | EmptyString => false
  | String _ s' => Contains s' substr
  end.

(** [len(s)]. *)
Definition len (s : string) : Z := Z.of_nat (String.length s).

(** White space as [strings.Fields] sees it on ASCII input:
    tab, line feed, vertical tab, form feed, carriage return, space. *)
Definition is_space (c : ascii) : bool :=
  let n := nat_of_ascii c in
  ((9 <=? n)%nat && (n <=? 13)%nat) || (n =? 32)%nat.

(** [strings.Fields]: the maximal runs of non-space bytes, in order.
    [cur] is the field being read, most recent byte first. *)
Fixpoint fields_go (cur : option string) (s : string) : list string :=
  match s with
  | EmptyString =>
      match cur with Some w => [String.rev w] | None => [] end
  | String c s' =>
      if is_space c then
        match cur with
        | Some w => String.rev w :: fields_go None s'
        | None => fields_go None s'
        end
      else
        fields_go (Some (String c (default "" cur))) s'
  end.

Definition Fields (s : string) : list string := fields_go None s.

(** [strings.Join]. *)
Fixpoint Join (elems : list string) (sep : string) : string :=
  match elems with
  | [] => ""
  | [e] => e
  | e :: rest => e +:+ sep +:+ Join rest sep
  end.

(** Decimal digits of a natural number, for [%d], [%v] on an [int] and
    the fields of a formatted instant. *)
Definition digit (n : Z) : ascii := ascii_of_nat (48 + Z.to_nat n).

Fixpoint digits_go (fuel : nat) (n : Z) (acc : string) : string :=
  match fuel with
  | O => acc
  | S fuel' =>
      let acc' := String (digit (n mod 10)) acc in
      if n / 10 =? 0 then acc' else digits_go fuel' (n / 10) acc'
  end.

(** [strconv.Itoa]. *)
Definition Itoa (n : Z) : string :=
  if n <? 0
  then "-" +:+ digits_go (S (Z.to_nat (Z.log2 (- n)))) (- n) ""
  else digits_go (S (Z.to_nat (Z.log2 n))) n "".

(** A natural number in decimal, padded with zeros to [width] digits. *)
Fixpoint pad_go (width : nat) (n : Z) (acc : string) : string :=
  match width with
  | O => acc
  | S w => pad_go w (n / 10) (String (digit (n mod 10)) acc)
  end.

Definition pad (width : nat) (n : Z) : string := pad_go width n "".

(** [fmt.Sprintf] for a format whose only verb is [%s], applied to string
    operands: each [%s] takes the next operand, a verb without operand
    prints [%!s(MISSING)], and operands left over are reported at the end
    as [%!(EXTRA string=..., ...)]. *)
Fixpoint extra_go (args : list string) : string :=
  match args with
  | [] => ""
  | [a] => "string=" +:+ a
  | a :: rest => "string=" +:+ a +:+ ", " +:+ extra_go rest
  end.

Definition extra (args : list string) : string :=
  match args with
  | [] => ""
  | _ => "%!(EXTRA " +:+ extra_go args +:+ ")"
  end.

Fixpoint Sprintf (format : string) (args : list string) : string :=
  match format with
  | EmptyString => extra args
  | String c rest =>
      if Ascii.eqb c "%" then
        match rest with
        | String v rest' =>
            if Ascii.eqb v "s" then
              match args with
              | a :: args' => a +:+ Sprintf rest' args'
              | [] => "%!s(MISSING)" +:+ Sprintf rest' []
              end
            else String c (Sprintf rest args)
        | EmptyString => "%!(NOVERB)" +:+ extra args
        end
      else String c (Sprintf rest args)
  end.

End GoString.

Import GoString.

(** ** Instants and their RFC 3339 rendering *)

Module GoTime.

Definition Duration := Z.
Definition Time := Z.

Definition Nanosecond : Duration := 1.
Definition Second : Duration := 1000000000.
Definition Minute : Duration := 60 * Second.
Definition Hour : Duration := 60 * Minute.

(** [t.Add(d)] and [t.Sub(u)]. *)
Definition Add (t : Time) (d : Duration) : Time := t + d.
Definition Sub (t u : Time) : Duration := t - u.

(** Year, month and day of the day numbered [days] from 1970-01-01. *)
Definition civil_from_days (days : Z) : Z * Z * Z :=
  let z := days + 719468 in
  let era := z / 146097 in
  let doe := z - era * 146097 in
  let yoe := (doe - doe / 1460 + doe / 36524 - doe / 146096) / 365 in
  let doy := doe - (365 * yoe + yoe / 4 - yoe / 100) in
  let mp := (5 * doy + 2) / 153 in
  let d := doy - (153 * mp + 2) / 5 + 1 in
  let m := if mp <? 10 then mp + 3 else mp - 9 in
  let y := yoe + era * 400 + (if m <=? 2 then 1 else 0) in
  (y, m, d).

(** [t.Format(time.RFC3339)] in UTC: [2006-01-02T15:04:05Z]. *)
Definition FormatRFC3339 (t : Time) : string :=
  let secs := t / Second in
  let '(y, m, d) := civil_from_days (secs / 86400) in
  let sod := secs mod 86400 in
  pad 4 y +:+ "-" +:+ pad 2 m +:+ "-" +:+ pad 2 d +:+ "T" +:+
  pad 2 (sod / 3600) +:+ ":" +:+ pad 2 (sod mod 3600 / 60) +:+ ":" +:+
  pad 2 (sod mod 60) +:+ "Z".

End GoTime.

Import GoTime.

(** ** filter_builder.go *)

Module FilterBuilder.

Record FilterBuilder := mk { filters : list string }.

Definition NewFilterBuilder : FilterBuilder := mk [].

Definition append (fb : FilterBuilder) (clause : string) : FilterBuilder :=
  mk (filters fb ++ [clause]).

Definition ge_quoted : string := "timestamp >= " +:+ dq +:+ "%s" +:+ dq.
Definition le_quoted : string := "timestamp <= " +:+ dq +:+ "%s" +:+ dq.

Definition AddTimeRange (startTime endTime : string) (fb : FilterBuilder)
  : FilterBuilder :=
  let fb := if String.eqb startTime "" then fb
            else append fb (Sprintf ge_quoted [startTime]) in
  if String.eqb endTime "" then fb
  else append fb (Sprintf le_quoted [endTime]).

Definition AddSeverity (severity : string) (fb : FilterBuilder)
  : FilterBuilder :=
  if String.eqb severity "" then fb
  else append fb (Sprintf "severity >= %s" [ToUpper severity]).

Definition AddCloudRunService (serviceName : string) (fb : FilterBuilder)
  : FilterBuilder :=
  if String.eqb serviceName "" then fb
  else
    let fb := append fb ("resource.type=" +:+ dq +:+ "cloud_run_revision" +:+ dq) in
    append fb (Sprintf ("resource.labels.service_name=" +:+ dq +:+ "%s" +:+ dq)
                       [serviceName]).

Definition AddLogName (logName : string) (fb : FilterBuilder)
  : FilterBuilder :=
  if String.eqb logName "" then fb
  else append fb (Sprintf ("logName=" +:+ dq +:+ "%s" +:+ dq) [logName]).

Definition AddKeywords (keywords : string) (fb : FilterBuilder)
  : FilterBuilder :=
  if String.eqb keywords "" then fb
  else
    let fb := if Contains keywords "error" || Contains keywords "ERROR"
              then append fb "severity >= ERROR" else fb in
    append fb (Sprintf ("(textPayload:" +:+ dq +:+ "%s" +:+ dq +:+
                        " OR jsonPayload.message:" +:+ dq +:+ "%s" +:+ dq +:+ ")")
                       [keywords; keywords]).

(** The scan of [AddDefaultTimeConstraint]: is there a clause with the
    text [timestamp] in it? *)
Fixpoint hasTimeFilter (fs : list string) : bool :=
  match fs with
  | [] => false
  | f :: rest => if Contains f "timestamp" then true else hasTimeFilter rest
  end.

Definition AddDefaultTimeConstraint (now : Time) (fb : FilterBuilder)
  : FilterBuilder :=
  if hasTimeFilter (filters fb) then fb
  else
    let defaultStart := FormatRFC3339 (Add now (-24 * Hour)) in
    append fb (Sprintf ge_quoted [defaultStart]).

Definition Build (fb : FilterBuilder) : string :=
  if (Z.of_nat (length (filters fb)) =? 0) then ""
  else Join (filters fb) " AND ".

Definition Reset (fb : FilterBuilder) : FilterBuilder := mk [].

End FilterBuilder.

(** ** The error values of the package *)

Module GoError.

(** gRPC status codes ([google.golang.org/grpc/codes]). *)
Inductive Code :=
| OK | Canceled | Unknown | InvalidArgument | DeadlineExceeded | NotFound
| AlreadyExists | PermissionDenied | ResourceExhausted | FailedPrecondition
| Aborted | OutOfRange | Unimplemented | Internal | Unavailable | DataLoss
| Unauthenticated.

#[global] Instance Code_eq_dec : EqDecision Code.
Proof. solve_decision. Defined.

(** An [error] value: a leaf with its text and, when it is a gRPC status
    error, its code; or [fmt.Errorf(prefix + "%w", inner)]. *)
Inductive error :=
| leaf (text : string) (grpc : option Code)
| wrap (prefix : string) (inner : error).

#[global] Instance error_eq_dec : EqDecision error.
Proof. solve_decision. Defined.

(** [errors.New], and [fmt.Errorf] without [%w]. *)
Definition errorString (text : string) : error := leaf text None.

(** [err.Error()]. *)
Fixpoint Error (err : error) : string :=
  match err with
  | leaf text _ => text
  | wrap prefix inner => prefix +:+ Error inner
  end.

(** [status.FromError(err)]: the code of the status error found in the
    [%w] chain of [err], if there is one. *)
Fixpoint FromError (err : error) : option Code :=
  match err with
  | leaf _ grpc => grpc
  | wrap _ inner => FromError inner
  end.

End GoError.

Import GoError.

(** ** The rate limiter of list_log_entries.go *)

Module RateLimiter.

Record RateLimiter := mk {
  backoffDuration : Duration;
  maxRetries : Z
}.

Definition NewRateLimiter : RateLimiter :=
  {| backoffDuration := 1 * Second; maxRetries := 3 |}.

Definition isQuotaExceededError (err : error) : bool :=
  match FromError err with
  | Some ResourceExhausted => true
  | _ =>
      let errStr := ToLower (Error err) in
      Contains errStr "quota exceeded" ||
      Contains errStr "rate limit" ||
      Contains errStr "resource exhausted"
  end.

(** [backoffDuration * 2^attempt] plus a tenth of it.  The source goes
    through [float64] ([math.Pow], then a product by [0.1] that is
    truncated); on the durations of this package both steps are exact,
    so the integer power and the integer quotient by 10 are written. *)
Definition calculateBackoff (r : RateLimiter) (attempt : Z) : Duration :=
  let backoff := backoffDuration r * 2 ^ attempt in
  let jitter := Z.quot backoff 10 in
  backoff + jitter.

(** What [ExecuteWithBackoff] does, in order: calls of the operation and
    calls of [time.Sleep]. *)
Inductive Event :=
| Invoke
| Sleep (d : Duration).

Section Execute.
(** The state the operation works on, and what [time.Sleep] does to it. *)
Context {St : Type}.
Variable sleep : Duration -> St -> St.
Variable r : RateLimiter.
Variable operation : St -> option error * St.

(** The value returned after the loop:
    [fmt.Errorf("max retries exceeded: %w", lastErr)]. *)
Definition exhausted (lastErr : option error) : error :=
  match lastErr with
  | Some e => wrap "max retries exceeded: " e
  | None => errorString "max retries exceeded: %!w(<nil>)"
  end.

(** The loop [for attempt := 0; attempt <= r.maxRetries; attempt++]:
    [remaining] counts the values of [attempt] still to come, so the
    loop condition holds exactly when it is not zero. *)
Fixpoint loop (remaining : nat) (attempt : Z) (lastErr : option error)
         (s : St) (tr : list Event) : option error * St * list Event :=
  match remaining with
  | O => (Some (exhausted lastErr), s, tr)
  | S remaining' =>
      let '(err, s) := operation s in
      let tr := tr ++ [Invoke] in
      match err with
      | None => (None, s, tr)
      | Some e =>
          if negb (isQuotaExceededError e) then (Some e, s, tr)
          else if attempt <? maxRetries r then
            let backoffTime := calculateBackoff r attempt in
            loop remaining' (attempt + 1) (Some e) (sleep backoffTime s)
                 (tr ++ [Sleep backoffTime])
          else
            loop remaining' (attempt + 1) (Some e) s tr
      end
  end.

(** The result, the final state, and the calls and sleeps made. *)
Definition ExecuteWithBackoff (s : St) : option error * St * list Event :=
  loop (Z.to_nat (maxRetries r + 1)) 0 None s [].

End Execute.

End RateLimiter.

(** ** crypto/md5 and the [%x] verb *)

Module MD5.

Definition K : list Z :=
  [ 0xd76aa478; 0xe8c7b756; 0x242070db; 0xc1bdceee;
    0xf57c0faf; 0x4787c62a; 0xa8304613; 0xfd469501;
    0x698098d8; 0x8b44f7af; 0xffff5bb1; 0x895cd7be;
    0x6b901122; 0xfd987193; 0xa679438e; 0x49b40821;
    0xf61e2562; 0xc040b340; 0x265e5a51; 0xe9b6c7aa;
    0xd62f105d; 0x02441453; 0xd8a1e681; 0xe7d3fbc8;
    0x21e1cde6; 0xc33707d6; 0xf4d50d87; 0x455a14ed;
    0xa9e3e905; 0xfcefa3f8; 0x676f02d9; 0x8d2a4c8a;
    0xfffa3942; 0x8771f681; 0x6d9d6122; 0xfde5380c;
    0xa4beea44; 0x4bdecfa9; 0xf6bb4b60; 0xbebfbc70;
    0x289b7ec6; 0xeaa127fa; 0xd4ef3085; 0x04881d05;
    0xd9d4d039; 0xe6db99e5; 0x1fa27cf8; 0xc4ac5665;
    0xf4292244; 0x432aff97; 0xab9423a7; 0xfc93a039;
    0x655b59c3; 0x8f0ccc92; 0xffeff47d; 0x85845dd1;
    0x6fa87e4f; 0xfe2ce6e0; 0xa3014314; 0x4e0811a1;
    0xf7537e82; 0xbd3af235; 0x2ad7d2bb; 0xeb86d391 ].

Definition shifts : list Z :=
  [ 7; 12; 17; 22; 7; 12; 17; 22; 7; 12; 17; 22; 7; 12; 17; 22;
    5; 9; 14; 20; 5; 9; 14; 20; 5; 9; 14; 20; 5; 9; 14; 20;
    4; 11; 16; 23; 4; 11; 16; 23; 4; 11; 16; 23; 4; 11; 16; 23;
    6; 10; 15; 21; 6; 10; 15; 21; 6; 10; 15; 21; 6; 10; 15; 21 ].

Definition w32 (x : Z) : Z := x mod 2 ^ 32.
Definition rotl (x n : Z) : Z :=
  w32 (Z.lor (Z.shiftl x n) (Z.shiftr x (32 - n))).
Definition not32 (x : Z) : Z := 0xffffffff - x.

(** A 32-bit word, and a 64-bit length, least significant byte first. *)
Definition le_bytes (n : nat) (x : Z) : list Z :=
  map (fun i => Z.shiftr x (8 * Z.of_nat i) mod 256) (seq 0 n).

Fixpoint le_words (bs : list Z) (n : nat) : list Z :=
  match n with
  | O => []
  | S n' =>
      match bs with
      | b0 :: b1 :: b2 :: b3 :: rest =>
          (b0 + 256 * b1 + 65536 * b2 + 16777216 * b3) :: le_words rest n'
      | _ => []
      end
  end.

(** The message followed by the bit [1], zeros up to 56 bytes modulo 64,
    and the length of the message in bits. *)
Definition padding (msg : list Z) : list Z :=
  let n := Z.of_nat (length msg) in
  let zeros := Z.to_nat ((55 - n) mod 64) in
  msg ++ [128] ++ repeat 0 zeros ++ le_bytes 8 (8 * n mod 2 ^ 64).

Definition round (M : list Z) (st : Z * Z * Z * Z) (i : nat)
  : Z * Z * Z * Z :=
  let '(a, b, c, d) := st in
  let iz := Z.of_nat i in
  let '(f, g) :=
    if iz <? 16 then
      (Z.lor (Z.land b c) (Z.land (not32 b) d), iz)
    else if iz <? 32 then
      (Z.lor (Z.land d b) (Z.land (not32 d) c), (5 * iz + 1) mod 16)
    else if iz <? 48 then
      (Z.lxor (Z.lxor b c) d, (3 * iz + 5) mod 16)
    else
      (Z.lxor c (Z.lor b (not32 d)), (7 * iz) mod 16) in
  let f := w32 (f + a + nth i K 0 + nth (Z.to_nat g) M 0) in
  (d, w32 (b + rotl f (nth i shifts 0)), b, c).

Definition block (st : Z * Z * Z * Z) (chunk : list Z) : Z * Z * Z * Z :=
  let M := le_words chunk 16 in
  let '(a, b, c, d) := st in
  let '(a', b', c', d') := fold_left (round M) (seq 0 64) st in
  (w32 (a + a'), w32 (b + b'), w32 (c + c'), w32 (d + d')).

Fixpoint blocks (n : nat) (st : Z * Z * Z * Z) (bs : list Z)
  : Z * Z * Z * Z :=
  match n with
  | O => st
  | S n' => blocks n' (block st (take 64 bs)) (drop 64 bs)
  end.

(** [md5.Sum]: the 16 bytes of the digest. *)
Definition Sum (msg : list Z) : list Z :=
  let padded := padding msg in
  let '(a, b, c, d) :=
    blocks (length padded / 64)
           (0x67452301, 0xefcdab89, 0x98badcfe, 0x10325476) padded in
  le_bytes 4 a ++ le_bytes 4 b ++ le_bytes 4 c ++ le_bytes 4 d.

Definition bytes (s : string) : list Z :=
  map (fun c => Z.of_nat (nat_of_ascii c)) (String.list_ascii_of_string s).

Definition hex_digit (n : Z) : ascii :=
  if n <? 10 then ascii_of_nat (48 + Z.to_nat n)
  else ascii_of_nat (87 + Z.to_nat n).

(** [fmt.Sprintf("%x", hash)] for a byte array: two lower-case
    hexadecimal digits for each byte. *)
Fixpoint hex (bs : list Z) : string :=
  match bs with
  | [] => ""
  | b :: rest => String (hex_digit (b / 16)) (String (hex_digit (b mod 16)) (hex rest))
  end.

End MD5.

(** ** The entries of the remote log store *)

Module Logging.

(** [logging.Severity] and its [String] method. *)
Definition Severity := Z.

Definition Severity_String (v : Severity) : string :=
  if v =? 0 then "Default"
  else if v =? 100 then "Debug"
  else if v =? 200 then "Info"
  else if v =? 300 then "Notice"
  else if v =? 400 then "Warning"
  else if v =? 500 then "Error"
  else if v =? 600 then "Critical"
  else if v =? 700 then "Alert"
  else if v =? 800 then "Emergency"
  else Itoa v.

(** A JSON document.  A number carries its literal, an object its
    members in the order [encoding/json] writes them (sorted by key). *)
#[warnings="-register-all"] Inductive JSON :=
| JNull
| JBool (b : bool)
| JNumber (literal : string)
| JString (s : string)
| JArray (elems : list JSON)
| JObject (members : list (string * JSON)).

Definition hex4 (n : nat) : string :=
  "00" +:+ String (MD5.hex_digit (Z.of_nat n / 16))
                  (String (MD5.hex_digit (Z.of_nat n mod 16)) "").

(** One byte of a string inside a JSON string literal, with the
    escapes of [json.Marshal] (HTML-safe escaping included). *)
Definition escape_char (c : ascii) : string :=
  let n := nat_of_ascii c in
  if (n =? 34)%nat then "\" +:+ dq
  else if (n =? 92)%nat then "\\"
  else if (n =? 8)%nat then "\b"
  else if (n =? 12)%nat then "\f"
  else if (n =? 10)%nat then "\n"
  else if (n =? 13)%nat then "\r"
  else if (n =? 9)%nat then "\t"
  else if (n <? 32)%nat || (n =? 60)%nat || (n =? 62)%nat || (n =? 38)%nat
    then "\u" +:+ hex4 n
  else String c "".

Fixpoint escape (s : string) : string :=
  match s with
  | EmptyString => ""
  | String c s' => escape_char c +:+ escape s'
  end.

Definition quoted (s : string) : string := dq +:+ escape s +:+ dq.

(** [json.Marshal]: the compact encoding. *)
Fixpoint Marshal (j : JSON) : string :=
  match j with
  | JNull => "null"
  | JBool b => if b then "true" else "false"
  | JNumber literal => literal
  | JString s => quoted s
  | JArray elems =>
      "[" +:+
      (fix go (l : list JSON) : string :=
         match l with
         | [] => ""
         | x :: rest =>
             match rest with
             | [] => Marshal x
             | _ => Marshal x +:+ "," +:+ go rest
             end
         end) elems +:+ "]"
  | JObject members =>
      "{" +:+
      (fix go (l : list (string * JSON)) : string :=
         match l with
         | [] => ""
         | (k, x) :: rest =>
             match rest with
             | [] => quoted k +:+ ":" +:+ Marshal x
             | _ => quoted k +:+ ":" +:+ Marshal x +:+ "," +:+ go rest
             end
         end) members +:+ "}"
  end.

(** [Entry.Payload]: a string, a [map[string]interface{}], or a value
    of another type (a protocol buffer message, say). *)
Inductive Payload :=
| PayloadString (s : string)
| PayloadMap (members : list (string * JSON))
| PayloadOther.

(** [*mrpb.MonitoredResource]. *)
Record MonitoredResource := {
  Type_ : string;
  ResourceLabels : gmap string string
}.

(** The fields of [logging.Entry] the tools read. *)
Record Entry := {
  Timestamp : Time;
  Severity_ : Severity;
  LogName : string;
  InsertID : string;
  Trace : string;
  Resource : option MonitoredResource;
  Labels : gmap string string;
  Payload_ : Payload
}.

(** What an [EntryIterator] yields: the entries [Next] returns one by
    one, and then either [iterator.Done] or an error. *)
Record Stream := {
  items : list Entry;
  failure : option error
}.

End Logging.

(** ** The clock, the remote store and the sleeps: the outside world *)

Module World.

Record World := mk {
  (** [time.Now()] *)
  clock : Time;
  (** what the [n]-th call of [client.Entries] yields for a filter *)
  remote : nat -> string -> Logging.Stream;
  (** the filters of the calls of [client.Entries] so far, oldest first *)
  queries : list string;
  (** the arguments of the calls of [time.Sleep] so far, oldest first *)
  slept : list Duration
}.

(** [client.Entries(ctx, logadmin.Filter(filter), logadmin.NewestFirst())] *)
Definition Entries (filter : string) (w : World) : Logging.Stream * World :=
  (remote w (length (queries w)) filter,
   mk (clock w) (remote w) (queries w ++ [filter]) (slept w)).

(** [time.Sleep(d)] *)
Definition Sleep (d : Duration) (w : World) : World :=
  mk (Add (clock w) d) (remote w) (queries w) (slept w ++ [d]).

(** [time.Sleep(d)] as seen by a closure that also holds a variable of
    type [A]. *)
Definition sleeping {A : Type} (d : Duration) (s : World * A) : World * A :=
  (Sleep d s.1, s.2).

(** Time passing between two calls of a tool. *)
Definition elapse (d : Duration) (w : World) : World :=
  mk (Add (clock w) d) (remote w) (queries w) (slept w).

End World.

(** ** list_log_entries.go: the record handed back to the caller *)

Module LogEntry.

Record LogEntry := {
  Timestamp : string;
  Severity : string;
  LogName : string;
  (** [map[string]interface{}] with the keys [type] and [labels], or nil *)
  Resource : option (string * gmap string string);
  Labels : gmap string string;
  TextPayload : string;
  JSONPayload : option (list (string * Logging.JSON));
  InsertID : string;
  TraceID : string
}.

(** The conversion that [listLogEntries] and [searchLogs] both apply to
    an entry of the store. *)
Definition fromEntry (entry : Logging.Entry) : LogEntry :=
  {| Timestamp := FormatRFC3339 (Logging.Timestamp entry);
     Severity := Logging.Severity_String (Logging.Severity_ entry);
     LogName := Logging.LogName entry;
     InsertID := Logging.InsertID entry;
     TraceID := Logging.Trace entry;
     Resource :=
       match Logging.Resource entry with
       | Some res => Some (Logging.Type_ res, Logging.ResourceLabels res)
       | None => None
       end;
     Labels := Logging.Labels entry;
     TextPayload :=
       match Logging.Payload_ entry with
       | Logging.PayloadString payload => payload
       | _ => ""
       end;
     JSONPayload :=
       match Logging.Payload_ entry with
       | Logging.PayloadMap payload => Some payload
       | _ => None
       end |}.

End LogEntry.

Import LogEntry.

(** ** cache.go *)

(** The [%+v] rendering of a value, which [GenerateKey] hashes. *)
Class PlusV (A : Type) := plus_v : A -> string.

#[global] Instance string_PlusV : PlusV string := fun s => s.
#[global] Instance int_PlusV : PlusV Z := Itoa.
#[global] Instance slice_PlusV `{PlusV A} : PlusV (list A) :=
  fun l => "[" +:+ Join (map plus_v l) " " +:+ "]".

Module LogCache.

Record CacheEntry := {
  Data : list LogEntry;
  Timestamp : Time;
  TTL : Duration
}.

(** The map of [LogCache]; the lock has no counterpart in a sequential
    embedding. *)
Abbreviation LogCache := (gmap string CacheEntry).

Definition NewLogCache : LogCache := ∅.

(** [Get] at the instant [now]: the result, and the cache afterwards. *)
Definition Get (key : string) (now : Time) (c : LogCache)
  : (list LogEntry * bool) * LogCache :=
  match c !! key with
  | None => (([], false), c)
  | Some entry =>
      if Sub now (Timestamp entry) >? TTL entry then (([], false), c)
      else ((Data entry, true), c)
  end.

(** [Set] at the instant [now]. *)
Definition Set_ (key : string) (data : list LogEntry) (ttl : Duration)
           (now : Time) (c : LogCache) : LogCache :=
  <[key := {| Data := data; Timestamp := now; TTL := ttl |}]> c.

Definition GenerateKey `{PlusV A} (params : A) : string :=
  let hash := MD5.Sum (MD5.bytes (plus_v params)) in
  MD5.hex hash.

(** One pass of the [cleanup] loop, at the instant [now]. *)
Definition cleanup (now : Time) (c : LogCache) : LogCache :=
  filter (fun kv => ¬ (Sub now (Timestamp kv.2) > TTL kv.2)) c.

End LogCache.

(** ** pkg/types: the result of a tool call *)

Module Types.

(** A value of the [map[string]interface{}] a tool returns. *)
Inductive Value :=
| VBool (b : bool)
| VInt (n : Z)
| VString (s : string)
| VEntries (es : list LogEntry).

(** The text of a content item.  A successful call puts there the output
    of [json.MarshalIndent]; the embedding keeps the value that was
    encoded: a map, or (for list_log_entries) the slice of entries. *)
Inductive Text :=
| Message (s : string)
| IndentedMap (m : gmap string Value)
| IndentedEntries (es : list LogEntry).

Record Content := { Type_ : string; Text_ : Text }.

Record CallToolResult := { Content_ : list Content; IsError : bool }.

Definition success (body : Text) : CallToolResult :=
  {| Content_ := [ {| Type_ := "text"; Text_ := body |} ]; IsError := false |}.

Definition failure (msg : string) : CallToolResult :=
  {| Content_ := [ {| Type_ := "text"; Text_ := Message msg |} ];
     IsError := true |}.

End Types.

(** ** preset_queries.go *)

Module Presets.

Record PresetQuery := {
  Name : string;
  Description : string;
  Filter : string;
  PageSize : Z
}.

Definition CommonPresetQueries : gmap string PresetQuery :=
  list_to_map
    [ ("cloud_run_errors",
       {| Name := "cloud_run_errors";
          Description := "Get recent errors from Cloud Run services";
          Filter := "resource.type=" +:+ dq +:+ "cloud_run_revision" +:+ dq +:+
                    " AND severity>=ERROR AND timestamp>=" +:+ dq +:+ "%s" +:+ dq;
          PageSize := 10 |});
      ("cloud_run_service_errors",
       {| Name := "cloud_run_service_errors";
          Description := "Get errors for specific Cloud Run service";
          Filter := "resource.type=" +:+ dq +:+ "cloud_run_revision" +:+ dq +:+
                    " AND resource.labels.service_name=" +:+ dq +:+ "%s" +:+ dq +:+
                    " AND severity>=ERROR AND timestamp>=" +:+ dq +:+ "%s" +:+ dq;
          PageSize := 15 |});
      ("recent_logs",
       {| Name := "recent_logs";
          Description := "Get recent logs from last hour";
          Filter := "timestamp>=" +:+ dq +:+ "%s" +:+ dq;
          PageSize := 20 |});
      ("high_severity",
       {| Name := "high_severity";
          Description := "Get critical and error logs from last 6 hours";
          Filter := "severity>=ERROR AND timestamp>=" +:+ dq +:+ "%s" +:+ dq;
          PageSize := 10 |}) ].

(** [GetPresetQuery(queryName, params...)] at the instant [now]. *)
Definition GetPresetQuery (now : Time) (queryName : string)
           (params : list string) : string * Z * option error :=
  match CommonPresetQueries !! queryName with
  | None =>
      ("", 0, Some (errorString
                      (Sprintf "preset query '%s' not found" [queryName])))
  | Some preset =>
      if String.eqb queryName "cloud_run_errors" then
        let defaultTime := FormatRFC3339 (Add now (-1 * Hour)) in
        (Sprintf (Filter preset) [defaultTime], PageSize preset, None)
      else if String.eqb queryName "cloud_run_service_errors" then
        match params with
        | [] =>
            ("", 0,
             Some (errorString
                "service name parameter required for cloud_run_service_errors"))
        | serviceName :: _ =>
            let defaultTime := FormatRFC3339 (Add now (-2 * Hour)) in
            (Sprintf (Filter preset) [serviceName; defaultTime],
             PageSize preset, None)
        end
      else if String.eqb queryName "recent_logs" then
        let defaultTime := FormatRFC3339 (Add now (-1 * Hour)) in
        (Sprintf (Filter preset) [defaultTime], PageSize preset, None)
      else if String.eqb queryName "high_severity" then
        let defaultTime := FormatRFC3339 (Add now (-6 * Hour)) in
        (Sprintf (Filter preset) [defaultTime], PageSize preset, None)
      else
        (Filter preset, PageSize preset, None)
  end.

End Presets.

(** ** list_log_entries.go: the tool *)

Module ListLogEntries.

Import Types.

Record ListLogEntriesArgs := mkArgs {
  Filter : string;
  PageSize : Z;
  OrderBy : string
}.

#[global] Instance ListLogEntriesArgs_PlusV : PlusV ListLogEntriesArgs :=
  fun p => "{Filter:" +:+ Filter p +:+ " PageSize:" +:+ plus_v (PageSize p) +:+
           " OrderBy:" +:+ OrderBy p +:+ "}".

Record ListLogEntriesTools := mk {
  cache : LogCache.LogCache;
  rateLimiter : RateLimiter.RateLimiter
}.

Definition NewListLogEntriesTools : ListLogEntriesTools :=
  {| cache := LogCache.NewLogCache; rateLimiter := RateLimiter.NewRateLimiter |}.

(** The loop of [listLogEntries] over what the iterator yields;
    [entries] and [count] are the variables of the same names. *)
Fixpoint collect (pageSize : Z) (items : list Logging.Entry)
         (failure : option error) (entries : list LogEntry) (count : Z)
  : list LogEntry * option error :=
  if count >=? pageSize then (entries, None)
  else
    match items with
    | [] =>
        match failure with
        | None => (entries, None)
        | Some err => ([], Some (wrap "failed to iterate log entries: " err))
        end
    | entry :: rest =>
        collect pageSize rest failure (entries ++ [fromEntry entry]) (count + 1)
    end.

Definition listLogEntries (params : ListLogEntriesArgs) (w : World.World)
  : (list LogEntry * option error) * World.World :=
  let '(iter, w) := World.Entries (Filter params) w in
  (collect (PageSize params) (Logging.items iter) (Logging.failure iter) [] 0, w).

(** The defaults that [Execute] fills in before anything else. *)
Definition withDefaults (params : ListLogEntriesArgs) : ListLogEntriesArgs :=
  let params :=
    if PageSize params =? 0
    then mkArgs (Filter params) 10 (OrderBy params) else params in
  let params :=
    if PageSize params >? 20
    then mkArgs (Filter params) 20 (OrderBy params) else params in
  if String.eqb (OrderBy params) ""
  then mkArgs (Filter params) (PageSize params) "timestamp desc" else params.

(** The closure handed to [ExecuteWithBackoff]; it works on the world and
    on the variable [entries] of [Execute]. *)
Definition operation (params : ListLogEntriesArgs)
           (s : World.World * list LogEntry)
  : option error * (World.World * list LogEntry) :=
  let '(res, w) := listLogEntries params s.1 in (res.2, (w, res.1)).

(** [Execute] on decoded arguments. *)
Definition Execute (params : ListLogEntriesArgs) (t : ListLogEntriesTools)
           (w : World.World)
  : CallToolResult * ListLogEntriesTools * World.World :=
  let params := withDefaults params in
  let cacheKey := LogCache.GenerateKey params in
  let '((cachedEntries, found), c) :=
    LogCache.Get cacheKey (World.clock w) (cache t) in
  if found : bool then
    (success (IndentedEntries cachedEntries), mk c (rateLimiter t), w)
  else
    let '(err, (w, entries), _) :=
      RateLimiter.ExecuteWithBackoff World.sleeping (rateLimiter t)
                                     (operation params)
                                     (w, []) in
    match err with
    | Some e =>
        (failure ("Error listing log entries: " +:+ Error e),
         mk c (rateLimiter t), w)
    | None =>
        let c := LogCache.Set_ cacheKey entries (2 * Minute) (World.clock w) c in
        (success (IndentedEntries entries), mk c (rateLimiter t), w)
    end.

End ListLogEntries.

(** ** search_logs.go *)

Module SearchLogs.

Import Types.

Record SearchLogsArgs := mkArgs {
  Query : string;
  StartTime : string;
  EndTime : string;
  Severity : string;
  Resource : string;
  LogName : string;
  PageSize : Z;
  OrderBy : string
}.

#[global] Instance SearchLogsArgs_PlusV : PlusV SearchLogsArgs :=
  fun p => "{Query:" +:+ Query p +:+ " StartTime:" +:+ StartTime p +:+
           " EndTime:" +:+ EndTime p +:+ " Severity:" +:+ Severity p +:+
           " Resource:" +:+ Resource p +:+ " LogName:" +:+ LogName p +:+
           " PageSize:" +:+ plus_v (PageSize p) +:+
           " OrderBy:" +:+ OrderBy p +:+ "}".

Record SearchLogsTool := mk {
  cache : LogCache.LogCache;
  rateLimiter : RateLimiter.RateLimiter
}.

Definition NewSearchLogsTool : SearchLogsTool :=
  {| cache := LogCache.NewLogCache; rateLimiter := RateLimiter.NewRateLimiter |}.

Definition isStructuredQuery (query : string) : bool :=
  Contains query "service_name" || Contains query "cloud_run".

Definition matchesQuery (entry : Logging.Entry) (query : string) : bool :=
  if isStructuredQuery query then true
  else
    let query := ToLower query in
    if Contains (ToLower (Logging.LogName entry)) query then true
    else if
      match Logging.Payload_ entry with
      | Logging.PayloadString payload => Contains (ToLower payload) query
      | Logging.PayloadMap payload =>
          Contains (ToLower (Logging.Marshal (Logging.JObject payload))) query
      | Logging.PayloadOther => false
      end
    then true
    else
      existsb (fun kv => Contains (ToLower kv.1) query ||
                         Contains (ToLower kv.2) query)
              (map_to_list (Logging.Labels entry)).

(** The loop [for _, part := range parts] of
    [parseQueryForOptimizedFilters], which stops at the first part it
    hands to [AddCloudRunService]. *)
Fixpoint addFirstService (parts : list string)
         (fb : FilterBuilder.FilterBuilder) : FilterBuilder.FilterBuilder :=
  match parts with
  | [] => fb
  | part :: rest =>
      if Contains part "-" && (len part >? 5)
      then FilterBuilder.AddCloudRunService part fb
      else addFirstService rest fb
  end.

Definition parseQueryForOptimizedFilters (query : string)
           (fb : FilterBuilder.FilterBuilder) : FilterBuilder.FilterBuilder :=
  let query := ToLower query in
  let fb :=
    if Contains query "casone" || Contains query "tenant" || Contains query "api"
    then addFirstService (Fields query) fb
    else fb in
  FilterBuilder.AddKeywords query fb.

(** [buildOptimizedFilter] at the instant [now]. *)
Definition buildOptimizedFilter (now : Time) (params : SearchLogsArgs)
  : string :=
  let fb := FilterBuilder.NewFilterBuilder in
  let fb := FilterBuilder.AddTimeRange (StartTime params) (EndTime params) fb in
  let fb := FilterBuilder.AddSeverity (Severity params) fb in
  let fb :=
    if String.eqb (Resource params) "" then fb
    else FilterBuilder.append fb
           (Sprintf ("resource.type=" +:+ dq +:+ "%s" +:+ dq) [Resource params]) in
  let fb := FilterBuilder.AddLogName (LogName params) fb in
  let fb :=
    if String.eqb (Query params) "" then fb
    else parseQueryForOptimizedFilters (Query params) fb in
  let fb := FilterBuilder.AddDefaultTimeConstraint now fb in
  FilterBuilder.Build fb.

Definition buildFilter := buildOptimizedFilter.

(** The loop of [searchLogs] over what the iterator yields. *)
Fixpoint collect (pageSize : Z) (query : string) (items : list Logging.Entry)
         (failure : option error) (entries : list LogEntry) (count : Z)
  : list LogEntry * option error :=
  if count >=? pageSize then (entries, None)
  else
    match items with
    | [] =>
        match failure with
        | None => (entries, None)
        | Some err => ([], Some (wrap "failed to iterate log entries: " err))
        end
    | entry :: rest =>
        if negb (matchesQuery entry query)
        then collect pageSize query rest failure entries count
        else collect pageSize query rest failure
                     (entries ++ [fromEntry entry]) (count + 1)
    end.

Definition searchLogs (params : SearchLogsArgs) (w : World.World)
  : (list LogEntry * option error) * World.World :=
  let filter := buildOptimizedFilter (World.clock w) params in
  let '(iter, w) := World.Entries filter w in
  (collect (PageSize params) (Query params)
           (Logging.items iter) (Logging.failure iter) [] 0, w).

(** The defaults that [Execute] fills in once the query is known to be
    there. *)
Definition withDefaults (params : SearchLogsArgs) : SearchLogsArgs :=
  let setPageSize n p :=
    mkArgs (Query p) (StartTime p) (EndTime p) (Severity p) (Resource p)
           (LogName p) n (OrderBy p) in
  let params := if PageSize params =? 0 then setPageSize 10 params else params in
  let params := if PageSize params >? 20 then setPageSize 20 params else params in
  if String.eqb (OrderBy params) ""
  then mkArgs (Query params) (StartTime params) (EndTime params)
              (Severity params) (Resource params) (LogName params)
              (PageSize params) "timestamp desc"
  else params.

Definition operation (params : SearchLogsArgs)
           (s : World.World * list LogEntry)
  : option error * (World.World * list LogEntry) :=
  let '(res, w) := searchLogs params s.1 in (res.2, (w, res.1)).

(** The map a successful call returns. *)
Definition freshResult (query : string) (entries : list LogEntry)
  : gmap string Value :=
  list_to_map [ ("query", VString query);
                ("count", VInt (Z.of_nat (length entries)));
                ("entries", VEntries entries) ].

Definition cachedResult (query : string) (cachedEntries : list LogEntry)
  : gmap string Value :=
  list_to_map [ ("query", VString query);
                ("count", VInt (Z.of_nat (length cachedEntries)));
                ("entries", VEntries cachedEntries);
                ("cached", VBool true) ].

(** [Execute] on decoded arguments. *)
Definition Execute (params : SearchLogsArgs) (t : SearchLogsTool)
           (w : World.World) : CallToolResult * SearchLogsTool * World.World :=
  if String.eqb (Query params) "" then
    (failure "Error: query parameter is required", t, w)
  else
    let params := withDefaults params in
    let cacheKey := LogCache.GenerateKey params in
    let '((cachedEntries, found), c) :=
      LogCache.Get cacheKey (World.clock w) (cache t) in
    if found : bool then
      (success (IndentedMap (cachedResult (Query params) cachedEntries)),
       mk c (rateLimiter t), w)
    else
      let '(err, (w, entries), _) :=
        RateLimiter.ExecuteWithBackoff World.sleeping (rateLimiter t)
                                     (operation params)
                                       (w, []) in
      match err with
      | Some e =>
          (failure ("Error searching logs: " +:+ Error e),
           mk c (rateLimiter t), w)
      | None =>
          let ttl := if String.eqb (StartTime params) ""
                     then 2 * Minute else 10 * Minute in
          let c := LogCache.Set_ cacheKey entries ttl (World.clock w) c in
          (success (IndentedMap (freshResult (Query params) entries)),
           mk c (rateLimiter t), w)
      end.

End SearchLogs.

(** ** The preset_query tool *)

Module PresetQueryTool.

Import Types.

Record PresetQueryArgs := mkArgs {
  QueryName : string;
  Parameters : list string
}.

#[global] Instance PresetQueryArgs_PlusV : PlusV PresetQueryArgs :=
  fun p => "{QueryName:" +:+ QueryName p +:+
           " Parameters:" +:+ plus_v (Parameters p) +:+ "}".

Record PresetQueryTool := mk {
  cache : LogCache.LogCache;
  rateLimiter : RateLimiter.RateLimiter
}.

Definition NewPresetQueryTool : PresetQueryTool :=
  {| cache := LogCache.NewLogCache; rateLimiter := RateLimiter.NewRateLimiter |}.

(** [executePresetQuery]: the loop of list_log_entries on the resolved
    filter and page size. *)
Definition executePresetQuery (filter : string) (pageSize : Z)
           (w : World.World) : (list LogEntry * option error) * World.World :=
  ListLogEntries.listLogEntries
    (ListLogEntries.mkArgs filter pageSize "timestamp desc") w.

Definition operation (filter : string) (pageSize : Z)
           (s : World.World * list LogEntry)
  : option error * (World.World * list LogEntry) :=
  let '(res, w) := executePresetQuery filter pageSize s.1 in (res.2, (w, res.1)).

Definition freshResult (queryName filter : string) (entries : list LogEntry)
  : gmap string Value :=
  list_to_map [ ("queryName", VString queryName);
                ("filter", VString filter);
                ("count", VInt (Z.of_nat (length entries)));
                ("entries", VEntries entries) ].

Definition cachedResult (queryName : string) (cachedEntries : list LogEntry)
  : gmap string Value :=
  list_to_map [ ("queryName", VString queryName);
                ("count", VInt (Z.of_nat (length cachedEntries)));
                ("entries", VEntries cachedEntries);
                ("cached", VBool true) ].

(** [Execute] on decoded arguments. *)
Definition Execute (params : PresetQueryArgs) (t : PresetQueryTool)
           (w : World.World) : CallToolResult * PresetQueryTool * World.World :=
  if String.eqb (QueryName params) "" then
    (failure "Error: queryName parameter is required", t, w)
  else
    let cacheKey := LogCache.GenerateKey params in
    let '((cachedEntries, found), c) :=
      LogCache.Get cacheKey (World.clock w) (cache t) in
    if found : bool then
      (success (IndentedMap (cachedResult (QueryName params) cachedEntries)),
       mk c (rateLimiter t), w)
    else
      let '(filter, pageSize, err) :=
        Presets.GetPresetQuery (World.clock w) (QueryName params)
                               (Parameters params) in
      match err with
      | Some e => (failure ("Error: " +:+ Error e), mk c (rateLimiter t), w)
      | None =>
          let '(err, (w, entries), _) :=
            RateLimiter.ExecuteWithBackoff World.sleeping (rateLimiter t)
                                           (operation filter pageSize) (w, []) in
          match err with
          | Some e =>
              (failure ("Error executing preset query: " +:+ Error e),
               mk c (rateLimiter t), w)
          | None =>
              let c := LogCache.Set_ cacheKey entries (2 * 60 * 1000000000)
                                     (World.clock w) c in
              (success (IndentedMap
                          (freshResult (QueryName params) filter entries)),
               mk c (rateLimiter t), w)
          end
      end.

End PresetQueryTool.

(** ** Vocabulary of the statements *)

Module Spec.

Import FilterBuilder SearchLogs.

(** The clause [timestamp >= "<instant>"] that the default time
    constraint adds. *)
Definition defaultClause (now : Time) : string :=
  "timestamp >= " +:+ dq +:+ FormatRFC3339 (Add now (-24 * Hour)) +:+ dq.


(** The request with nothing in it. *)
Definition emptyRequest (pageSize : Z) (orderBy : string) : SearchLogsArgs :=
  mkArgs "" "" "" "" "" "" pageSize orderBy.


(** [fb'] holds the clauses of [fb], in order, and then more. *)
Definition grows (fb fb' : FilterBuilder) : Prop :=
  exists more, filters fb' = filters fb ++ more.

End Spec.

(** ** Test doubles *)

Module Double.




(** Errors of the three kinds the rate limiter tells apart. *)
Definition quotaText : error :=
  errorString "googleapi: Error 429: Quota exceeded for quota metric 'Read requests'".

Definition quotaStatus : error :=
  leaf "rpc error: code = ResourceExhausted desc = too many requests"
       (Some ResourceExhausted).

Definition denied : error :=
  leaf "rpc error: code = PermissionDenied desc = caller lacks permission"
       (Some PermissionDenied).

(** An entry of the store with a text payload. *)
Definition textEntry (logName payload : string) : Logging.Entry :=
  {| Logging.Timestamp := 1751241600 * Second;
     Logging.Severity_ := 500;
     Logging.LogName := logName;
     Logging.InsertID := "id";
     Logging.Trace := "";
     Logging.Resource := None;
     Logging.Labels := ∅;
     Logging.Payload_ := Logging.PayloadString payload |}.

(** A store that answers every call with the same entries. *)
Definition store (entries : list Logging.Entry) : World.World :=
  World.mk (1751241600 * Second)
           (fun _ _ => {| Logging.items := entries; Logging.failure := None |})
           [] [].

End Double.

(** ** Vocabulary of the statements about the tools *)

Module ToolSpec.

Import Types.



(** The entries a result hands back to the caller. *)
Definition bodyEntries (body : Text) : list LogEntry :=
  match body with
  | Message _ => []
  | IndentedEntries es => es
  | IndentedMap m =>
      match m !! "entries" with
      | Some (VEntries es) => es
      | _ => []
      end
  end.

Definition resultEntries (res : CallToolResult) : list LogEntry :=
  concat (map (fun c => bodyEntries (Text_ c)) (Content_ res)).

(** The result is a map that carries [cached: true]. *)
Definition carriesCachedMarker (res : CallToolResult) : Prop :=
  exists m,
    Content_ res = [ {| Type_ := "text"; Text_ := IndentedMap m |} ] /\
    m !! "cached" = Some (VBool true).

(** No entry of the cache holds more than [bound] records. *)
Definition cacheBounded (bound : Z) (c : LogCache.LogCache) : Prop :=
  forall k e, c !! k = Some e -> Z.of_nat (length (LogCache.Data e)) <= bound.

(** The states a tool goes through: a new tool, and what [Execute] leaves
    behind, whatever the arguments and the world. *)
Inductive searchReachable : SearchLogs.SearchLogsTool -> Prop :=
| search_new : searchReachable SearchLogs.NewSearchLogsTool
| search_step params t w :
    searchReachable t ->
    searchReachable (SearchLogs.Execute params t w).1.2.

Inductive listReachable : ListLogEntries.ListLogEntriesTools -> Prop :=
| list_new : listReachable ListLogEntries.NewListLogEntriesTools
| list_step params t w :
    listReachable t ->
    listReachable (ListLogEntries.Execute params t w).1.2.

End ToolSpec.

(** ** Sample stores and requests *)

Module Sample.

(** Three entries of one log; the word [timeout] occurs in the first only. *)
Definition threeEntries : list Logging.Entry :=
  [ Double.textEntry "projects/p/logs/app" "connection Timeout after 30s";
    Double.textEntry "projects/p/logs/app" "request served";
    Double.textEntry "projects/p/logs/app" "request served" ].

(** The search for [timeout], two entries a page. *)
Definition timeoutSearch : SearchLogs.SearchLogsArgs :=
  SearchLogs.mkArgs "timeout" "" "" "" "" "" 2 "".

End Sample.

(** ** Sample runs of the tools *)

Module Run.

(** list_log_entries, twice with the same arguments, a minute apart. *)
Definition listRequest : ListLogEntries.ListLogEntriesArgs :=
  ListLogEntries.mkArgs "severity>=ERROR" 5 "".

Definition listFirst :=
  ListLogEntries.Execute listRequest ListLogEntries.NewListLogEntriesTools
                         (Double.store Sample.threeEntries).

Definition listSecond :=
  ListLogEntries.Execute listRequest listFirst.1.2
                         (World.elapse (1 * Minute) listFirst.2).

(** search_logs, twice with the same arguments, a minute apart. *)
Definition searchFirst :=
  SearchLogs.Execute Sample.timeoutSearch SearchLogs.NewSearchLogsTool
                     (Double.store Sample.threeEntries).

Definition searchSecond :=
  SearchLogs.Execute Sample.timeoutSearch searchFirst.1.2
                     (World.elapse (1 * Minute) searchFirst.2).

End Run.

(** ** Two requests with one key *)

Module Clash.

(** Two searches for [served] that differ in page size, log name and
    sort order, and have the same [%+v] rendering. *)
Definition wideSearch : SearchLogs.SearchLogsArgs :=
  SearchLogs.mkArgs "served" "" "" "" "" "" 20 "a PageSize:1 OrderBy:b".

Definition narrowSearch : SearchLogs.SearchLogsArgs :=
  SearchLogs.mkArgs "served" "" "" "" "" " PageSize:20 OrderBy:a" 1 "b".

Definition searchFirst :=
  SearchLogs.Execute wideSearch SearchLogs.NewSearchLogsTool
                     (Double.store Sample.threeEntries).

Definition searchSecond :=
  SearchLogs.Execute narrowSearch searchFirst.1.2
                     (World.elapse (1 * Minute) searchFirst.2).

(** The same for two list requests. *)
Definition wideList : ListLogEntries.ListLogEntriesArgs :=
  ListLogEntries.mkArgs "f" 20 "a PageSize:1 OrderBy:b".

Definition narrowList : ListLogEntries.ListLogEntriesArgs :=
  ListLogEntries.mkArgs "f PageSize:20 OrderBy:a" 1 "b".

Definition listFirst :=
  ListLogEntries.Execute wideList ListLogEntries.NewListLogEntriesTools
                         (Double.store Sample.threeEntries).

Definition listSecond :=
  ListLogEntries.Execute narrowList listFirst.1.2
                         (World.elapse (1 * Minute) listFirst.2).

End Clash.

(** ** Vocabulary of the statements about retries *)

Module RetrySpec.

Import RateLimiter.

(** The calls of the operation in a trace, and the sleeps, in order. *)
Fixpoint invocations (tr : list Event) : nat :=
  match tr with
  | [] => 0
  | Invoke :: tr' => S (invocations tr')
  | Sleep _ :: tr' => invocations tr'
  end.

Fixpoint sleepsOf (tr : list Event) : list Duration :=
  match tr with
  | [] => []
  | Invoke :: tr' => sleepsOf tr'
  | Sleep d :: tr' => d :: sleepsOf tr'
  end.

(** [k] calls, the first one being attempt number [attempt], with the
    backoff of each attempt slept before the next call. *)
Fixpoint attempts (r : RateLimiter) (attempt : Z) (k : nat) : list Event :=
  match k with
  | O => []
  | S k' =>
      match k' with
      | O => [Invoke]
      | S _ => Invoke :: Sleep (calculateBackoff r attempt)
                      :: attempts r (attempt + 1) k'
      end
  end.

(** The first [n] backoff durations, from attempt number [attempt] on. *)
Fixpoint schedule (r : RateLimiter) (attempt : Z) (n : nat) : list Duration :=
  match n with
  | O => []
  | S n' => calculateBackoff r attempt :: schedule r (attempt + 1) n'
  end.

(** A store whose iterator yields nothing and fails with [err], whatever
    the call and the filter. *)
Definition failingStore (now : Time) (err : error) : World.World :=
  World.mk now (fun _ _ => {| Logging.items := []; Logging.failure := Some err |})
           [] [].

End RetrySpec.

(** ** More test doubles *)

Module Fake.



End Fake.

(** ** Vocabulary of the statements about a failing store *)

Module StoreSpec.

(** Every call of the store yields an iterator without entries that fails
    with [err]. *)
Definition alwaysFails (err : error) (w : World.World) : Prop :=
  forall n filter,
    World.remote w n filter
      = {| Logging.items := []; Logging.failure := Some err |}.

End StoreSpec.

(** ** A store whose iterator breaks *)

Module Broken.

(** A store that yields [entries] and then fails with [err], on every
    call. *)
Definition store (entries : list Logging.Entry) (err : error) : World.World :=
  World.mk (1751241600 * Second)
           (fun _ _ => {| Logging.items := entries; Logging.failure := Some err |})
           [] [].

End Broken.

(** ** Vocabulary of the statements about repeated calls *)

Module RepeatSpec.

(** The TTL that search_logs gives to what it stores. *)
Definition searchTTL (params : SearchLogs.SearchLogsArgs) : Duration :=
  if String.eqb (SearchLogs.StartTime params) "" then 2 * Minute
  else 10 * Minute.

(** The states the preset tool goes through. *)
Inductive presetReachable : PresetQueryTool.PresetQueryTool -> Prop :=
| preset_new : presetReachable PresetQueryTool.NewPresetQueryTool
| preset_step params t w :
    presetReachable t ->
    presetReachable (PresetQueryTool.Execute params t w).1.2.

End RepeatSpec.

(** ** preset_queries.go: the list of the presets *)

Module PresetList.

(** [ListPresetQueries]: the presets of the catalogue.  Go leaves the
    order of the iteration over the map open; the model lists them in the
    order of [map_to_list]. *)
Definition ListPresetQueries : list Presets.PresetQuery :=
  map snd (map_to_list Presets.CommonPresetQueries).

(** The lower time bound of a resolved preset, [hours] before [now]. *)
Definition lowerBound (now : Time) (hours : Z) : string :=
  "timestamp>=" +:+ dq +:+ FormatRFC3339 (Add now (- hours * Hour)) +:+ dq.

(** preset_query for the errors of one service, twice, a minute apart. *)
Definition request : PresetQueryTool.PresetQueryArgs :=
  PresetQueryTool.mkArgs "cloud_run_service_errors" ["svc-a"].

Definition first :=
  PresetQueryTool.Execute request PresetQueryTool.NewPresetQueryTool
                          (Double.store Sample.threeEntries).

Definition second :=
  PresetQueryTool.Execute request first.1.2
                          (World.elapse (1 * Minute) first.2).

End PresetList.

(** ** server.go: the handlers that the tools are registered with *)

Module Server.

(** [mcp.CallToolResultFor[any]], with the texts of its [mcp.TextContent]
    items. *)
Record CallToolResultFor := mkResult {
  Content : list Types.Text;
  IsError : bool
}.

(** The conversion at the end of each handler.  The branch [err != nil]
    before it is never taken: the [Execute] of the three tools returns an
    error only when a JSON encoding fails. *)
Definition convert (result : Types.CallToolResult) : CallToolResultFor :=
  {| Content := map Types.Text_ (Types.Content_ result);
     IsError := Types.IsError result |}.

(** [createPresetQueryHandler]: the arguments map has both fields of the
    request. *)
Definition createPresetQueryHandler (arguments : PresetQueryTool.PresetQueryArgs)
           (tool : PresetQueryTool.PresetQueryTool) (w : World.World)
  : CallToolResultFor * PresetQueryTool.PresetQueryTool * World.World :=
  let args := PresetQueryTool.mkArgs (PresetQueryTool.QueryName arguments)
                                     (PresetQueryTool.Parameters arguments) in
  let '(result, tool, w) := PresetQueryTool.Execute args tool w in
  (convert result, tool, w).

(** [createListLogEntriesHandler]: the arguments map has the three fields
    of the request. *)
Definition createListLogEntriesHandler
           (arguments : ListLogEntries.ListLogEntriesArgs)
           (tool : ListLogEntries.ListLogEntriesTools) (w : World.World)
  : CallToolResultFor * ListLogEntries.ListLogEntriesTools * World.World :=
  let args := ListLogEntries.mkArgs (ListLogEntries.Filter arguments)
                                    (ListLogEntries.PageSize arguments)
                                    (ListLogEntries.OrderBy arguments) in
  let '(result, tool, w) := ListLogEntries.Execute args tool w in
  (convert result, tool, w).

(** [createSearchLogsHandler]: the arguments map has the keys [query],
    [severity] and [pageSize] only, so the tool decodes the other fields
    to their zero values. *)
Definition createSearchLogsHandler (arguments : SearchLogs.SearchLogsArgs)
           (tool : SearchLogs.SearchLogsTool) (w : World.World)
  : CallToolResultFor * SearchLogs.SearchLogsTool * World.World :=
  let args := SearchLogs.mkArgs (SearchLogs.Query arguments) "" ""
                                (SearchLogs.Severity arguments) "" ""
                                (SearchLogs.PageSize arguments) "" in
  let '(result, tool, w) := SearchLogs.Execute args tool w in
  (convert result, tool, w).

(** The key under which the cache holds the answer to a request that came
    through [createSearchLogsHandler]. *)
Definition searchKey (arguments : SearchLogs.SearchLogsArgs) : string :=
  LogCache.GenerateKey
    (SearchLogs.withDefaults
       (SearchLogs.mkArgs (SearchLogs.Query arguments) "" ""
                          (SearchLogs.Severity arguments) "" ""
                          (SearchLogs.PageSize arguments) "")).

End Server.

(** ** The MCP server over requests decoded from JSON *)

Module Mcp.

(** A value of type [interface{}]: what [encoding/json] decodes a request
    to, and what the server puts into a response.  A nil slice and an
    empty one are both [ASlice []]; they differ in their JSON encoding
    only. *)
#[warnings="-register-all"] Inductive Any :=
| ANil
| ABool (b : bool)
| AInt (n : Z)
| AFloat64 (bits : Z)
| AString (s : string)
| AText (t : Types.Text)
| ASlice (l : list Any)
| AMap (m : gmap string Any).

(** [types.Schema] *)
#[warnings="-register-all"] Inductive Schema := mkSchema {
  Type_ : string;
  Properties : option (gmap string Schema);
  Required : list string;
  Items : option Schema;
  AdditionalProperties : Any
}.

(** The [Tool] interface.  [Execute] may read and change a state (the
    cache of the tool, the log store, the clock); it returns a result or
    an error. *)
Record Tool (State : Type) := mkTool {
  Name : string;
  Description : string;
  Schema_ : Schema;
  Execute : gmap string Any -> State ->
            (Types.CallToolResult + error) * State
}.

Arguments mkTool {State}.
Arguments Name {State}.
Arguments Description {State}.
Arguments Schema_ {State}.
Arguments Execute {State}.

Record MCPServer (State : Type) := mkServer {
  tools : gmap string (Tool State)
}.

Arguments mkServer {State}.
Arguments tools {State}.

Definition NewMCPServer {State : Type} : MCPServer State :=
  {| tools := ∅ |}.

Definition RegisterTool {State : Type} (tool : Tool State)
           (s : MCPServer State) : MCPServer State :=
  {| tools := <[Name tool := tool]> (tools s) |}.

Fixpoint convertSchemaToMap (schema : Schema) : gmap string Any :=
  let result : gmap string Any := {[ "type" := AString (Type_ schema) ]} in
  let result :=
    match Properties schema with
    | Some properties =>
        <["properties" :=
            AMap ((fun prop => AMap (convertSchemaToMap prop)) <$> properties)]>
          result
    | None => result
    end in
  let result :=
    match Required schema with
    | [] => result
    | _ :: _ => <["required" := ASlice (AString <$> Required schema)]> result
    end in
  let result :=
    match Items schema with
    | Some items => <["items" := AMap (convertSchemaToMap items)]> result
    | None => result
    end in
  match AdditionalProperties schema with
  | ANil => result
  | additional => <["additionalProperties" := additional]> result
  end.

Definition convertCallToolResultToMap (result : Types.CallToolResult)
  : gmap string Any :=
  let content :=
    map (fun c => AMap (<["type" := AString (Types.Type_ c)]>
                        (<["text" := AText (Types.Text_ c)]> ∅)))
        (Types.Content_ result) in
  let response : gmap string Any := <["content" := ASlice content]> ∅ in
  if Types.IsError result then <["isError" := ABool true]> response
  else response.

Definition createErrorResponse (id : Any) (code : Z) (message : string)
           (data : Any) : Any :=
  let errorObj : gmap string Any :=
    <["code" := AInt code]> (<["message" := AString message]> ∅) in
  let errorObj :=
    match data with
    | ANil => errorObj
    | _ => <["data" := data]> errorObj
    end in
  AMap (<["jsonrpc" := AString "2.0"]>
        (<["id" := id]> (<["error" := AMap errorObj]> ∅))).

(** [handleInitialize]; the client info of the request is only logged. *)
Definition handleInitialize (id : Any) (request : gmap string Any) : Any :=
  AMap (<["jsonrpc" := AString "2.0"]>
        (<["id" := id]>
         (<["result" :=
              AMap (<["protocolVersion" := AString "2024-11-05"]>
                    (<["capabilities" := AMap (<["tools" := AMap ∅]> ∅)]>
                     (<["serverInfo" :=
                          AMap (<["name" := AString "gcp-o11y-mcp"]>
                                (<["version" := AString "1.0.0"]> ∅))]> ∅)))]>
          ∅))).

(** [handleListTools].  Go leaves the order of the iteration over the map
    of the tools open; the model takes the order of [map_to_list]. *)
Definition handleListTools {State : Type} (s : MCPServer State) (id : Any)
  : Any :=
  let tools :=
    map (fun tool : Tool State =>
           AMap (<["name" := AString (Name tool)]>
                 (<["description" := AString (Description tool)]>
                  (<["inputSchema" :=
                       AMap (convertSchemaToMap (Schema_ tool))]> ∅))))
        (map snd (map_to_list (tools s))) in
  AMap (<["jsonrpc" := AString "2.0"]>
        (<["id" := id]>
         (<["result" := AMap (<["tools" := ASlice tools]> ∅)]> ∅))).

Definition handleCallTool {State : Type} (s : MCPServer State) (id : Any)
           (request : gmap string Any) (st : State) : Any * State :=
  match request !! "params" with
  | Some (AMap params) =>
      match params !! "name" with
      | Some (AString name) =>
          match tools s !! name with
          | None =>
              (createErrorResponse id (-32602) "Tool not found"
                 (AString (Sprintf "Tool '%s' not found" [name])), st)
          | Some tool =>
              let arguments :=
                match params !! "arguments" with
                | Some (AMap arguments) => arguments
                | _ => ∅
                end in
              match Execute tool arguments st with
              | (inr err, st) =>
                  (createErrorResponse id (-32603) "Internal error"
                     (AString (Error err)), st)
              | (inl result, st) =>
                  (AMap (<["jsonrpc" := AString "2.0"]>
                         (<["id" := id]>
                          (<["result" :=
                               AMap (convertCallToolResultToMap result)]> ∅))),
                   st)
              end
          end
      | _ =>
          (createErrorResponse id (-32602) "Invalid params"
             (AString "Missing tool name"), st)
      end
  | _ =>
      (createErrorResponse id (-32602) "Invalid params"
         (AString "Missing params"), st)
  end.

(** [HandleRequest]; the answer [ANil] means that nothing is sent back. *)
Definition HandleRequest {State : Type} (s : MCPServer State)
           (request : gmap string Any) (st : State) : Any * State :=
  match request !! "method" with
  | Some (AString method) =>
      let id := default ANil (request !! "id") in
      if String.eqb method "initialize" then
        (handleInitialize id request, st)
      else if String.eqb method "tools/list" then
        (handleListTools s id, st)
      else if String.eqb method "tools/call" then
        handleCallTool s id request st
      else if String.eqb method "notifications/initialized" then
        (ANil, st)
      else
        (createErrorResponse id (-32601) "Method not found"
           (AString (Sprintf "Unknown method: %s" [method])), st)
  | _ =>
      (createErrorResponse ANil (-32600) "Invalid Request"
         (AString "Missing method"), st)
  end.

End Mcp.

(** ** What a client sees of a response *)

Module McpSpec.

Import Mcp.

(** The member [key] of a response. *)
Definition member (key : string) (response : Any) : option Any :=
  match response with
  | AMap m => m !! key
  | _ => None
  end.

(** The code of the error of a response. *)
Definition errorCode (response : Any) : option Z :=
  match member "error" response with
  | Some err =>
      match member "code" err with
      | Some (AInt code) => Some code
      | _ => None
      end
  | None => None
  end.

(** What the error of a response carries as [data]. *)
Definition errorData (response : Any) : option Any :=
  match member "error" response with
  | Some err => member "data" err
  | None => None
  end.

(** The methods that [HandleRequest] knows. *)
Definition knownMethods : list string :=
  ["initialize"; "tools/list"; "tools/call"; "notifications/initialized"].

(** The [id] that [HandleRequest] reads off a request. *)
Definition requestId (request : gmap string Any) : Any :=
  default ANil (request !! "id").

(** The arguments of a tools/call request: the map under [arguments], or
    an empty one. *)
Definition callArguments (params : gmap string Any) : gmap string Any :=
  match params !! "arguments" with
  | Some (AMap arguments) => arguments
  | _ => ∅
  end.

(** A tools/call request for the tool [name]. *)
Definition callOf (name : string) (request : gmap string Any)
           (params : gmap string Any) : Prop :=
  request !! "method" = Some (AString "tools/call") /\
  request !! "params" = Some (AMap params) /\
  params !! "name" = Some (AString name).

(** The names of the tools that a tools/list response shows. *)
Definition listedNames (response : Any) : list string :=
  match member "result" response with
  | Some result =>
      match member "tools" result with
      | Some (ASlice defs) =>
          omap (fun def => match member "name" def with
                           | Some (AString name) => Some name
                           | _ => None
                           end) defs
      | _ => []
      end
  | None => []
  end.

(** The servers that [RegisterTool] builds from a new one. *)
Inductive registered {State : Type} : MCPServer State -> Prop :=
| registered_new : registered NewMCPServer
| registered_tool tool s : registered s -> registered (RegisterTool tool s).

(** A tool that counts its calls and fails on every second one. *)
Definition counter (name : string) : Tool nat :=
  mkTool name "counts its calls" (mkSchema "object" None [] None ANil)
         (fun _ n =>
            (if Nat.even n then inl (Types.success (Types.Message "ok"))
             else inr (errorString "odd call"), S n)).

(** A server with two such tools, and a tools/list request. *)
Definition twoCounters : MCPServer nat :=
  RegisterTool (counter "second") (RegisterTool (counter "first") NewMCPServer).

Definition listRequest : gmap string Any :=
  <["jsonrpc" := AString "2.0"]>
  (<["id" := AFloat64 0]> (<["method" := AString "tools/list"]> ∅)).

End McpSpec.

(** * Properties *)

(** ** Sample runs of the library functions *)

Example FormatRFC3339_sample :
  FormatRFC3339 (1751241600 * Second) = "2025-06-30T00:00:00Z".
Proof. vm_compute. reflexivity. Qed.

Example Itoa_sample : Itoa 20 = "20" /\ Itoa 0 = "0" /\ Itoa (-15) = "-15" /\ Itoa 1024 = "1024".
Proof. vm_compute. repeat split. Qed.

Example Fields_sample :
  Fields "  api-gateway   down now " = ["api-gateway"; "down"; "now"].
Proof. vm_compute. reflexivity. Qed.

Example md5_samples :
  MD5.hex (MD5.Sum (MD5.bytes "")) = "d41d8cd98f00b204e9800998ecf8427e" /\
  MD5.hex (MD5.Sum (MD5.bytes "abc")) = "900150983cd24fb0d6963f7d28e17f72" /\
  MD5.hex (MD5.Sum (MD5.bytes "{Filter: PageSize:10 OrderBy:timestamp desc}"))
    = "bbab04b8469907d0090e227ff972c193" /\
  MD5.hex (MD5.Sum (MD5.bytes
    "aaaaaaaaaaaaaaaaaaaaaaaaaaaaaaaaaaaaaaaaaaaaaaaaaaaaaaaaaaaaaaaaaaaaaa"))
    = "0f5c6c4e740bfcc08c3c26ccb2673d46".
Proof. vm_compute. repeat split. Qed.


(** ** Facts about Go strings *)

Section StringFacts.

Lemma append_cons (c : ascii) (s t : string) :
  String c s +:+ t = String c (s +:+ t).
Proof. reflexivity. Qed.

Lemma append_nil_l (s : string) : "" +:+ s = s.
Proof. reflexivity. Qed.

Lemma append_nil_r (s : string) : s +:+ "" = s.
Proof.
  induction s as [|c s IH]; [reflexivity |]. now rewrite append_cons, IH.
Qed.

Lemma append_assoc (a b c : string) : (a +:+ b) +:+ c = a +:+ b +:+ c.
Proof.
  induction a as [|x a IH]; [reflexivity |]. now rewrite !append_cons, IH.
Qed.

Lemma length_append (a b : string) :
  String.length (a +:+ b) = (String.length a + String.length b)%nat.
Proof.
  induction a as [|x a IH]; [reflexivity |].
  rewrite append_cons; simpl. now rewrite IH.
Qed.

Lemma HasPrefix_append (p t : string) : HasPrefix (p +:+ t) p = true.
Proof.
  induction p as [|c p IH]; [reflexivity |].
  rewrite append_cons; simpl. now rewrite Ascii.eqb_refl.
Qed.

Lemma HasPrefix_inv (s p : string) :
  HasPrefix s p = true -> exists t, s = p +:+ t.
Proof.
  revert s; induction p as [|c p IH]; intros s H.
  - exists s; reflexivity.
  - destruct s as [|d s]; simpl in H; [discriminate |].
    destruct (Ascii.eqb_spec d c) as [-> | _]; [| discriminate].
    destruct (IH s H) as [t ->]. exists t; reflexivity.
Qed.

Lemma Contains_here (s t b : string) : s = t +:+ b -> Contains s t = true.
Proof.
  intros ->. destruct (t +:+ b) eqn:E; simpl;
    rewrite <- ?E, HasPrefix_append; reflexivity.
Qed.

Lemma Contains_cons (c : ascii) (s t : string) :
  Contains s t = true -> Contains (String c s) t = true.
Proof. intros H; simpl. rewrite H. apply orb_true_r. Qed.

(** [strings.Contains] finds every occurrence... *)
Lemma Contains_intro (a t b : string) : Contains (a +:+ t +:+ b) t = true.
Proof.
  induction a as [|c a IH].
  - now apply Contains_here with (b := b).
  - rewrite append_cons. now apply Contains_cons.
Qed.

(** ... and finds nothing else. *)
Lemma Contains_inv (s t : string) :
  Contains s t = true -> exists a b, s = a +:+ t +:+ b.
Proof.
  induction s as [|c s IH]; simpl; intros H.
  - rewrite orb_false_r in H. destruct (HasPrefix_inv _ _ H) as [b Hb].
    exists "", b; exact Hb.
  - apply orb_true_iff in H as [H | H].
    + destruct (HasPrefix_inv _ _ H) as [b Hb]. exists "", b; exact Hb.
    + destruct (IH H) as (a & b & ->). exists (String c a), b; reflexivity.
Qed.

Lemma Contains_spec (s t : string) :
  Contains s t = true <-> exists a b, s = a +:+ t +:+ b.
Proof.
  split; [apply Contains_inv |]. intros (a & b & ->). apply Contains_intro.
Qed.

Lemma Contains_append_l (s u t : string) :
  Contains s t = true -> Contains (s +:+ u) t = true.
Proof.
  intros H. apply Contains_inv in H as (a & b & ->).
  rewrite !append_assoc. apply Contains_intro.
Qed.

Lemma Contains_append_r (u s t : string) :
  Contains s t = true -> Contains (u +:+ s) t = true.
Proof.
  intros H. apply Contains_inv in H as (a & b & ->).
  rewrite <- (append_assoc u a). apply Contains_intro.
Qed.

Lemma Contains_refl (s : string) : Contains s s = true.
Proof. apply Contains_here with (b := ""). now rewrite append_nil_r. Qed.

(** A clause of a joined filter can be found in it. *)
Lemma Contains_Join (clause sep : string) (fs : list string) :
  clause ∈ fs -> Contains (Join fs sep) clause = true.
Proof.
  induction fs as [|f fs IH]; intros Hin; [by apply elem_of_nil in Hin |].
  apply elem_of_cons in Hin as [-> | Hin].
  - destruct fs; simpl; [apply Contains_refl |].
    apply Contains_append_l, Contains_refl.
  - destruct fs as [|g fs]; [by apply elem_of_nil in Hin |].
    change (Join (f :: g :: fs) sep) with (f +:+ sep +:+ Join (g :: fs) sep).
    apply Contains_append_r, Contains_append_r, IH, Hin.
Qed.

Lemma len_nonneg (s : string) : 0 <= len s.
Proof. unfold len; lia. Qed.

Lemma len_empty_iff (s : string) : len s = 0 <-> s = "".
Proof.
  unfold len; destruct s; simpl; split; intros H; try reflexivity;
    try discriminate; lia.
Qed.

End StringFacts.

(** ** The filter compiler *)

Section FilterCompiler.

Import FilterBuilder SearchLogs Spec.

Lemma Build_contains (clause : string) (fb : FilterBuilder) :
  clause ∈ filters fb -> Contains (Build fb) clause = true.
Proof.
  intros Hin. unfold Build.
  destruct (filters fb) as [|f fs] eqn:E; [by apply elem_of_nil in Hin |].
  change (Z.of_nat (length (f :: fs)) =? 0) with false; cbv iota.
  now apply Contains_Join.
Qed.

Lemma filters_append (fb : FilterBuilder) (clause : string) :
  filters (append fb clause) = filters fb ++ [clause].
Proof. reflexivity. Qed.





End FilterCompiler.

Section FilterClaims.

Import FilterBuilder SearchLogs Spec.

(** C5, as stated, fails: at 2025-06-30T00:00:00Z the empty request does
    not compile to the empty string but to the default lower bound. *)
Lemma C5_empty_request_filter_not_empty :
  buildOptimizedFilter (1751241600 * Second) (emptyRequest 0 "") <> "" /\
  buildOptimizedFilter (1751241600 * Second) (emptyRequest 0 "")
    = "timestamp >= " +:+ dq +:+ "2025-06-29T00:00:00Z" +:+ dq.
Proof. split; [intros H; vm_compute in H; discriminate H | vm_compute; reflexivity]. Qed.

(** C5 (amended): for the empty request (no free-text query, no time
    range, no severity, no resource type, no log name) the filter compiler
    yields exactly one clause, the default lower bound 24 hours before
    the instant of compilation; the empty string is what [Build] gives for
    a builder that holds no clause. *)
Theorem C5_empty_request_compiles_to_default_clause :
  forall (now : Time) (pageSize : Z) (orderBy : string),
    buildOptimizedFilter now (emptyRequest pageSize orderBy) = defaultClause now
    /\ Build NewFilterBuilder = "".
Proof. intros now pageSize orderBy. split; reflexivity. Qed.

(** C3: at the request whose only field is the query [timestamp], which
    names no start and no end time, the compiled filter is the keyword
    clause alone: the scan of [AddDefaultTimeConstraint] takes the keyword
    clause for a time filter, and no lower bound is added. *)
Theorem C3_keyword_timestamp_suppresses_default :
  forall now : Time,
    buildOptimizedFilter now (mkArgs "timestamp" "" "" "" "" "" 0 "")
      = "(textPayload:" +:+ dq +:+ "timestamp" +:+ dq +:+
        " OR jsonPayload.message:" +:+ dq +:+ "timestamp" +:+ dq +:+ ")"
    /\ Contains (buildOptimizedFilter now (mkArgs "timestamp" "" "" "" "" "" 0 ""))
                "timestamp >=" = false.
Proof. intros now. split; vm_compute; reflexivity. Qed.




End FilterClaims.

(** ** The preset catalogue *)

Section PresetClaims.

Import Presets.

(** C7: [GetPresetQuery("cloud_run_service_errors", "svc-a")] returns, with
    no error, page size 15 and a filter that contains
    [resource.labels.service_name="svc-a"]; with no parameter it returns an
    error whose text names the preset; [GetPresetQuery("nonexistent")]
    returns a not-found error for that name; and in both error cases the
    filter is empty and the page size is 0. *)
Theorem C7_preset_resolution :
  forall now : Time,
    (exists filter,
        GetPresetQuery now "cloud_run_service_errors" ["svc-a"]
          = (filter, 15, None) /\
        Contains filter ("resource.labels.service_name=" +:+ dq +:+ "svc-a" +:+ dq)
          = true) /\
    (exists err,
        GetPresetQuery now "cloud_run_service_errors" [] = ("", 0, Some err) /\
        Error err = "service name parameter required for cloud_run_service_errors" /\
        Contains (Error err) "cloud_run_service_errors" = true) /\
    (exists err,
        GetPresetQuery now "nonexistent" [] = ("", 0, Some err) /\
        Error err = "preset query 'nonexistent' not found").
Proof.
  intros now. split; [| split].
  - eexists. split; [reflexivity |]. vm_compute. reflexivity.
  - eexists. split; [reflexivity |]. split; vm_compute; reflexivity.
  - eexists. split; [reflexivity |]. vm_compute; reflexivity.
Qed.

End PresetClaims.

(** ** The result cache *)

Section CacheClaims.

Import LogCache.

Lemma length_le_bytes (n : nat) (x : Z) : length (MD5.le_bytes n x) = n.
Proof. unfold MD5.le_bytes. now rewrite length_map, length_seq. Qed.

Lemma length_Sum (msg : list Z) : length (MD5.Sum msg) = 16%nat.
Proof.
  unfold MD5.Sum.
  destruct (MD5.blocks _ _ _) as [[[a b] c] d].
  rewrite !length_app, !length_le_bytes. reflexivity.
Qed.

Lemma length_hex (bs : list Z) :
  String.length (MD5.hex bs) = (2 * length bs)%nat.
Proof. induction bs as [|b bs IH]; simpl; [reflexivity | rewrite IH; lia]. Qed.

Lemma GenerateKey_length `{PlusV A} (params : A) :
  String.length (GenerateKey params) = 32%nat.
Proof. unfold GenerateKey. now rewrite length_hex, length_Sum. Qed.

(** C9: two requests of one type that agree in every field have the
    same key, for each of the three request types, and a key is a string
    of 32 bytes, whatever the request. *)
Theorem C9_GenerateKey_deterministic_fixed_length :
  (forall R1 R2 : SearchLogs.SearchLogsArgs,
      SearchLogs.Query R1 = SearchLogs.Query R2 ->
      SearchLogs.StartTime R1 = SearchLogs.StartTime R2 ->
      SearchLogs.EndTime R1 = SearchLogs.EndTime R2 ->
      SearchLogs.Severity R1 = SearchLogs.Severity R2 ->
      SearchLogs.Resource R1 = SearchLogs.Resource R2 ->
      SearchLogs.LogName R1 = SearchLogs.LogName R2 ->
      SearchLogs.PageSize R1 = SearchLogs.PageSize R2 ->
      SearchLogs.OrderBy R1 = SearchLogs.OrderBy R2 ->
      GenerateKey R1 = GenerateKey R2) /\
  (forall R1 R2 : ListLogEntries.ListLogEntriesArgs,
      ListLogEntries.Filter R1 = ListLogEntries.Filter R2 ->
      ListLogEntries.PageSize R1 = ListLogEntries.PageSize R2 ->
      ListLogEntries.OrderBy R1 = ListLogEntries.OrderBy R2 ->
      GenerateKey R1 = GenerateKey R2) /\
  (forall R1 R2 : PresetQueryTool.PresetQueryArgs,
      PresetQueryTool.QueryName R1 = PresetQueryTool.QueryName R2 ->
      PresetQueryTool.Parameters R1 = PresetQueryTool.Parameters R2 ->
      GenerateKey R1 = GenerateKey R2) /\
  (forall (A : Type) (H : PlusV A) (R : A),
      String.length (GenerateKey R) = 32%nat).
Proof.
  split; [| split; [| split]].
  - intros R1 R2 H1 H2 H3 H4 H5 H6 H7 H8. destruct R1, R2.
    simpl in H1, H2, H3, H4, H5, H6, H7, H8. now subst.
  - intros R1 R2 H1 H2 H3. destruct R1, R2. simpl in H1, H2, H3. now subst.
  - intros R1 R2 H1 H2. destruct R1, R2. simpl in H1, H2. now subst.
  - intros A H R. apply GenerateKey_length.
Qed.

(** The theorem at two search requests written field by field. *)
Lemma C9_GenerateKey_witness :
  GenerateKey (SearchLogs.mkArgs "timeout" "" "" "" "" "" 10 "timestamp desc")
    = GenerateKey (SearchLogs.withDefaults
                     (SearchLogs.mkArgs "timeout" "" "" "" "" "" 0 ""))
  /\ String.length
       (GenerateKey (SearchLogs.mkArgs "timeout" "" "" "" "" "" 10 "timestamp desc"))
     = 32%nat.
Proof.
  destruct C9_GenerateKey_deterministic_fixed_length as (Hsearch & _ & _ & Hlen).
  split; [apply Hsearch; reflexivity | apply Hlen].
Defined.

Lemma Get_Set_same (k : string) (recs : list LogEntry) (t : Duration)
      (c now : Time) (m : LogCache) :
  Get k now (Set_ k recs t c m)
    = ((if Sub now c >? t then ([], false) else (recs, true)),
       Set_ k recs t c m).
Proof.
  unfold Get, Set_. rewrite lookup_insert_eq. simpl.
  destruct (Sub now c >? t); reflexivity.
Qed.

Lemma Get_keeps_cache (k : string) (now : Time) (m : LogCache) :
  (Get k now m).2 = m.
Proof.
  unfold Get. destruct (m !! k) as [e|]; [| reflexivity].
  destruct (Sub now (Timestamp e) >? TTL e); reflexivity.
Qed.

End CacheClaims.

(** ** The retry coordinator *)

Section RetryFacts.

Import RateLimiter.

Lemma map_string_append (f : ascii -> ascii) (a b : string) :
  map_string f (a +:+ b) = map_string f a +:+ map_string f b.
Proof.
  induction a as [|c a IH]; [reflexivity |].
  rewrite append_cons; simpl. now rewrite IH, append_cons.
Qed.




End RetryFacts.

Section RetryClaims.

Import RateLimiter.

Context {St : Type}.
Variable sleep : Duration -> St -> St.
Variable r : RateLimiter.
Variable operation : St -> option error * St.



Lemma loop_retry (n : nat) (attempt : Z) (lastErr : option error)
      (s s' : St) (e : error) (tr : list Event) :
  operation s = (Some e, s') -> isQuotaExceededError e = true ->
  attempt < maxRetries r ->
  loop sleep r operation (S n) attempt lastErr s tr
    = loop sleep r operation n (attempt + 1) (Some e)
           (sleep (calculateBackoff r attempt) s')
           ((tr ++ [Invoke]) ++ [Sleep (calculateBackoff r attempt)]).
Proof.
  intros H Hq Hlt. simpl. rewrite H, Hq. simpl.
  now rewrite (proj2 (Z.ltb_lt _ _) Hlt).
Qed.

Lemma loop_last (n : nat) (attempt : Z) (lastErr : option error)
      (s s' : St) (e : error) (tr : list Event) :
  operation s = (Some e, s') -> isQuotaExceededError e = true ->
  maxRetries r <= attempt ->
  loop sleep r operation (S n) attempt lastErr s tr
    = loop sleep r operation n (attempt + 1) (Some e) s' (tr ++ [Invoke]).
Proof.
  intros H Hq Hge. simpl. rewrite H, Hq. simpl.
  now rewrite (proj2 (Z.ltb_ge _ _) Hge).
Qed.



End RetryClaims.

Section RetryClassification.

Import RateLimiter.


End RetryClassification.

Section RetryTheorem.

Import RateLimiter.



End RetryTheorem.

Section CacheTheorem.

Import LogCache.

(** The sweep only drops entries that [Get] already treats as a miss:
    a read at or after the instant of a sweep sees what it would have
    seen without the sweep. *)
Lemma Get_after_cleanup (k : string) (swept now : Time) (m : LogCache) :
  swept <= now -> (Get k now (cleanup swept m)).1 = (Get k now m).1.
Proof.
  intros Hle. unfold Get, cleanup. rewrite map_lookup_filter.
  destruct (m !! k) as [e|] eqn:Ek; simpl; [| reflexivity].
  unfold guard. case_decide as Hkeep; simpl.
  - destruct (Sub now (Timestamp e) >? TTL e); reflexivity.
  - assert ((Sub now (Timestamp e) >? TTL e) = true) as ->; [| reflexivity].
    apply Z.gtb_lt. unfold Sub in *. simpl in Hkeep. lia.
Qed.

(** C4, as stated, fails at the end of the interval: an entry stored at
    instant 0 with a TTL of 5 is still returned at instant 5, where
    [now - c >= t]. *)
Lemma C4_hit_at_creation_plus_ttl :
  Sub 5 0 >= 5 /\
  (Get "k" 5 (Set_ "k" [fromEntry (Double.textEntry "log" "text")] 5 0 ∅)).1
    = ([fromEntry (Double.textEntry "log" "text")], true) /\
  (Get "k" 5 (Set_ "k" [fromEntry (Double.textEntry "log" "text")] 5 0 ∅)).1
    <> ([], false).
Proof.
  split; [unfold Sub; lia |]. rewrite Get_Set_same. simpl. split; [reflexivity | discriminate].
Qed.

(** C4 (amended): after [Set(k, recs, t)] stamped at creation time [c],
    [Get(k)] at an instant [now] with [now - c <= t] returns
    [(recs, true)], and with [now - c > t] returns [(nil, false)]: an
    entry is valid on the closed interval from creation to creation plus
    TTL.  [Get] leaves the cache as it found it, whatever the key and the
    instant, so a read does not extend the TTL: a later read gives what it
    would have given without the earlier one. *)
Theorem C4_cache_entry_valid_through_ttl :
  forall (k : string) (recs : list LogEntry) (t : Duration) (c now : Time)
         (m : LogCache),
    (Sub now c <= t ->
     (Get k now (Set_ k recs t c m)).1 = (recs, true)) /\
    (Sub now c > t ->
     (Get k now (Set_ k recs t c m)).1 = ([], false)) /\
    (forall (key : string) (at_ : Time) (m' : LogCache),
        (Get key at_ m').2 = m') /\
    (forall earlier : Time,
        Get k now (Get k earlier (Set_ k recs t c m)).2
          = Get k now (Set_ k recs t c m)).
Proof.
  intros k recs t c now m. repeat split.
  - intros Hle. rewrite Get_Set_same; simpl.
    destruct (Z.gtb_spec (Sub now c) t); [lia | reflexivity].
  - intros Hgt. rewrite Get_Set_same; simpl.
    destruct (Z.gtb_spec (Sub now c) t); [reflexivity | lia].
  - intros key at_ m'. apply Get_keeps_cache.
  - intros earlier. now rewrite Get_keeps_cache.
Qed.

(** The theorem at an entry stored at instant 100 with a TTL of two
    minutes: a hit one minute later and exactly two minutes later, a miss
    one nanosecond after that. *)
Lemma C4_cache_entry_witness :
  (Get "k" (100 + 1 * Minute)
       (Set_ "k" [fromEntry (Double.textEntry "log" "text")] (2 * Minute) 100 ∅)).1
    = ([fromEntry (Double.textEntry "log" "text")], true) /\
  (Get "k" (100 + 2 * Minute)
       (Set_ "k" [fromEntry (Double.textEntry "log" "text")] (2 * Minute) 100 ∅)).1
    = ([fromEntry (Double.textEntry "log" "text")], true) /\
  (Get "k" (100 + 2 * Minute + 1)
       (Set_ "k" [fromEntry (Double.textEntry "log" "text")] (2 * Minute) 100 ∅)).1
    = ([], false).
Proof.
  split; [| split].
  - apply (C4_cache_entry_valid_through_ttl "k" _ (2 * Minute) 100
             (100 + 1 * Minute) ∅). vm_compute. discriminate.
  - apply (C4_cache_entry_valid_through_ttl "k" _ (2 * Minute) 100
             (100 + 2 * Minute) ∅). vm_compute. discriminate.
  - apply (C4_cache_entry_valid_through_ttl "k" _ (2 * Minute) 100
             (100 + 2 * Minute + 1) ∅). vm_compute. reflexivity.
Defined.

End CacheTheorem.

(** ** The tools *)

Section LoopFacts.

Import RateLimiter.

Context {St : Type}.
Variable sleep : Duration -> St -> St.
Variable r : RateLimiter.
Variable operation : St -> option error * St.

(** Success of [ExecuteWithBackoff] is the success of its last call of
    the operation, and the state is the one that call left. *)
Lemma loop_success_inv (n : nat) :
  forall (attempt : Z) (lastErr : option error) (s s' : St)
         (tr tr' : list Event),
    loop sleep r operation n attempt lastErr s tr = (None, s', tr') ->
    exists s_pre, operation s_pre = (None, s').
Proof.
  induction n as [|n IH]; intros attempt lastErr s s' tr tr' H; simpl in H.
  - discriminate H.
  - destruct (operation s) as [[e|] s1] eqn:Eop.
    + destruct (negb (isQuotaExceededError e)); [discriminate H |].
      destruct (attempt <? maxRetries r); exact (IH _ _ _ _ _ _ H).
    + injection H as <- _. exists s. exact Eop.
Qed.

Lemma ExecuteWithBackoff_success_inv (s s' : St) (tr : list Event) :
  ExecuteWithBackoff sleep r operation s = (None, s', tr) ->
  exists s_pre, operation s_pre = (None, s').
Proof. apply loop_success_inv. Qed.

End LoopFacts.

Section CollectFacts.

Import SearchLogs.


(** With or without an error at the end of the iterator, the loop adds
    no more entries than there is room for, and only matching ones. *)
Lemma search_collect_sound (pageSize : Z) (query : string)
      (items : list Logging.Entry) (failure : option error) :
  forall (entries : list LogEntry) (count : Z),
    (collect pageSize query items failure entries count).1 = [] \/
    exists added,
      (collect pageSize query items failure entries count).1 = entries ++ added /\
      Z.of_nat (length added) <= Z.max 0 (pageSize - count) /\
      added ⊆ map fromEntry (filter (fun e => matchesQuery e query = true) items).
Proof.
  induction items as [|entry rest IH]; intros entries count; simpl.
  - destruct (count >=? pageSize); [| destruct failure]; simpl;
      try (now left);
      right; exists []; rewrite app_nil_r; (split; [reflexivity |]);
      (split; [simpl; lia | apply list_subseteq_nil]).
  - destruct (Z.geb_spec count pageSize) as [Hfull | Hroom]; simpl.
    + right; exists []; rewrite app_nil_r; (split; [reflexivity |]);
        (split; [simpl; lia | apply list_subseteq_nil]).
    + destruct (matchesQuery entry query) eqn:Em; simpl.
      * rewrite filter_cons_True by exact Em.
        destruct (IH (entries ++ [fromEntry entry]) (count + 1))
          as [Hnil | (added & Heq & Hlen & Hsub)]; [now left |].
        right. exists (fromEntry entry :: added). rewrite Heq, <- app_assoc.
        split; [reflexivity |].
        split; [simpl; lia | simpl; now apply list_subseteq_skip].
      * rewrite filter_cons_False by (rewrite Em; discriminate).
        destruct (IH entries count) as [Hnil | (added & Heq & Hlen & Hsub)];
          [now left |].
        right. exists added. split; [exact Heq |]. split; [lia | exact Hsub].
Qed.

End CollectFacts.

Section MatchFacts.

Import SearchLogs ToolSpec.





End MatchFacts.

Section SearchClaims.

Import SearchLogs ToolSpec.


End SearchClaims.

Section CachedMarker.

Import Types ToolSpec.

(** C6, as stated, fails for list_log_entries: the second of two equal
    calls a minute apart is served from the cache (no further call of the
    store is made), and its result is the bare list of entries, with no
    [cached] marker. *)
Lemma C6_list_cache_hit_without_marker :
  (LogCache.Get
     (LogCache.GenerateKey (ListLogEntries.withDefaults Run.listRequest))
     (World.clock (World.elapse (1 * Minute) Run.listFirst.2))
     (ListLogEntries.cache Run.listFirst.1.2)).1.2 = true /\
  World.queries Run.listSecond.2 = World.queries Run.listFirst.2 /\
  Run.listSecond.1.1
    = success (IndentedEntries (map fromEntry Sample.threeEntries)) /\
  ~ carriesCachedMarker Run.listSecond.1.1.
Proof.
  split; [vm_compute; reflexivity |].
  split; [vm_compute; reflexivity |].
  split; [vm_compute; reflexivity |].
  intros (m & Hm & _). vm_compute in Hm. discriminate Hm.
Qed.

End CachedMarker.

Section CachedMarkerTheorem.

Import Types ToolSpec.

(** C6 (amended): for every cache hit in search_logs and in preset_query,
    the successful result handed back is a map that carries
    [cached: true] together with the count and the entries found in the
    cache; for every cache hit in list_log_entries, the successful result
    is the bare list of the cached entries, without a marker. *)
Theorem C6_cache_hit_results :
  (forall (params : SearchLogs.SearchLogsArgs) (t : SearchLogs.SearchLogsTool)
          (w : World.World) (cached : list LogEntry) (c : LogCache.LogCache),
      SearchLogs.Query params <> "" ->
      LogCache.Get (LogCache.GenerateKey (SearchLogs.withDefaults params))
                   (World.clock w) (SearchLogs.cache t) = ((cached, true), c) ->
      exists m,
        (SearchLogs.Execute params t w).1.1 = success (IndentedMap m) /\
        m !! "cached" = Some (VBool true) /\
        m !! "count" = Some (VInt (Z.of_nat (length cached))) /\
        m !! "entries" = Some (VEntries cached) /\
        carriesCachedMarker (SearchLogs.Execute params t w).1.1 /\
        (SearchLogs.Execute params t w).2 = w) /\
  (forall (params : PresetQueryTool.PresetQueryArgs)
          (t : PresetQueryTool.PresetQueryTool)
          (w : World.World) (cached : list LogEntry) (c : LogCache.LogCache),
      PresetQueryTool.QueryName params <> "" ->
      LogCache.Get (LogCache.GenerateKey params)
                   (World.clock w) (PresetQueryTool.cache t) = ((cached, true), c) ->
      exists m,
        (PresetQueryTool.Execute params t w).1.1 = success (IndentedMap m) /\
        m !! "cached" = Some (VBool true) /\
        m !! "count" = Some (VInt (Z.of_nat (length cached))) /\
        m !! "entries" = Some (VEntries cached) /\
        carriesCachedMarker (PresetQueryTool.Execute params t w).1.1 /\
        (PresetQueryTool.Execute params t w).2 = w) /\
  (forall (params : ListLogEntries.ListLogEntriesArgs)
          (t : ListLogEntries.ListLogEntriesTools)
          (w : World.World) (cached : list LogEntry) (c : LogCache.LogCache),
      LogCache.Get (LogCache.GenerateKey (ListLogEntries.withDefaults params))
                   (World.clock w) (ListLogEntries.cache t) = ((cached, true), c) ->
      (ListLogEntries.Execute params t w).1.1 = success (IndentedEntries cached) /\
      ~ carriesCachedMarker (ListLogEntries.Execute params t w).1.1 /\
      (ListLogEntries.Execute params t w).2 = w).
Proof.
  split; [| split].
  - intros params t w cached c Hq Hget.
    unfold SearchLogs.Execute.
    destruct (String.eqb_spec (SearchLogs.Query params) "") as [| _]; [done |].
    rewrite Hget.
    exists (SearchLogs.cachedResult
              (SearchLogs.Query (SearchLogs.withDefaults params)) cached).
    do 4 (split; [reflexivity |]). split; [| reflexivity].
    eexists. split; reflexivity.
  - intros params t w cached c Hq Hget.
    unfold PresetQueryTool.Execute.
    destruct (String.eqb_spec (PresetQueryTool.QueryName params) "") as [| _];
      [done |].
    rewrite Hget.
    exists (PresetQueryTool.cachedResult (PresetQueryTool.QueryName params)
                                         cached).
    do 4 (split; [reflexivity |]). split; [| reflexivity].
    eexists. split; reflexivity.
  - intros params t w cached c Hget. unfold ListLogEntries.Execute.
    rewrite Hget. split; [reflexivity |]. split; [| reflexivity].
    intros (m & Hm & _). discriminate Hm.
Qed.

(** The theorem at the second of the two sample searches, which finds the
    result of the first in the cache. *)
Lemma C6_cache_hit_witness :
  carriesCachedMarker Run.searchSecond.1.1 /\
  World.queries Run.searchSecond.2 = World.queries Run.searchFirst.2.
Proof.
  destruct C6_cache_hit_results as (Hsearch & _ & _).
  destruct (Hsearch Sample.timeoutSearch Run.searchFirst.1.2
                    (World.elapse (1 * Minute) Run.searchFirst.2)
                    (map fromEntry (take 1 Sample.threeEntries))
                    (SearchLogs.cache Run.searchFirst.1.2))
    as (m & _ & _ & _ & _ & Hmark & Hworld).
  - vm_compute. discriminate.
  - vm_compute. reflexivity.
  - split; [exact Hmark | vm_compute; reflexivity].
Defined.

End CachedMarkerTheorem.

(** ** The page size *)

Section PageSizeFacts.

Import Types ToolSpec.

Lemma search_withDefaults_PageSize (params : SearchLogs.SearchLogsArgs) :
  SearchLogs.PageSize (SearchLogs.withDefaults params)
    = if SearchLogs.PageSize params =? 0 then 10
      else if SearchLogs.PageSize params >? 20 then 20
           else SearchLogs.PageSize params.
Proof.
  unfold SearchLogs.withDefaults.
  destruct (Z.eqb_spec (SearchLogs.PageSize params) 0) as [H0 | H0]; simpl;
    [destruct (String.eqb _ ""); reflexivity |].
  destruct (SearchLogs.PageSize params >? 20); simpl;
    destruct (String.eqb _ ""); reflexivity.
Qed.

Lemma list_withDefaults_PageSize (params : ListLogEntries.ListLogEntriesArgs) :
  ListLogEntries.PageSize (ListLogEntries.withDefaults params)
    = if ListLogEntries.PageSize params =? 0 then 10
      else if ListLogEntries.PageSize params >? 20 then 20
           else ListLogEntries.PageSize params.
Proof.
  unfold ListLogEntries.withDefaults.
  destruct (Z.eqb_spec (ListLogEntries.PageSize params) 0) as [H0 | H0]; simpl;
    [destruct (String.eqb _ ""); reflexivity |].
  destruct (ListLogEntries.PageSize params >? 20); simpl;
    destruct (String.eqb _ ""); reflexivity.
Qed.

Lemma search_withDefaults_le_20 (params : SearchLogs.SearchLogsArgs) :
  SearchLogs.PageSize (SearchLogs.withDefaults params) <= 20.
Proof.
  rewrite search_withDefaults_PageSize.
  destruct (Z.eqb_spec (SearchLogs.PageSize params) 0); [lia |].
  destruct (Z.gtb_spec (SearchLogs.PageSize params) 20); lia.
Qed.

Lemma list_withDefaults_le_20 (params : ListLogEntries.ListLogEntriesArgs) :
  ListLogEntries.PageSize (ListLogEntries.withDefaults params) <= 20.
Proof.
  rewrite list_withDefaults_PageSize.
  destruct (Z.eqb_spec (ListLogEntries.PageSize params) 0); [lia |].
  destruct (Z.gtb_spec (ListLogEntries.PageSize params) 20); lia.
Qed.

(** The loop of [listLogEntries] adds no more entries than there is room
    for. *)
Lemma list_collect_length (pageSize : Z) (items : list Logging.Entry)
      (failure : option error) :
  forall (entries : list LogEntry) (count : Z),
    Z.of_nat (length (ListLogEntries.collect pageSize items failure entries count).1)
      <= Z.of_nat (length entries) + Z.max 0 (pageSize - count).
Proof.
  induction items as [|entry rest IH]; intros entries count; simpl.
  - destruct (count >=? pageSize); [| destruct failure]; simpl; lia.
  - destruct (Z.geb_spec count pageSize) as [Hfull | Hroom]; simpl; [lia |].
    specialize (IH (entries ++ [fromEntry entry]) (count + 1)).
    rewrite length_app in IH; simpl in IH. lia.
Qed.

Lemma listLogEntries_length (params : ListLogEntries.ListLogEntriesArgs)
      (w : World.World) :
  Z.of_nat (length (ListLogEntries.listLogEntries params w).1.1)
    <= Z.max 0 (ListLogEntries.PageSize params).
Proof.
  unfold ListLogEntries.listLogEntries, World.Entries; simpl.
  pose proof (list_collect_length (ListLogEntries.PageSize params)
    (Logging.items (World.remote w (length (World.queries w))
                                 (ListLogEntries.Filter params)))
    (Logging.failure (World.remote w (length (World.queries w))
                                   (ListLogEntries.Filter params))) [] 0) as H.
  simpl in H. rewrite Z.sub_0_r in H. exact H.
Qed.

Lemma searchLogs_length (params : SearchLogs.SearchLogsArgs) (w : World.World) :
  Z.of_nat (length (SearchLogs.searchLogs params w).1.1)
    <= Z.max 0 (SearchLogs.PageSize params).
Proof.
  unfold SearchLogs.searchLogs, World.Entries; simpl.
  match goal with
  | |- context [SearchLogs.collect ?ps ?q ?items ?f [] 0] =>
      destruct (search_collect_sound ps q items f [] 0)
        as [-> | (added & -> & Hlen & _)]
  end; simpl; [lia |].
  rewrite Z.sub_0_r in Hlen. exact Hlen.
Qed.

(** A hit of [Get] hands out the data of an entry of the cache. *)
Lemma Get_hit_inv (k : string) (now : Time) (m c : LogCache.LogCache)
      (es : list LogEntry) :
  LogCache.Get k now m = ((es, true), c) ->
  c = m /\ exists e, m !! k = Some e /\ LogCache.Data e = es.
Proof.
  unfold LogCache.Get. destruct (m !! k) as [e|]; [| intros [=]].
  destruct (Sub now (LogCache.Timestamp e) >? LogCache.TTL e); intros [= <- <-].
  split; [reflexivity |]. exists e. split; reflexivity.
Qed.

Lemma Get_cache_same (k : string) (now : Time) (m c : LogCache.LogCache)
      (res : list LogEntry * bool) :
  LogCache.Get k now m = (res, c) -> c = m.
Proof.
  intros H. pose proof (Get_keeps_cache k now m) as Hk.
  rewrite H in Hk. exact Hk.
Qed.

Lemma cacheBounded_Set (bound : Z) (k : string) (es : list LogEntry)
      (ttl : Duration) (now : Time) (m : LogCache.LogCache) :
  cacheBounded bound m -> Z.of_nat (length es) <= bound ->
  cacheBounded bound (LogCache.Set_ k es ttl now m).
Proof.
  intros Hm Hes k' e. unfold LogCache.Set_. rewrite lookup_insert.
  case_decide as Hk; [intros [= <-]; exact Hes | apply Hm].
Qed.

End PageSizeFacts.

Section ExecuteFacts.

Import Types ToolSpec.

Lemma resultEntries_failure (msg : string) : resultEntries (failure msg) = [].
Proof. reflexivity. Qed.

Lemma resultEntries_entries (es : list LogEntry) :
  resultEntries (success (IndentedEntries es)) = es.
Proof. unfold resultEntries; simpl. apply app_nil_r. Qed.

Lemma resultEntries_search_fresh (q : string) (es : list LogEntry) :
  resultEntries (success (IndentedMap (SearchLogs.freshResult q es))) = es.
Proof.
  unfold resultEntries; simpl.
  assert (SearchLogs.freshResult q es !! "entries" = Some (VEntries es)) as ->
    by reflexivity.
  apply app_nil_r.
Qed.

Lemma resultEntries_search_cached (q : string) (es : list LogEntry) :
  resultEntries (success (IndentedMap (SearchLogs.cachedResult q es))) = es.
Proof.
  unfold resultEntries; simpl.
  assert (SearchLogs.cachedResult q es !! "entries" = Some (VEntries es)) as ->
    by reflexivity.
  apply app_nil_r.
Qed.

(** A call of search_logs that does not find its key in the cache
    returns at most as many entries as the effective page size. *)
Lemma search_Execute_miss (params : SearchLogs.SearchLogsArgs)
      (t : SearchLogs.SearchLogsTool) (w : World.World) :
  (LogCache.Get (LogCache.GenerateKey (SearchLogs.withDefaults params))
                (World.clock w) (SearchLogs.cache t)).1.2 = false ->
  Z.of_nat (length (resultEntries (SearchLogs.Execute params t w).1.1))
    <= Z.max 0 (SearchLogs.PageSize (SearchLogs.withDefaults params)).
Proof.
  intros Hmiss. unfold SearchLogs.Execute.
  destruct (String.eqb (SearchLogs.Query params) ""); [simpl; lia |].
  destruct (LogCache.Get _ _ _) as [[cached found] c] eqn:Eget.
  simpl in Hmiss. subst found.
  destruct (RateLimiter.ExecuteWithBackoff _ _ _ _)
    as [[[e|] [w' es]] tr] eqn:Erun; [simpl; lia |].
  apply ExecuteWithBackoff_success_inv in Erun as [[w0 es0] Hop].
  unfold SearchLogs.operation in Hop.
  change ((w0, es0).1) with w0 in Hop.
  pose proof (searchLogs_length (SearchLogs.withDefaults params) w0) as Hlen.
  destruct (SearchLogs.searchLogs _ w0) as [[es1 err1] w1].
  simpl in Hop, Hlen. injection Hop as _ _ <-.
  simpl. now rewrite resultEntries_search_fresh.
Qed.

Lemma list_Execute_miss (params : ListLogEntries.ListLogEntriesArgs)
      (t : ListLogEntries.ListLogEntriesTools) (w : World.World) :
  (LogCache.Get (LogCache.GenerateKey (ListLogEntries.withDefaults params))
                (World.clock w) (ListLogEntries.cache t)).1.2 = false ->
  Z.of_nat (length (resultEntries (ListLogEntries.Execute params t w).1.1))
    <= Z.max 0 (ListLogEntries.PageSize (ListLogEntries.withDefaults params)).
Proof.
  intros Hmiss. unfold ListLogEntries.Execute.
  destruct (LogCache.Get _ _ _) as [[cached found] c] eqn:Eget.
  simpl in Hmiss. subst found.
  destruct (RateLimiter.ExecuteWithBackoff _ _ _ _)
    as [[[e|] [w' es]] tr] eqn:Erun; [simpl; lia |].
  apply ExecuteWithBackoff_success_inv in Erun as [[w0 es0] Hop].
  unfold ListLogEntries.operation in Hop.
  change ((w0, es0).1) with w0 in Hop.
  pose proof (listLogEntries_length (ListLogEntries.withDefaults params) w0)
    as Hlen.
  destruct (ListLogEntries.listLogEntries _ w0) as [[es1 err1] w1].
  simpl in Hop, Hlen. injection Hop as _ _ <-.
  simpl. now rewrite resultEntries_entries.
Qed.

(** What one call of search_logs returns and leaves in the cache: the
    entries found in the cache, or entries fetched for the effective page
    size, which a new entry of the cache then holds. *)
Lemma search_Execute_step (params : SearchLogs.SearchLogsArgs)
      (t : SearchLogs.SearchLogsTool) (w : World.World) (bound : Z) :
  let p := SearchLogs.withDefaults params in
  let out := SearchLogs.Execute params t w in
  cacheBounded bound (SearchLogs.cache t) ->
  Z.max 0 (SearchLogs.PageSize p) <= bound ->
  cacheBounded bound (SearchLogs.cache out.1.2) /\
  Z.of_nat (length (resultEntries out.1.1)) <= bound.
Proof.
  intros p out Hcache Hbound. subst out.
  pose proof (search_Execute_miss params t w) as Hmiss. fold p in Hmiss.
  unfold SearchLogs.Execute in *.
  destruct (String.eqb (SearchLogs.Query params) "").
  { simpl. split; [exact Hcache | lia]. }
  fold p in Hmiss |- *.
  destruct (LogCache.Get (LogCache.GenerateKey p) (World.clock w)
                         (SearchLogs.cache t))
    as [[cached found] c] eqn:Eget.
  destruct found.
  - apply Get_hit_inv in Eget as (-> & e & He & <-). simpl.
    rewrite resultEntries_search_cached.
    split; [exact Hcache | exact (Hcache _ _ He)].
  - apply Get_cache_same in Eget as ->. specialize (Hmiss eq_refl).
    destruct (RateLimiter.ExecuteWithBackoff World.sleeping
                (SearchLogs.rateLimiter t) (SearchLogs.operation p) (w, []))
      as [[[e|] [w' es]] tr] eqn:Erun; simpl in *.
    + split; [exact Hcache | lia].
    + rewrite resultEntries_search_fresh in *.
      split; [apply cacheBounded_Set; [exact Hcache | lia] | lia].
Qed.

(** The same for list_log_entries. *)
Lemma list_Execute_step (params : ListLogEntries.ListLogEntriesArgs)
      (t : ListLogEntries.ListLogEntriesTools) (w : World.World) (bound : Z) :
  let p := ListLogEntries.withDefaults params in
  let out := ListLogEntries.Execute params t w in
  cacheBounded bound (ListLogEntries.cache t) ->
  Z.max 0 (ListLogEntries.PageSize p) <= bound ->
  cacheBounded bound (ListLogEntries.cache out.1.2) /\
  Z.of_nat (length (resultEntries out.1.1)) <= bound.
Proof.
  intros p out Hcache Hbound. subst out.
  pose proof (list_Execute_miss params t w) as Hmiss. fold p in Hmiss.
  unfold ListLogEntries.Execute in *. fold p in Hmiss |- *.
  destruct (LogCache.Get (LogCache.GenerateKey p) (World.clock w)
                         (ListLogEntries.cache t))
    as [[cached found] c] eqn:Eget.
  destruct found.
  - apply Get_hit_inv in Eget as (-> & e & He & <-). simpl.
    rewrite resultEntries_entries.
    split; [exact Hcache | exact (Hcache _ _ He)].
  - apply Get_cache_same in Eget as ->. specialize (Hmiss eq_refl).
    destruct (RateLimiter.ExecuteWithBackoff World.sleeping
                (ListLogEntries.rateLimiter t) (ListLogEntries.operation p)
                (w, []))
      as [[[e|] [w' es]] tr] eqn:Erun; simpl in *.
    + split; [exact Hcache | lia].
    + rewrite resultEntries_entries in *.
      split; [apply cacheBounded_Set; [exact Hcache | lia] | lia].
Qed.

Lemma cacheBounded_empty (bound : Z) : cacheBounded bound ∅.
Proof. intros k e H. rewrite lookup_empty in H. discriminate H. Qed.

Lemma search_reachable_bounded (t : SearchLogs.SearchLogsTool) :
  searchReachable t -> cacheBounded 20 (SearchLogs.cache t).
Proof.
  induction 1 as [| params t w _ IH]; [apply cacheBounded_empty |].
  apply (search_Execute_step params t w 20 IH).
  pose proof (search_withDefaults_le_20 params). lia.
Qed.

Lemma list_reachable_bounded (t : ListLogEntries.ListLogEntriesTools) :
  listReachable t -> cacheBounded 20 (ListLogEntries.cache t).
Proof.
  induction 1 as [| params t w _ IH]; [apply cacheBounded_empty |].
  apply (list_Execute_step params t w 20 IH).
  pose proof (list_withDefaults_le_20 params). lia.
Qed.

End ExecuteFacts.

Section PageSizeClaims.

Import Types ToolSpec.

(** C1, as stated, fails on the cache path.  Two requests with different
    page sizes can have the same [%+v] rendering, hence the same key: after
    a search with page size 20 has stored its two entries, a search with
    page size 1 made a minute later is served from the cache (no further
    call of the store) and returns both entries.  The same happens in
    list_log_entries, with three entries for a page size of 1. *)
Lemma C1_cache_hit_exceeds_page_size :
  (plus_v (SearchLogs.withDefaults Clash.wideSearch)
     = plus_v (SearchLogs.withDefaults Clash.narrowSearch) /\
   SearchLogs.PageSize (SearchLogs.withDefaults Clash.narrowSearch) = 1 /\
   World.queries Clash.searchSecond.2 = World.queries Clash.searchFirst.2 /\
   Z.of_nat (length (resultEntries Clash.searchSecond.1.1)) = 2) /\
  (plus_v (ListLogEntries.withDefaults Clash.wideList)
     = plus_v (ListLogEntries.withDefaults Clash.narrowList) /\
   ListLogEntries.PageSize (ListLogEntries.withDefaults Clash.narrowList) = 1 /\
   World.queries Clash.listSecond.2 = World.queries Clash.listFirst.2 /\
   Z.of_nat (length (resultEntries Clash.listSecond.1.1)) = 3).
Proof. vm_compute. repeat split. Qed.

(** C1 (amended): for every call of search_logs or list_log_entries, the
    effective page size is 10 when the caller leaves pageSize at zero, the
    requested value when it lies between 1 and 20, and 20 for every
    requested value above 20; a call that is not served from the cache
    returns at most as many entries as the effective page size; and no
    call, served from the cache or not, returns more than 20 entries. *)
Theorem C1_page_size_policy :
  (forall params : SearchLogs.SearchLogsArgs,
      let requested := SearchLogs.PageSize params in
      let effective := SearchLogs.PageSize (SearchLogs.withDefaults params) in
      (requested = 0 -> effective = 10) /\
      (1 <= requested <= 20 -> effective = requested) /\
      (20 < requested -> effective = 20) /\
      (forall t w,
          0 <= requested ->
          (LogCache.Get (LogCache.GenerateKey (SearchLogs.withDefaults params))
                        (World.clock w) (SearchLogs.cache t)).1.2 = false ->
          Z.of_nat (length (resultEntries (SearchLogs.Execute params t w).1.1))
            <= effective) /\
      (forall t w,
          searchReachable t ->
          Z.of_nat (length (resultEntries (SearchLogs.Execute params t w).1.1))
            <= 20)) /\
  (forall params : ListLogEntries.ListLogEntriesArgs,
      let requested := ListLogEntries.PageSize params in
      let effective :=
        ListLogEntries.PageSize (ListLogEntries.withDefaults params) in
      (requested = 0 -> effective = 10) /\
      (1 <= requested <= 20 -> effective = requested) /\
      (20 < requested -> effective = 20) /\
      (forall t w,
          0 <= requested ->
          (LogCache.Get (LogCache.GenerateKey (ListLogEntries.withDefaults params))
                        (World.clock w) (ListLogEntries.cache t)).1.2 = false ->
          Z.of_nat (length (resultEntries (ListLogEntries.Execute params t w).1.1))
            <= effective) /\
      (forall t w,
          listReachable t ->
          Z.of_nat (length (resultEntries (ListLogEntries.Execute params t w).1.1))
            <= 20)).
Proof.
  split.
  - intros params requested effective.
    assert (effective = if requested =? 0 then 10
                        else if requested >? 20 then 20 else requested) as Heff
      by apply search_withDefaults_PageSize.
    assert (effective <= 20) as Hle by apply search_withDefaults_le_20.
    split; [intros H0; rewrite Heff, H0; reflexivity |].
    split; [intros Hin; rewrite Heff;
            destruct (Z.eqb_spec requested 0); [lia |];
            destruct (Z.gtb_spec requested 20); [lia | reflexivity] |].
    split; [intros Hbig; rewrite Heff;
            destruct (Z.eqb_spec requested 0); [lia |];
            destruct (Z.gtb_spec requested 20); [reflexivity | lia] |].
    split.
    + intros t w Hreq Hmiss.
      pose proof (search_Execute_miss params t w Hmiss) as Hlen.
      fold effective in Hlen.
      assert (0 <= effective); [| lia].
      rewrite Heff. destruct (Z.eqb_spec requested 0); [lia |].
      destruct (Z.gtb_spec requested 20); lia.
    + intros t w Hreach.
      apply (search_Execute_step params t w 20
               (search_reachable_bounded t Hreach)).
      fold effective. lia.
  - intros params requested effective.
    assert (effective = if requested =? 0 then 10
                        else if requested >? 20 then 20 else requested) as Heff
      by apply list_withDefaults_PageSize.
    assert (effective <= 20) as Hle by apply list_withDefaults_le_20.
    split; [intros H0; rewrite Heff, H0; reflexivity |].
    split; [intros Hin; rewrite Heff;
            destruct (Z.eqb_spec requested 0); [lia |];
            destruct (Z.gtb_spec requested 20); [lia | reflexivity] |].
    split; [intros Hbig; rewrite Heff;
            destruct (Z.eqb_spec requested 0); [lia |];
            destruct (Z.gtb_spec requested 20); [reflexivity | lia] |].
    split.
    + intros t w Hreq Hmiss.
      pose proof (list_Execute_miss params t w Hmiss) as Hlen.
      fold effective in Hlen.
      assert (0 <= effective); [| lia].
      rewrite Heff. destruct (Z.eqb_spec requested 0); [lia |].
      destruct (Z.gtb_spec requested 20); lia.
    + intros t w Hreach.
      apply (list_Execute_step params t w 20
               (list_reachable_bounded t Hreach)).
      fold effective. lia.
Qed.

End PageSizeClaims.

(** ** More on the default time constraint *)

Section DefaultTimeFacts.

Import FilterBuilder SearchLogs Spec.

Lemma grows_refl (fb : FilterBuilder) : grows fb fb.
Proof. exists []. now rewrite app_nil_r. Qed.

Lemma grows_trans (a b c : FilterBuilder) : grows a b -> grows b c -> grows a c.
Proof.
  intros [l1 H1] [l2 H2]. exists (l1 ++ l2). now rewrite H2, H1, app_assoc.
Qed.

Lemma grows_append (fb : FilterBuilder) (clause : string) :
  grows fb (append fb clause).
Proof. now exists [clause]. Qed.

Create HintDb grows.
#[local] Hint Resolve grows_refl grows_append : grows.

Lemma AddTimeRange_grows (s e : string) (fb : FilterBuilder) :
  grows fb (AddTimeRange s e fb).
Proof.
  unfold AddTimeRange.
  destruct (String.eqb s ""), (String.eqb e "");
    eauto using grows_trans with grows.
Qed.

Lemma AddSeverity_grows (s : string) (fb : FilterBuilder) :
  grows fb (AddSeverity s fb).
Proof. unfold AddSeverity. destruct (String.eqb s ""); auto with grows. Qed.

Lemma AddLogName_grows (s : string) (fb : FilterBuilder) :
  grows fb (AddLogName s fb).
Proof. unfold AddLogName. destruct (String.eqb s ""); auto with grows. Qed.

Lemma AddCloudRunService_grows (s : string) (fb : FilterBuilder) :
  grows fb (AddCloudRunService s fb).
Proof.
  unfold AddCloudRunService.
  destruct (String.eqb s ""); eauto using grows_trans with grows.
Qed.

Lemma AddKeywords_grows (s : string) (fb : FilterBuilder) :
  grows fb (AddKeywords s fb).
Proof.
  unfold AddKeywords. destruct (String.eqb s ""); [auto with grows |].
  destruct (Contains s "error" || Contains s "ERROR");
    eauto using grows_trans with grows.
Qed.

Lemma addFirstService_grows (parts : list string) (fb : FilterBuilder) :
  grows fb (addFirstService parts fb).
Proof.
  induction parts as [|p parts IH]; simpl; [auto with grows |].
  destruct (Contains p "-" && (len p >? 5));
    [apply AddCloudRunService_grows | exact IH].
Qed.

Lemma parseQueryForOptimizedFilters_grows (q : string) (fb : FilterBuilder) :
  grows fb (parseQueryForOptimizedFilters q fb).
Proof.
  unfold parseQueryForOptimizedFilters.
  destruct (_ || _);
    eauto using grows_trans, addFirstService_grows, AddKeywords_grows.
Qed.

Lemma hasTimeFilter_app (a b : list string) :
  hasTimeFilter (a ++ b) = hasTimeFilter a || hasTimeFilter b.
Proof.
  induction a as [|f a IH]; simpl; [reflexivity |].
  destruct (Contains f "timestamp"); [reflexivity | exact IH].
Qed.

Lemma hasTimeFilter_grows (fb fb' : FilterBuilder) :
  grows fb fb' -> hasTimeFilter (filters fb) = true ->
  hasTimeFilter (filters fb') = true.
Proof. intros [more ->] H. now rewrite hasTimeFilter_app, H. Qed.

Lemma hasTimeFilter_cons_true (f : string) (rest : list string) :
  Contains f "timestamp" = true -> hasTimeFilter (f :: rest) = true.
Proof. intros H. simpl. now rewrite H. Qed.

(** A request with an explicit start time compiles to the same filter
    whatever the instant: the default lower bound is not added. *)
Lemma explicit_start_time_no_default (now now' : Time)
      (params : SearchLogsArgs) :
  StartTime params <> "" ->
  buildOptimizedFilter now params = buildOptimizedFilter now' params.
Proof.
  intros Hstart. unfold buildOptimizedFilter.
  set (fb1 := AddTimeRange (StartTime params) (EndTime params) NewFilterBuilder).
  assert (hasTimeFilter (filters fb1) = true) as H1.
  { subst fb1. unfold AddTimeRange.
    destruct (String.eqb_spec (StartTime params) "") as [| _]; [done |].
    apply hasTimeFilter_grows
      with (append NewFilterBuilder (Sprintf ge_quoted [StartTime params])).
    - destruct (String.eqb (EndTime params) ""); auto with grows.
    - apply hasTimeFilter_cons_true. reflexivity. }
  match goal with
  | |- Build (AddDefaultTimeConstraint now ?fb)
       = Build (AddDefaultTimeConstraint now' ?fb) =>
      assert (hasTimeFilter (filters fb) = true) as Hall
  end.
  { apply hasTimeFilter_grows with fb1; [| exact H1].
    repeat match goal with
           | |- grows ?a (if ?c then _ else _) => destruct c
           | |- grows ?a ?a => apply grows_refl
           | |- grows _ (parseQueryForOptimizedFilters _ _) =>
               eapply grows_trans; [| apply parseQueryForOptimizedFilters_grows]
           | |- grows _ (AddLogName _ _) =>
               eapply grows_trans; [| apply AddLogName_grows]
           | |- grows _ (append _ _) =>
               eapply grows_trans; [| apply grows_append]
           | |- grows _ (AddSeverity _ _) =>
               eapply grows_trans; [| apply AddSeverity_grows]
           end. }
  unfold AddDefaultTimeConstraint. now rewrite Hall.
Qed.

End DefaultTimeFacts.

(** ** The tools at sample inputs *)

Section ToolWitnesses.

Import Types ToolSpec.

(** C1 at the page sizes 500, 0 and 15, and at the first sample search,
    which goes to the store. *)
Lemma C1_page_size_witness :
  SearchLogs.PageSize
    (SearchLogs.withDefaults (SearchLogs.mkArgs "timeout" "" "" "" "" "" 500 ""))
    = 20 /\
  SearchLogs.PageSize
    (SearchLogs.withDefaults (SearchLogs.mkArgs "timeout" "" "" "" "" "" 0 ""))
    = 10 /\
  ListLogEntries.PageSize
    (ListLogEntries.withDefaults (ListLogEntries.mkArgs "" 15 "")) = 15 /\
  Z.of_nat (length (resultEntries Run.searchFirst.1.1)) <= 2.
Proof.
  destruct C1_page_size_policy as [Hsearch Hlist].
  split; [| split; [| split]].
  - apply (Hsearch (SearchLogs.mkArgs "timeout" "" "" "" "" "" 500 "")).
    simpl. lia.
  - apply (Hsearch (SearchLogs.mkArgs "timeout" "" "" "" "" "" 0 "")).
    reflexivity.
  - apply (Hlist (ListLogEntries.mkArgs "" 15 "")). simpl. lia.
  - destruct (Hsearch Sample.timeoutSearch) as (_ & _ & _ & Hfetch & _).
    apply (Hfetch SearchLogs.NewSearchLogsTool
                  (Double.store Sample.threeEntries)).
    + simpl. lia.
    + vm_compute. reflexivity.
Defined.


End ToolWitnesses.

(** * Further properties of the code *)

(** ** The retry loop *)

Section RetryShape.

Import RateLimiter RetrySpec.

Context {St : Type}.
Variable sleep : Duration -> St -> St.
Variable r : RateLimiter.
Variable operation : St -> option error * St.

Lemma attempts_step (attempt : Z) (k : nat) :
  attempts r attempt (S (S k))
    = Invoke :: Sleep (calculateBackoff r attempt)
             :: attempts r (attempt + 1) (S k).
Proof. reflexivity. Qed.

(** The shape of every run of the loop: some calls separated by the
    backoff schedule, no more of them than there are attempts left. *)
Lemma loop_shape (n : nat) :
  forall (attempt : Z) (lastErr : option error) (s : St) (tr : list Event),
    Z.of_nat n = maxRetries r + 1 - attempt ->
    exists k, (k <= n)%nat /\ (n <> O -> k <> O) /\
              (loop sleep r operation n attempt lastErr s tr).2
                = tr ++ attempts r attempt k.
Proof.
  induction n as [|n IH]; intros attempt lastErr s tr Hn.
  - exists O. simpl. rewrite app_nil_r. repeat split; [lia | done].
  - simpl. destruct (operation s) as [[e|] s1].
    + destruct (negb (isQuotaExceededError e)).
      { exists 1%nat. simpl. repeat split; [lia | lia]. }
      destruct (Z.ltb_spec attempt (maxRetries r)) as [Hlt | Hge].
      * destruct (IH (attempt + 1) (Some e)
                     (sleep (calculateBackoff r attempt) s1)
                     ((tr ++ [Invoke]) ++ [Sleep (calculateBackoff r attempt)])
                     ltac:(lia))
          as (k & Hk & Hk0 & Heq).
        destruct k as [|k]; [exfalso; apply Hk0; [lia | reflexivity] |].
        exists (S (S k)). rewrite Heq, attempts_step, <- !app_assoc.
        repeat split; [lia | lia].
      * destruct n as [|n]; [| lia].
        exists 1%nat. simpl. repeat split; [lia | lia].
    + exists 1%nat. simpl. repeat split; [lia | lia].
Qed.


Lemma invocations_attempts (attempt : Z) (k : nat) :
  invocations (attempts r attempt k) = k.
Proof.
  revert attempt; induction k as [|k IH]; intros attempt; [reflexivity |].
  destruct k as [|k]; [reflexivity |].
  rewrite attempts_step. cbn [invocations]. now rewrite IH.
Qed.

Lemma sleepsOf_attempts (attempt : Z) (k : nat) :
  sleepsOf (attempts r attempt (S k)) = schedule r attempt k.
Proof.
  revert attempt; induction k as [|k IH]; intros attempt; [reflexivity |].
  rewrite attempts_step. cbn [sleepsOf schedule]. now rewrite IH.
Qed.

End RetryShape.

Section RetryExtras.

Import RateLimiter RetrySpec.

(** X1: whatever the operation does, [ExecuteWithBackoff] calls it at
    most [maxRetries + 1] times, at least once when [maxRetries] is not
    negative, and between two calls (never after the last one) it sleeps
    the backoff of the attempt just made: the sleeps are the first
    durations of the backoff schedule, one fewer than the calls. *)
Theorem X1_ExecuteWithBackoff_trace_shape :
  forall (St : Type) (sleep : Duration -> St -> St) (r : RateLimiter)
         (operation : St -> option error * St) (s : St),
    exists k : nat,
      (ExecuteWithBackoff sleep r operation s).2 = attempts r 0 k /\
      Z.of_nat k <= Z.max 0 (maxRetries r + 1) /\
      (0 <= maxRetries r -> (1 <= k)%nat) /\
      invocations (ExecuteWithBackoff sleep r operation s).2 = k /\
      sleepsOf (ExecuteWithBackoff sleep r operation s).2
        = schedule r 0 (Nat.pred k).
Proof.
  intros St sleep r operation s. unfold ExecuteWithBackoff.
  destruct (Z.le_gt_cases 0 (maxRetries r + 1)) as [Hpos | Hneg].
  - destruct (loop_shape sleep r operation (Z.to_nat (maxRetries r + 1))
                0 None s [] ltac:(lia)) as (k & Hk & Hk0 & Heq).
    exists k. rewrite Heq. simpl app.
    split; [reflexivity |]. split; [lia |]. split; [lia |].
    split; [apply invocations_attempts |].
    destruct k as [|k]; [reflexivity | apply sleepsOf_attempts].
  - replace (Z.to_nat (maxRetries r + 1)) with O by lia.
    exists O. simpl. repeat split; lia.
Qed.



Lemma isQuotaExceededError_wrap (prefix : string) (err : error) :
  isQuotaExceededError err = true ->
  isQuotaExceededError (wrap prefix err) = true.
Proof.
  unfold isQuotaExceededError. simpl FromError.
  destruct (FromError err) as [code|]; [destruct code |]; try reflexivity;
    simpl Error; unfold ToLower; rewrite map_string_append;
    rewrite !orb_true_iff;
    (intros [[H | H] | H];
       [left; left | left; right | right]; now apply Contains_append_r).
Qed.

(** X3: an error that counts as a quota error still does after
    [fmt.Errorf("...: %w", err)] has put a text in front of it, whatever
    the text: the errors that [searchLogs] and [listLogEntries] wrap stay
    retryable. *)
Theorem X3_wrapped_quota_error_stays_retryable :
  forall (prefix : string) (err : error),
    isQuotaExceededError err = true ->
    isQuotaExceededError (wrap prefix err) = true.
Proof. intros prefix err. apply isQuotaExceededError_wrap. Qed.

Lemma X3_wrapped_quota_error_witness :
  isQuotaExceededError
    (wrap "failed to iterate log entries: " Double.quotaText) = true.
Proof.
  apply (X3_wrapped_quota_error_stays_retryable
           "failed to iterate log entries: " Double.quotaText).
  vm_compute. reflexivity.
Defined.

End RetryExtras.

Section ToolRetry.

Import RateLimiter RetrySpec StoreSpec Types.

Lemma alwaysFails_Entries (err : error) (filter : string) (w : World.World) :
  alwaysFails err w -> alwaysFails err (World.Entries filter w).2.
Proof. intros H n f. apply H. Qed.

Lemma alwaysFails_Sleep (err : error) (d : Duration) (w : World.World) :
  alwaysFails err w -> alwaysFails err (World.Sleep d w).
Proof. intros H n f. apply H. Qed.

Lemma list_operation_fails (p : ListLogEntries.ListLogEntriesArgs)
      (err : error) (w : World.World) (es : list LogEntry) :
  alwaysFails err w -> 1 <= ListLogEntries.PageSize p ->
  ListLogEntries.operation p (w, es)
    = (Some (wrap "failed to iterate log entries: " err),
       ((World.Entries (ListLogEntries.Filter p) w).2, [])).
Proof.
  intros Hw Hp. unfold ListLogEntries.operation, ListLogEntries.listLogEntries.
  simpl. rewrite Hw. simpl.
  destruct (Z.geb_spec 0 (ListLogEntries.PageSize p)); [lia | reflexivity].
Qed.

(** X4: list_log_entries against a store whose iterator fails with a
    quota error on every call: the tool (with the rate limiter of its
    constructor, a page size that is not negative, and nothing in the
    cache for the request) calls the store four times with the filter of
    the request, sleeps 1.1 s, 2.2 s and 4.4 s in between, answers with an
    error result that names the exhaustion and the wrapped error, and
    leaves its cache as it was. *)
Theorem X4_list_tool_gives_up_after_four_calls :
  forall (params : ListLogEntries.ListLogEntriesArgs)
         (t : ListLogEntries.ListLogEntriesTools) (w : World.World)
         (err : error),
    alwaysFails err w ->
    isQuotaExceededError err = true ->
    0 <= ListLogEntries.PageSize params ->
    ListLogEntries.rateLimiter t = NewRateLimiter ->
    (LogCache.Get (LogCache.GenerateKey (ListLogEntries.withDefaults params))
                  (World.clock w) (ListLogEntries.cache t)).1.2 = false ->
    let out := ListLogEntries.Execute params t w in
    let filter := ListLogEntries.Filter params in
    out.1.1 = failure ("Error listing log entries: max retries exceeded: " +:+
                       "failed to iterate log entries: " +:+ Error err) /\
    World.queries out.2 = World.queries w ++ [filter; filter; filter; filter] /\
    World.slept out.2
      = World.slept w ++ [1100000000; 2200000000; 4400000000] /\
    World.clock out.2 = World.clock w + 7700000000 /\
    ListLogEntries.cache out.1.2 = ListLogEntries.cache t.
Proof.
  intros params t w err Hw Hq Hsize Hrl Hmiss out filter. subst out.
  set (p := ListLogEntries.withDefaults params).
  assert (1 <= ListLogEntries.PageSize p) as Hp.
  { subst p. rewrite list_withDefaults_PageSize.
    destruct (Z.eqb_spec (ListLogEntries.PageSize params) 0); [lia |].
    destruct (Z.gtb_spec (ListLogEntries.PageSize params) 20); lia. }
  assert (ListLogEntries.Filter p = filter) as Hf.
  { subst p filter. unfold ListLogEntries.withDefaults.
    repeat match goal with |- context [if ?c then _ else _] => destruct c end;
      reflexivity. }
  pose proof (isQuotaExceededError_wrap "failed to iterate log entries: " err Hq)
    as Hwq.
  unfold ListLogEntries.Execute. fold p.
  destruct (LogCache.Get _ _ _) as [[cached found] c] eqn:Eget.
  simpl in Hmiss. subst found. apply Get_cache_same in Eget as ->.
  rewrite Hrl. unfold ExecuteWithBackoff.
  change (Z.to_nat (maxRetries NewRateLimiter + 1)) with 4%nat.
  set (w1 := (World.Entries (ListLogEntries.Filter p) w).2).
  set (w2 := (World.Entries (ListLogEntries.Filter p)
                (World.Sleep (calculateBackoff NewRateLimiter 0) w1)).2).
  set (w3 := (World.Entries (ListLogEntries.Filter p)
                (World.Sleep (calculateBackoff NewRateLimiter 1) w2)).2).
  set (w4 := (World.Entries (ListLogEntries.Filter p)
                (World.Sleep (calculateBackoff NewRateLimiter 2) w3)).2).
  assert (alwaysFails err w1) as H1 by now apply alwaysFails_Entries.
  assert (alwaysFails err w2) as H2
    by now apply alwaysFails_Entries, alwaysFails_Sleep.
  assert (alwaysFails err w3) as H3
    by now apply alwaysFails_Entries, alwaysFails_Sleep.
  rewrite (loop_retry World.sleeping NewRateLimiter (ListLogEntries.operation p)
             3 0 None (w, []) (w1, []) _ []
             (list_operation_fails p err w [] Hw Hp) Hwq ltac:(simpl; lia)).
  rewrite (loop_retry World.sleeping NewRateLimiter (ListLogEntries.operation p)
             2 (0 + 1) _ _ (w2, []) _ _
             (list_operation_fails p err _ [] (alwaysFails_Sleep _ _ _ H1) Hp)
             Hwq ltac:(simpl; lia)).
  rewrite (loop_retry World.sleeping NewRateLimiter (ListLogEntries.operation p)
             1 (0 + 1 + 1) _ _ (w3, []) _ _
             (list_operation_fails p err _ [] (alwaysFails_Sleep _ _ _ H2) Hp)
             Hwq ltac:(simpl; lia)).
  rewrite (loop_last World.sleeping NewRateLimiter (ListLogEntries.operation p)
             0 (0 + 1 + 1 + 1) _ _ (w4, []) _ _
             (list_operation_fails p err _ [] (alwaysFails_Sleep _ _ _ H3) Hp)
             Hwq ltac:(simpl; lia)).
  simpl loop. cbv iota beta. subst w4 w3 w2 w1. rewrite Hf.
  split; [reflexivity |]. split; [| split; [| split]].
  - simpl. now rewrite <- !app_assoc.
  - simpl. now rewrite <- !app_assoc.
  - simpl. unfold Add. change (calculateBackoff NewRateLimiter 0) with 1100000000.
    change (calculateBackoff NewRateLimiter 1) with 2200000000.
    change (calculateBackoff NewRateLimiter 2) with 4400000000. lia.
  - reflexivity.
Qed.

(** The theorem at a new tool, the default page size and a store that
    answers [ResourceExhausted]. *)
Lemma X4_list_tool_gives_up_witness :
  World.queries
    (ListLogEntries.Execute (ListLogEntries.mkArgs "severity>=ERROR" 0 "")
       ListLogEntries.NewListLogEntriesTools
       (failingStore 0 Double.quotaStatus)).2
    = ["severity>=ERROR"; "severity>=ERROR"; "severity>=ERROR"; "severity>=ERROR"].
Proof.
  destruct (X4_list_tool_gives_up_after_four_calls
              (ListLogEntries.mkArgs "severity>=ERROR" 0 "")
              ListLogEntries.NewListLogEntriesTools
              (failingStore 0 Double.quotaStatus) Double.quotaStatus)
    as (_ & Hqueries & _).
  - intros n f. reflexivity.
  - vm_compute. reflexivity.
  - simpl. lia.
  - reflexivity.
  - reflexivity.
  - exact Hqueries.
Defined.

End ToolRetry.

(** ** More on the cache *)

Section CacheExtras.

Import LogCache.

(** X5: [Set] on one key leaves every other key as it was, for [Get] at
    any instant; and a second [Set] on the same key replaces the entry as
    a whole, creation time and TTL included, so nothing of the first one
    is left. *)
Theorem X5_Set_touches_one_key :
  forall (k k' : string) (d1 d2 : list LogEntry) (t1 t2 : Duration)
         (c1 c2 now : Time) (m : LogCache),
    (k <> k' ->
     (Get k' now (Set_ k d1 t1 c1 m)).1 = (Get k' now m).1) /\
    Set_ k d2 t2 c2 (Set_ k d1 t1 c1 m) = Set_ k d2 t2 c2 m /\
    (Get k now (Set_ k d2 t2 c2 (Set_ k d1 t1 c1 m))).1
      = (if Sub now c2 >? t2 then ([], false) else (d2, true)).
Proof.
  intros k k' d1 d2 t1 t2 c1 c2 now m.
  assert (Set_ k d2 t2 c2 (Set_ k d1 t1 c1 m) = Set_ k d2 t2 c2 m) as Hover
    by (unfold Set_; apply insert_insert_eq).
  split; [| split; [exact Hover |]].
  - intros Hne. unfold Get, Set_. rewrite lookup_insert_ne by exact Hne.
    destruct (m !! k') as [e|]; [| reflexivity].
    destruct (Sub now (Timestamp e) >? TTL e); reflexivity.
  - rewrite Hover, Get_Set_same. reflexivity.
Qed.

Lemma X5_Set_touches_one_key_witness :
  (Get "b" 10 (Set_ "a" [] 5 0 (Set_ "b" [] 60 0 ∅))).1
    = (Get "b" 10 (Set_ "b" [] 60 0 ∅)).1.
Proof.
  apply (X5_Set_touches_one_key "a" "b" [] [] 5 5 0 0 10 (Set_ "b" [] 60 0 ∅)).
  discriminate.
Defined.

(** X6: a pass of the sweep at the instant [swept] keeps exactly the
    entries whose age at that instant does not exceed their TTL, each one
    unchanged, and a [Get] at that instant or later returns what it would
    have returned without the sweep. *)
Theorem X6_cleanup_removes_only_expired :
  forall (swept : Time) (m : LogCache),
    (forall k e,
        cleanup swept m !! k = Some e <->
        m !! k = Some e /\ Sub swept (Timestamp e) <= TTL e) /\
    (forall k now,
        swept <= now -> (Get k now (cleanup swept m)).1 = (Get k now m).1).
Proof.
  intros swept m. split.
  - intros k e. unfold cleanup. rewrite map_lookup_filter_Some. simpl.
    split; intros [H1 H2]; (split; [exact H1 | lia]).
  - intros k now Hle. unfold Get, cleanup. rewrite map_lookup_filter.
    destruct (m !! k) as [e|] eqn:Ek; simpl; [| reflexivity].
    unfold guard. case_decide as Hkeep; simpl.
    + destruct (Sub now (Timestamp e) >? TTL e); reflexivity.
    + assert ((Sub now (Timestamp e) >? TTL e) = true) as ->; [| reflexivity].
      apply Z.gtb_lt. unfold Sub in *. simpl in Hkeep. lia.
Qed.

(** The theorem at a cache with an entry that is two minutes old and one
    that is six minutes old, both with a TTL of five minutes. *)
Lemma X6_cleanup_witness :
  (Get "young" (6 * Minute)
       (cleanup (6 * Minute)
                (Set_ "old" [] (5 * Minute) 0
                      (Set_ "young" [] (5 * Minute) (4 * Minute) ∅)))).1
    = (Get "young" (6 * Minute)
           (Set_ "old" [] (5 * Minute) 0
                 (Set_ "young" [] (5 * Minute) (4 * Minute) ∅))).1.
Proof.
  apply (X6_cleanup_removes_only_expired (6 * Minute)). lia.
Defined.

End CacheExtras.

(** ** More on the filter builder *)

Section BuilderFacts.

Import FilterBuilder SearchLogs Spec.

Lemma AddDefaultTimeConstraint_grows (now : Time) (fb : FilterBuilder) :
  grows fb (AddDefaultTimeConstraint now fb).
Proof.
  unfold AddDefaultTimeConstraint.
  destruct (hasTimeFilter (filters fb)); [apply grows_refl | apply grows_append].
Qed.

Lemma Join_app (a more : list string) (sep : string) :
  a <> [] ->
  Join (a ++ more) sep
    = Join a sep +:+ match more with
                     | [] => ""
                     | _ => sep +:+ Join more sep
                     end.
Proof.
  induction a as [|x a IH]; [done |]. intros _.
  destruct a as [|y a].
  - destruct more as [|z more]; simpl; [now rewrite append_nil_r | reflexivity].
  - change (Join ((x :: y :: a) ++ more) sep)
      with (x +:+ sep +:+ Join ((y :: a) ++ more) sep).
    rewrite IH by done.
    change (Join (x :: y :: a) sep) with (x +:+ sep +:+ Join (y :: a) sep).
    now rewrite !append_assoc.
Qed.

Lemma hasTimeFilter_true_iff (fs : list string) :
  hasTimeFilter fs = true <-> exists f, f ∈ fs /\ Contains f "timestamp" = true.
Proof.
  induction fs as [|f fs IH]; simpl.
  - split; [discriminate | intros (f & Hin & _); by apply elem_of_nil in Hin].
  - destruct (Contains f "timestamp") eqn:Ef.
    + split; [intros _; exists f; split; [left | exact Ef] | reflexivity].
    + rewrite IH. split.
      * intros (g & Hin & Hg). exists g. split; [now right | exact Hg].
      * intros (g & Hin & Hg). apply elem_of_cons in Hin as [-> | Hin];
          [congruence | exists g; split; assumption].
Qed.

Lemma Contains_trans (s f t : string) :
  Contains s f = true -> Contains f t = true -> Contains s t = true.
Proof.
  intros Hsf Hft. apply Contains_inv in Hsf as (a & b & ->).
  now apply Contains_append_r, Contains_append_l.
Qed.

Lemma defaultClause_mentions_timestamp (now : Time) :
  Contains (Sprintf ge_quoted [FormatRFC3339 (Add now (-24 * Hour))])
           "timestamp" = true.
Proof. reflexivity. Qed.

Lemma AddDefaultTimeConstraint_hasTimeFilter (now : Time) (fb : FilterBuilder) :
  hasTimeFilter (filters (AddDefaultTimeConstraint now fb)) = true.
Proof.
  unfold AddDefaultTimeConstraint.
  destruct (hasTimeFilter (filters fb)) eqn:E; [exact E |].
  rewrite filters_append, hasTimeFilter_app, E, orb_false_l.
  apply hasTimeFilter_cons_true, defaultClause_mentions_timestamp.
Qed.

Lemma upper_lower_char (c : ascii) : upper_char (lower_char c) = upper_char c.
Proof.
  destruct c as [b0 b1 b2 b3 b4 b5 b6 b7].
  destruct b0, b1, b2, b3, b4, b5, b6, b7; reflexivity.
Qed.

Lemma ToUpper_ToLower (s : string) : ToUpper (ToLower s) = ToUpper s.
Proof.
  induction s as [|c s IH]; [reflexivity |].
  unfold ToUpper, ToLower in *. simpl. now rewrite upper_lower_char, IH.
Qed.

Lemma ToLower_empty_iff (s : string) : ToLower s = "" <-> s = "".
Proof. destruct s; simpl; split; intros H; try reflexivity; discriminate H. Qed.

End BuilderFacts.

Section BuilderExtras.

Import FilterBuilder SearchLogs Spec.

(** X7: no step of the builder removes or reorders a clause: after
    [AddTimeRange], [AddSeverity], [AddCloudRunService], [AddLogName],
    [AddKeywords] or [AddDefaultTimeConstraint] the builder holds the
    clauses it held, in order, and then the new ones; so the filter built
    from a non-empty builder is the beginning of every filter built later
    from it.  [Reset] is the only step that drops clauses. *)
Theorem X7_builder_steps_only_append :
  forall (fb : FilterBuilder),
    (forall s e, grows fb (AddTimeRange s e fb)) /\
    (forall s, grows fb (AddSeverity s fb)) /\
    (forall s, grows fb (AddCloudRunService s fb)) /\
    (forall s, grows fb (AddLogName s fb)) /\
    (forall s, grows fb (AddKeywords s fb)) /\
    (forall now, grows fb (AddDefaultTimeConstraint now fb)) /\
    (forall fb', grows fb fb' -> filters fb <> [] ->
                 exists rest, Build fb' = Build fb +:+ rest) /\
    Build (Reset fb) = "".
Proof.
  intros fb. repeat split.
  - intros s e. apply AddTimeRange_grows.
  - intros s. apply AddSeverity_grows.
  - intros s. apply AddCloudRunService_grows.
  - intros s. apply AddLogName_grows.
  - intros s. apply AddKeywords_grows.
  - intros now. apply AddDefaultTimeConstraint_grows.
  - intros fb' [more Hmore] Hne. unfold Build. rewrite Hmore.
    destruct (filters fb) as [|f fs] eqn:E; [done |].
    change (Z.of_nat (length ((f :: fs) ++ more)) =? 0) with false.
    change (Z.of_nat (length (f :: fs)) =? 0) with false. cbv iota.
    rewrite Join_app by done. eexists. reflexivity.
Qed.

Lemma X7_builder_steps_witness :
  exists rest,
    Build (AddKeywords "timeout"
             (AddSeverity "warning" (AddLogName "app" NewFilterBuilder)))
      = Build (AddLogName "app" NewFilterBuilder) +:+ rest.
Proof.
  destruct (X7_builder_steps_only_append (AddLogName "app" NewFilterBuilder))
    as (_ & _ & _ & _ & _ & _ & Hprefix & _).
  apply Hprefix; [| discriminate].
  eapply grows_trans; [apply AddSeverity_grows | apply AddKeywords_grows].
Defined.

(** X8: [AddDefaultTimeConstraint] adds one clause at most, and none
    when a clause of the builder mentions [timestamp]; after it the
    builder has such a clause, so a second call, at whatever instant,
    changes nothing. *)
Theorem X8_AddDefaultTimeConstraint_idempotent :
  forall (now now' : Time) (fb : FilterBuilder),
    AddDefaultTimeConstraint now' (AddDefaultTimeConstraint now fb)
      = AddDefaultTimeConstraint now fb /\
    (hasTimeFilter (filters fb) = true ->
     AddDefaultTimeConstraint now fb = fb) /\
    (hasTimeFilter (filters fb) = false ->
     filters (AddDefaultTimeConstraint now fb)
       = filters fb ++ [defaultClause now]) /\
    (length (filters (AddDefaultTimeConstraint now fb))
       <= S (length (filters fb)))%nat.
Proof.
  intros now now' fb. split; [| split; [| split]].
  - unfold AddDefaultTimeConstraint at 1.
    now rewrite AddDefaultTimeConstraint_hasTimeFilter.
  - intros H. unfold AddDefaultTimeConstraint. now rewrite H.
  - intros H. unfold AddDefaultTimeConstraint. now rewrite H.
  - unfold AddDefaultTimeConstraint.
    destruct (hasTimeFilter (filters fb)); [lia |].
    rewrite filters_append, length_app. simpl. lia.
Qed.

Lemma X8_AddDefaultTimeConstraint_witness :
  filters (AddDefaultTimeConstraint (1751241600 * Second)
             (AddSeverity "error" NewFilterBuilder))
    = ["severity >= ERROR";
       "timestamp >= " +:+ dq +:+ "2025-06-29T00:00:00Z" +:+ dq].
Proof.
  destruct (X8_AddDefaultTimeConstraint_idempotent (1751241600 * Second) 0
              (AddSeverity "error" NewFilterBuilder)) as (_ & _ & Hadd & _).
  rewrite Hadd; [| reflexivity]. vm_compute. reflexivity.
Defined.

(** X9: whatever the request and the instant, the filter that
    [buildOptimizedFilter] compiles mentions [timestamp]; in particular
    it is never the empty filter, which would match every entry of the
    store. *)
Theorem X9_compiled_filter_mentions_timestamp :
  forall (now : Time) (params : SearchLogsArgs),
    Contains (buildOptimizedFilter now params) "timestamp" = true /\
    buildOptimizedFilter now params <> "".
Proof.
  intros now params.
  assert (Contains (buildOptimizedFilter now params) "timestamp" = true) as H.
  { unfold buildOptimizedFilter.
    match goal with
    | |- Contains (Build (AddDefaultTimeConstraint now ?fb)) _ = true =>
        pose proof (AddDefaultTimeConstraint_hasTimeFilter now fb) as Hhas;
        apply hasTimeFilter_true_iff in Hhas as (f & Hin & Hf);
        exact (Contains_trans _ f _ (Build_contains f _ Hin) Hf)
    end. }
  split; [exact H |]. intros Hempty. rewrite Hempty in H. discriminate H.
Qed.

(** X10: the severity of a request is compared whatever the case of its
    letters: two severities with the same lower-case form give the same
    clause, hence the same compiled filter. *)
Theorem X10_severity_case_is_ignored :
  forall (s1 s2 : string),
    ToLower s1 = ToLower s2 ->
    (forall fb, AddSeverity s1 fb = AddSeverity s2 fb) /\
    (forall now q st et res ln ps ob,
        buildOptimizedFilter now (mkArgs q st et s1 res ln ps ob)
          = buildOptimizedFilter now (mkArgs q st et s2 res ln ps ob)).
Proof.
  intros s1 s2 Hlow.
  assert (forall fb, AddSeverity s1 fb = AddSeverity s2 fb) as Hsev.
  { intros fb. unfold AddSeverity.
    assert (ToUpper s1 = ToUpper s2) as ->
      by now rewrite <- (ToUpper_ToLower s1), Hlow, ToUpper_ToLower.
    destruct (String.eqb_spec s1 "") as [-> | H1],
             (String.eqb_spec s2 "") as [-> | H2]; try reflexivity.
    - symmetry in Hlow. apply (proj1 (ToLower_empty_iff s2)) in Hlow.
      contradiction.
    - apply (proj1 (ToLower_empty_iff s1)) in Hlow. contradiction. }
  split; [exact Hsev |].
  intros now q st et res ln ps ob. unfold buildOptimizedFilter. simpl.
  now rewrite Hsev.
Qed.

Lemma X10_severity_case_witness :
  buildOptimizedFilter 0 (mkArgs "timeout" "" "" "Warning" "" "" 0 "")
    = buildOptimizedFilter 0 (mkArgs "timeout" "" "" "WARNING" "" "" 0 "").
Proof.
  apply (X10_severity_case_is_ignored "Warning" "WARNING"). reflexivity.
Defined.

End BuilderExtras.

Section TimeRangeExtras.

Import FilterBuilder SearchLogs Spec.






End TimeRangeExtras.

(** ** The loops over the iterator *)

Section IteratorExtras.

Lemma search_collect_spec (pageSize : Z) (query : string)
      (items : list Logging.Entry) (failure : option error) :
  forall (entries : list LogEntry) (count : Z),
    SearchLogs.collect pageSize query items failure entries count
      = if Z.of_nat (length (filter
                       (fun e => SearchLogs.matchesQuery e query = true) items))
           <? pageSize - count
        then
          match failure with
          | None =>
              (entries ++
               map fromEntry
                   (filter (fun e => SearchLogs.matchesQuery e query = true)
                           items), None)
          | Some err => ([], Some (wrap "failed to iterate log entries: " err))
          end
        else
          (entries ++
           take (Z.to_nat (pageSize - count))
                (map fromEntry
                     (filter (fun e => SearchLogs.matchesQuery e query = true)
                             items)), None).
Proof.
  induction items as [|entry rest IH]; intros entries count.
  - simpl. change (Z.of_nat 0) with 0.
    destruct (Z.geb_spec count pageSize) as [Hfull | Hroom];
      destruct (Z.ltb_spec 0 (pageSize - count)); try lia.
    + now rewrite take_nil, app_nil_r.
    + destruct failure; [reflexivity | now rewrite app_nil_r].
  - cbn [SearchLogs.collect].
    destruct (Z.geb_spec count pageSize) as [Hfull | Hroom].
    + match goal with
      | |- context [?a <? pageSize - count] =>
          destruct (Z.ltb_spec a (pageSize - count)); [lia |]
      end.
      replace (Z.to_nat (pageSize - count)) with O by lia.
      now rewrite take_0, app_nil_r.
    + destruct (SearchLogs.matchesQuery entry query) eqn:Em; cbn [negb].
      * rewrite filter_cons_True by exact Em. rewrite IH.
        set (found := filter _ rest).
        cbn [length map].
        destruct (Z.ltb_spec (Z.of_nat (length found)) (pageSize - (count + 1))),
                 (Z.ltb_spec (Z.of_nat (S (length found))) (pageSize - count));
          try lia.
        -- destruct failure; [reflexivity | now rewrite <- app_assoc].
        -- replace (Z.to_nat (pageSize - count))
             with (S (Z.to_nat (pageSize - (count + 1)))) by lia.
           cbn [take]. now rewrite <- app_assoc.
      * rewrite filter_cons_False by (rewrite Em; discriminate). apply IH.
Qed.

Lemma list_collect_spec (pageSize : Z) (items : list Logging.Entry)
      (failure : option error) :
  forall (entries : list LogEntry) (count : Z),
    ListLogEntries.collect pageSize items failure entries count
      = if Z.of_nat (length items) <? pageSize - count then
          match failure with
          | None => (entries ++ map fromEntry items, None)
          | Some err => ([], Some (wrap "failed to iterate log entries: " err))
          end
        else
          (entries ++ take (Z.to_nat (pageSize - count)) (map fromEntry items),
           None).
Proof.
  induction items as [|entry rest IH]; intros entries count.
  - simpl. change (Z.of_nat 0) with 0.
    destruct (Z.geb_spec count pageSize) as [Hfull | Hroom];
      destruct (Z.ltb_spec 0 (pageSize - count)); try lia.
    + now rewrite take_nil, app_nil_r.
    + destruct failure; [reflexivity | now rewrite app_nil_r].
  - cbn [ListLogEntries.collect].
    destruct (Z.geb_spec count pageSize) as [Hfull | Hroom].
    + match goal with
      | |- context [?a <? pageSize - count] =>
          destruct (Z.ltb_spec a (pageSize - count));
            [cbn [length] in *; lia |]
      end.
      replace (Z.to_nat (pageSize - count)) with O by lia.
      now rewrite take_0, app_nil_r.
    + rewrite IH. cbn [length map].
      destruct (Z.ltb_spec (Z.of_nat (length rest)) (pageSize - (count + 1))),
               (Z.ltb_spec (Z.of_nat (S (length rest))) (pageSize - count));
        try lia.
      * destruct failure; [reflexivity | now rewrite <- app_assoc].
      * replace (Z.to_nat (pageSize - count))
          with (S (Z.to_nat (pageSize - (count + 1)))) by lia.
        cbn [take]. now rewrite <- app_assoc.
Qed.

(** X12: [searchLogs] calls the store once, with the filter compiled at
    the instant of the call.  When the iterator yields as many matching
    entries as the page size asks for (also when the page size is zero or
    negative), the first of them are returned and the rest of the
    iterator is not read, so an error it might end with stays unseen;
    otherwise an error at the end of the iterator is returned, prefixed
    by [failed to iterate log entries: ], without any entry, and an
    iterator that just ends gives all the matching entries. *)
Theorem X12_searchLogs_result :
  forall (params : SearchLogs.SearchLogsArgs) (w : World.World),
    let filter := SearchLogs.buildOptimizedFilter (World.clock w) params in
    let stream := World.remote w (length (World.queries w)) filter in
    let found :=
      base.filter (fun e => SearchLogs.matchesQuery e (SearchLogs.Query params) = true)
                  (Logging.items stream) in
    (SearchLogs.searchLogs params w).2
      = World.mk (World.clock w) (World.remote w)
                 (World.queries w ++ [filter]) (World.slept w) /\
    (SearchLogs.PageSize params <= Z.of_nat (length found) ->
     (SearchLogs.searchLogs params w).1
       = (take (Z.to_nat (SearchLogs.PageSize params)) (map fromEntry found),
          None)) /\
    (Z.of_nat (length found) < SearchLogs.PageSize params ->
     forall err, Logging.failure stream = Some err ->
       (SearchLogs.searchLogs params w).1
         = ([], Some (wrap "failed to iterate log entries: " err))) /\
    (Z.of_nat (length found) < SearchLogs.PageSize params ->
     Logging.failure stream = None ->
     (SearchLogs.searchLogs params w).1 = (map fromEntry found, None)).
Proof.
  intros params w filter stream found.
  assert ((SearchLogs.searchLogs params w).1
          = SearchLogs.collect (SearchLogs.PageSize params)
              (SearchLogs.Query params) (Logging.items stream)
              (Logging.failure stream) [] 0) as Hres by reflexivity.
  rewrite Hres, search_collect_spec. fold found.
  rewrite Z.sub_0_r.
  split; [reflexivity |]. split; [| split].
  - intros Hfull.
    destruct (Z.ltb_spec (Z.of_nat (length found)) (SearchLogs.PageSize params));
      [lia | reflexivity].
  - intros Hshort err Hfail. rewrite Hfail.
    destruct (Z.ltb_spec (Z.of_nat (length found)) (SearchLogs.PageSize params));
      [reflexivity | lia].
  - intros Hshort Hdone. rewrite Hdone.
    destruct (Z.ltb_spec (Z.of_nat (length found)) (SearchLogs.PageSize params));
      [reflexivity | lia].
Qed.

End IteratorExtras.

Section IteratorExtrasList.

(** The theorem X12 at a store that yields the three sample entries and
    then fails: a search for [timeout] with a page size of one is served
    by the first entry and does not see the failure. *)
Lemma X12_searchLogs_witness :
  (SearchLogs.searchLogs (SearchLogs.mkArgs "timeout" "" "" "" "" "" 1 "")
                         (Broken.store Sample.threeEntries Double.denied)).1
    = ([fromEntry (Double.textEntry "projects/p/logs/app"
                                    "connection Timeout after 30s")], None).
Proof.
  destruct (X12_searchLogs_result
              (SearchLogs.mkArgs "timeout" "" "" "" "" "" 1 "")
              (Broken.store Sample.threeEntries Double.denied))
    as (_ & Hfull & _).
  rewrite Hfull; [vm_compute; reflexivity | vm_compute; discriminate].
Defined.

(** X13: [listLogEntries] calls the store once with the filter of the
    request as it is.  It returns the first entries of the iterator, in
    the order of the iterator, up to the page size; an error at the end of
    the iterator is returned (without any entry) only when the iterator
    has fewer entries than the page size; and a page size of zero or less
    gives no entry and no error. *)
Theorem X13_listLogEntries_result :
  forall (params : ListLogEntries.ListLogEntriesArgs) (w : World.World),
    let stream :=
      World.remote w (length (World.queries w)) (ListLogEntries.Filter params) in
    let items := Logging.items stream in
    (ListLogEntries.listLogEntries params w).2
      = World.mk (World.clock w) (World.remote w)
                 (World.queries w ++ [ListLogEntries.Filter params])
                 (World.slept w) /\
    (ListLogEntries.PageSize params <= Z.of_nat (length items) ->
     (ListLogEntries.listLogEntries params w).1
       = (map fromEntry (take (Z.to_nat (ListLogEntries.PageSize params)) items),
          None)) /\
    (ListLogEntries.PageSize params <= 0 ->
     (ListLogEntries.listLogEntries params w).1 = ([], None)) /\
    (Z.of_nat (length items) < ListLogEntries.PageSize params ->
     forall err, Logging.failure stream = Some err ->
       (ListLogEntries.listLogEntries params w).1
         = ([], Some (wrap "failed to iterate log entries: " err))) /\
    (Z.of_nat (length items) < ListLogEntries.PageSize params ->
     Logging.failure stream = None ->
     (ListLogEntries.listLogEntries params w).1 = (map fromEntry items, None)).
Proof.
  intros params w stream items.
  assert ((ListLogEntries.listLogEntries params w).1
          = ListLogEntries.collect (ListLogEntries.PageSize params)
              items (Logging.failure stream) [] 0) as Hres by reflexivity.
  rewrite Hres, list_collect_spec, Z.sub_0_r.
  split; [reflexivity |]. split; [| split; [| split]].
  - intros Hfull.
    destruct (Z.ltb_spec (Z.of_nat (length items)) (ListLogEntries.PageSize params));
      [lia |]. simpl. now rewrite <- firstn_map.
  - intros Hzero.
    destruct (Z.ltb_spec (Z.of_nat (length items)) (ListLogEntries.PageSize params));
      [lia |].
    replace (Z.to_nat (ListLogEntries.PageSize params)) with O by lia.
    reflexivity.
  - intros Hshort err Hfail. rewrite Hfail.
    destruct (Z.ltb_spec (Z.of_nat (length items)) (ListLogEntries.PageSize params));
      [reflexivity | lia].
  - intros Hshort Hdone. rewrite Hdone.
    destruct (Z.ltb_spec (Z.of_nat (length items)) (ListLogEntries.PageSize params));
      [reflexivity | lia].
Qed.

(** The theorem at the store that fails after three entries: a page of
    five entries cannot be filled, and the failure is returned. *)
Lemma X13_listLogEntries_witness :
  (ListLogEntries.listLogEntries (ListLogEntries.mkArgs "" 5 "")
                                 (Broken.store Sample.threeEntries Double.denied)).1
    = ([], Some (wrap "failed to iterate log entries: " Double.denied)).
Proof.
  destruct (X13_listLogEntries_result (ListLogEntries.mkArgs "" 5 "")
              (Broken.store Sample.threeEntries Double.denied))
    as (_ & _ & _ & Hfail & _).
  apply Hfail; [vm_compute; reflexivity | reflexivity].
Defined.

End IteratorExtrasList.

(** ** Calls of the tools that go to the store *)

Section MissFacts.

Import Types ToolSpec RepeatSpec.

(** A call of search_logs that does not find its key in the cache ends
    in an error result, with the cache as it was, or in a fresh result
    whose entries are stored under the key of the request, stamped with
    the clock at the end of the call. *)
Lemma search_Execute_miss_cases (params : SearchLogs.SearchLogsArgs)
      (t : SearchLogs.SearchLogsTool) (w : World.World) :
  let p := SearchLogs.withDefaults params in
  let out := SearchLogs.Execute params t w in
  SearchLogs.Query params <> "" ->
  (LogCache.Get (LogCache.GenerateKey p) (World.clock w)
                (SearchLogs.cache t)).1.2 = false ->
  (IsError out.1.1 = true /\ out.1.2 = t) \/
  (exists es,
      out.1.1 = success (IndentedMap (SearchLogs.freshResult
                                        (SearchLogs.Query p) es)) /\
      out.1.2 = SearchLogs.mk
                  (LogCache.Set_ (LogCache.GenerateKey p) es (searchTTL p)
                                 (World.clock out.2) (SearchLogs.cache t))
                  (SearchLogs.rateLimiter t)).
Proof.
  intros p out Hq Hmiss. subst out. unfold SearchLogs.Execute in *.
  destruct (String.eqb_spec (SearchLogs.Query params) "") as [| _]; [done |].
  fold p in Hmiss |- *.
  destruct (LogCache.Get (LogCache.GenerateKey p) (World.clock w)
                         (SearchLogs.cache t))
    as [[cached found] c] eqn:Eget.
  simpl in Hmiss. subst found. apply Get_cache_same in Eget as ->.
  destruct (RateLimiter.ExecuteWithBackoff _ _ _ _)
    as [[[e|] [w' es]] tr]; simpl.
  - left. split; [reflexivity | now destruct t].
  - right. exists es. split; reflexivity.
Qed.

Lemma list_Execute_miss_cases (params : ListLogEntries.ListLogEntriesArgs)
      (t : ListLogEntries.ListLogEntriesTools) (w : World.World) :
  let p := ListLogEntries.withDefaults params in
  let out := ListLogEntries.Execute params t w in
  (LogCache.Get (LogCache.GenerateKey p) (World.clock w)
                (ListLogEntries.cache t)).1.2 = false ->
  (IsError out.1.1 = true /\ out.1.2 = t) \/
  (exists es,
      out.1.1 = success (IndentedEntries es) /\
      out.1.2 = ListLogEntries.mk
                  (LogCache.Set_ (LogCache.GenerateKey p) es (2 * Minute)
                                 (World.clock out.2) (ListLogEntries.cache t))
                  (ListLogEntries.rateLimiter t)).
Proof.
  intros p out Hmiss. subst out. unfold ListLogEntries.Execute in *.
  fold p in Hmiss |- *.
  destruct (LogCache.Get (LogCache.GenerateKey p) (World.clock w)
                         (ListLogEntries.cache t))
    as [[cached found] c] eqn:Eget.
  simpl in Hmiss. subst found. apply Get_cache_same in Eget as ->.
  destruct (RateLimiter.ExecuteWithBackoff _ _ _ _)
    as [[[e|] [w' es]] tr]; simpl.
  - left. split; [reflexivity | now destruct t].
  - right. exists es. split; reflexivity.
Qed.

Lemma preset_Execute_miss_cases (params : PresetQueryTool.PresetQueryArgs)
      (t : PresetQueryTool.PresetQueryTool) (w : World.World) :
  let out := PresetQueryTool.Execute params t w in
  PresetQueryTool.QueryName params <> "" ->
  (LogCache.Get (LogCache.GenerateKey params) (World.clock w)
                (PresetQueryTool.cache t)).1.2 = false ->
  (IsError out.1.1 = true /\ out.1.2 = t) \/
  (exists filter pageSize es,
      Presets.GetPresetQuery (World.clock w) (PresetQueryTool.QueryName params)
                             (PresetQueryTool.Parameters params)
        = (filter, pageSize, None) /\
      Z.of_nat (length es) <= Z.max 0 pageSize /\
      out.1.1 = success (IndentedMap
                           (PresetQueryTool.freshResult
                              (PresetQueryTool.QueryName params) filter es)) /\
      out.1.2 = PresetQueryTool.mk
                  (LogCache.Set_ (LogCache.GenerateKey params) es
                                 (2 * Minute) (World.clock out.2)
                                 (PresetQueryTool.cache t))
                  (PresetQueryTool.rateLimiter t)).
Proof.
  intros out Hq Hmiss. subst out. unfold PresetQueryTool.Execute in *.
  destruct (String.eqb_spec (PresetQueryTool.QueryName params) "") as [| _];
    [done |].
  destruct (LogCache.Get (LogCache.GenerateKey params) (World.clock w)
                         (PresetQueryTool.cache t))
    as [[cached found] c] eqn:Eget.
  simpl in Hmiss. subst found. apply Get_cache_same in Eget as ->.
  destruct (Presets.GetPresetQuery _ _ _) as [[filter pageSize] [e|]];
    [left; split; [reflexivity | now destruct t] |].
  destruct (RateLimiter.ExecuteWithBackoff _ _ _ _)
    as [[[e|] [w' es]] tr] eqn:Erun; simpl.
  - left. split; [reflexivity | now destruct t].
  - right. exists filter, pageSize, es. split; [reflexivity |].
    split; [| split; reflexivity].
    apply ExecuteWithBackoff_success_inv in Erun as [[w0 es0] Hop].
    unfold PresetQueryTool.operation, PresetQueryTool.executePresetQuery in Hop.
    change ((w0, es0).1) with w0 in Hop.
    pose proof (listLogEntries_length
                  (ListLogEntries.mkArgs filter pageSize "timestamp desc") w0)
      as Hlen.
    destruct (ListLogEntries.listLogEntries _ w0) as [[es1 err1] w1].
    simpl in Hop, Hlen. injection Hop as _ _ <-. exact Hlen.
Qed.

End MissFacts.

Section ToolExtras.

Import Types ToolSpec RepeatSpec.

(** X14: a call that ends in an error result, whatever the reason
    (a missing query or preset name, an unknown preset, a failure of the
    store, retries used up), leaves the tool as it was: nothing is put
    into the cache, so an error is never served again from the cache; and
    an error result carries no entries. *)
Theorem X14_error_results_are_not_cached :
  (forall params t w,
      IsError (SearchLogs.Execute params t w).1.1 = true ->
      (SearchLogs.Execute params t w).1.2 = t /\
      resultEntries (SearchLogs.Execute params t w).1.1 = []) /\
  (forall params t w,
      IsError (ListLogEntries.Execute params t w).1.1 = true ->
      (ListLogEntries.Execute params t w).1.2 = t /\
      resultEntries (ListLogEntries.Execute params t w).1.1 = []) /\
  (forall params t w,
      IsError (PresetQueryTool.Execute params t w).1.1 = true ->
      (PresetQueryTool.Execute params t w).1.2 = t /\
      resultEntries (PresetQueryTool.Execute params t w).1.1 = []).
Proof.
  split; [| split].
  - intros params t w. unfold SearchLogs.Execute.
    destruct (String.eqb (SearchLogs.Query params) ""); [now split |].
    destruct (LogCache.Get _ _ _) as [[cached found] c] eqn:Eget.
    apply Get_cache_same in Eget as ->.
    destruct found; [intros [=] |].
    destruct (RateLimiter.ExecuteWithBackoff _ _ _ _)
      as [[[e|] [w' es]] tr]; simpl; [| intros [=]].
    intros _. split; [now destruct t | reflexivity].
  - intros params t w. unfold ListLogEntries.Execute.
    destruct (LogCache.Get _ _ _) as [[cached found] c] eqn:Eget.
    apply Get_cache_same in Eget as ->.
    destruct found; [intros [=] |].
    destruct (RateLimiter.ExecuteWithBackoff _ _ _ _)
      as [[[e|] [w' es]] tr]; simpl; [| intros [=]].
    intros _. split; [now destruct t | reflexivity].
  - intros params t w. unfold PresetQueryTool.Execute.
    destruct (String.eqb (PresetQueryTool.QueryName params) ""); [now split |].
    destruct (LogCache.Get _ _ _) as [[cached found] c] eqn:Eget.
    apply Get_cache_same in Eget as ->.
    destruct found; [intros [=] |].
    destruct (Presets.GetPresetQuery _ _ _) as [[filter pageSize] [e|]];
      [intros _; split; [now destruct t | reflexivity] |].
    destruct (RateLimiter.ExecuteWithBackoff _ _ _ _)
      as [[[e|] [w' es]] tr]; simpl; [| intros [=]].
    intros _. split; [now destruct t | reflexivity].
Qed.

(** The theorem at a search against a store that denies access. *)
Lemma X14_error_results_witness :
  (SearchLogs.Execute Sample.timeoutSearch SearchLogs.NewSearchLogsTool
                      (Broken.store [] Double.denied)).1.2
    = SearchLogs.NewSearchLogsTool.
Proof.
  destruct X14_error_results_are_not_cached as (Hsearch & _ & _).
  apply (Hsearch Sample.timeoutSearch SearchLogs.NewSearchLogsTool
                 (Broken.store [] Double.denied)).
  vm_compute. reflexivity.
Defined.

(** X15: after a call of search_logs that went to the store and
    succeeded, the same request made while the clock is at most the TTL
    past the end of that call (two minutes without an explicit start
    time, ten minutes with one) is answered from the cache: it returns
    the entries of the first call with [cached: true], calls nothing and
    changes nothing.  Once the clock is further than that, the key is no
    longer found. *)
Theorem X15_search_repeated_within_ttl :
  forall (params : SearchLogs.SearchLogsArgs) (t : SearchLogs.SearchLogsTool)
         (w w2 : World.World),
    let p := SearchLogs.withDefaults params in
    let out := SearchLogs.Execute params t w in
    SearchLogs.Query params <> "" ->
    (LogCache.Get (LogCache.GenerateKey p) (World.clock w)
                  (SearchLogs.cache t)).1.2 = false ->
    IsError out.1.1 = false ->
    (Sub (World.clock w2) (World.clock out.2) <= searchTTL p ->
     SearchLogs.Execute params out.1.2 w2
       = (success (IndentedMap (SearchLogs.cachedResult
                                  (SearchLogs.Query p) (resultEntries out.1.1))),
          out.1.2, w2)) /\
    (Sub (World.clock w2) (World.clock out.2) > searchTTL p ->
     (LogCache.Get (LogCache.GenerateKey p) (World.clock w2)
                   (SearchLogs.cache out.1.2)).1.2 = false).
Proof.
  intros params t w w2 p out Hq Hmiss Hok.
  destruct (search_Execute_miss_cases params t w Hq Hmiss)
    as [[Herr _] | (es & Hres & Htool)].
  { subst out. rewrite Herr in Hok. discriminate Hok. }
  fold p in Hres, Htool. fold out in Hres, Htool.
  rewrite Hres, resultEntries_search_fresh, Htool. split.
  - intros Hle. unfold SearchLogs.Execute.
    destruct (String.eqb_spec (SearchLogs.Query params) "") as [| _]; [done |].
    fold p. cbn [SearchLogs.cache SearchLogs.rateLimiter].
    rewrite Get_Set_same.
    destruct (Z.gtb_spec (Sub (World.clock w2) (World.clock out.2)) (searchTTL p));
      [lia | reflexivity].
  - intros Hgt. cbn [SearchLogs.cache]. rewrite Get_Set_same.
    destruct (Z.gtb_spec (Sub (World.clock w2) (World.clock out.2)) (searchTTL p));
      [reflexivity | lia].
Qed.

(** The theorem at the two sample searches, a minute apart. *)
Lemma X15_search_repeated_witness :
  Run.searchSecond
    = (success (IndentedMap
                  (SearchLogs.cachedResult "timeout"
                     (resultEntries Run.searchFirst.1.1))),
       Run.searchFirst.1.2, World.elapse (1 * Minute) Run.searchFirst.2).
Proof.
  apply (X15_search_repeated_within_ttl Sample.timeoutSearch
           SearchLogs.NewSearchLogsTool (Double.store Sample.threeEntries)
           (World.elapse (1 * Minute) Run.searchFirst.2)).
  - discriminate.
  - vm_compute. reflexivity.
  - vm_compute. reflexivity.
  - vm_compute. discriminate.
Defined.

End ToolExtras.

Section ToolExtrasRepeat.

Import Types ToolSpec RepeatSpec.

(** X16: after a call of list_log_entries that went to the store and
    succeeded, the same request made while the clock is at most two
    minutes past the end of that call is answered from the cache with
    the same list of entries, without a call of the store and without a
    change; later than that the key is no longer found. *)
Theorem X16_list_repeated_within_ttl :
  forall (params : ListLogEntries.ListLogEntriesArgs)
         (t : ListLogEntries.ListLogEntriesTools) (w w2 : World.World),
    let p := ListLogEntries.withDefaults params in
    let out := ListLogEntries.Execute params t w in
    (LogCache.Get (LogCache.GenerateKey p) (World.clock w)
                  (ListLogEntries.cache t)).1.2 = false ->
    IsError out.1.1 = false ->
    (Sub (World.clock w2) (World.clock out.2) <= 2 * Minute ->
     ListLogEntries.Execute params out.1.2 w2 = (out.1.1, out.1.2, w2)) /\
    (Sub (World.clock w2) (World.clock out.2) > 2 * Minute ->
     (LogCache.Get (LogCache.GenerateKey p) (World.clock w2)
                   (ListLogEntries.cache out.1.2)).1.2 = false).
Proof.
  intros params t w w2 p out Hmiss Hok.
  destruct (list_Execute_miss_cases params t w Hmiss)
    as [[Herr _] | (es & Hres & Htool)].
  { subst out. rewrite Herr in Hok. discriminate Hok. }
  fold p in Hres, Htool. fold out in Hres, Htool.
  rewrite Hres, Htool. split.
  - intros Hle. unfold ListLogEntries.Execute.
    fold p. cbn [ListLogEntries.cache ListLogEntries.rateLimiter].
    rewrite Get_Set_same.
    destruct (Z.gtb_spec (Sub (World.clock w2) (World.clock out.2)) (2 * Minute));
      [lia | reflexivity].
  - intros Hgt. cbn [ListLogEntries.cache]. rewrite Get_Set_same.
    destruct (Z.gtb_spec (Sub (World.clock w2) (World.clock out.2)) (2 * Minute));
      [reflexivity | lia].
Qed.

Lemma X16_list_repeated_witness :
  Run.listSecond
    = (Run.listFirst.1.1, Run.listFirst.1.2,
       World.elapse (1 * Minute) Run.listFirst.2).
Proof.
  apply (X16_list_repeated_within_ttl Run.listRequest
           ListLogEntries.NewListLogEntriesTools
           (Double.store Sample.threeEntries)
           (World.elapse (1 * Minute) Run.listFirst.2)).
  - vm_compute. reflexivity.
  - vm_compute. reflexivity.
  - vm_compute. discriminate.
Defined.

(** X17: the key of preset_query is made of the preset name and the
    parameters only.  After a call that went to the store and succeeded,
    the same name and parameters, asked while the clock is at most two
    minutes past the end of that call, are answered from the cache with
    the entries of the first call and [cached: true]: the preset is not
    resolved again, although its time bound would have moved with the
    clock, and the store is not called. *)
Theorem X17_preset_repeated_within_ttl :
  forall (params : PresetQueryTool.PresetQueryArgs)
         (t : PresetQueryTool.PresetQueryTool) (w w2 : World.World),
    let out := PresetQueryTool.Execute params t w in
    PresetQueryTool.QueryName params <> "" ->
    (LogCache.Get (LogCache.GenerateKey params) (World.clock w)
                  (PresetQueryTool.cache t)).1.2 = false ->
    IsError out.1.1 = false ->
    (Sub (World.clock w2) (World.clock out.2) <= 2 * Minute ->
     PresetQueryTool.Execute params out.1.2 w2
       = (success (IndentedMap
                     (PresetQueryTool.cachedResult
                        (PresetQueryTool.QueryName params)
                        (resultEntries out.1.1))),
          out.1.2, w2)) /\
    (Sub (World.clock w2) (World.clock out.2) > 2 * Minute ->
     (LogCache.Get (LogCache.GenerateKey params) (World.clock w2)
                   (PresetQueryTool.cache out.1.2)).1.2 = false).
Proof.
  intros params t w w2 out Hq Hmiss Hok.
  destruct (preset_Execute_miss_cases params t w Hq Hmiss)
    as [[Herr _] | (filter & pageSize & es & _ & _ & Hres & Htool)].
  { subst out. rewrite Herr in Hok. discriminate Hok. }
  fold out in Hres, Htool.
  assert (resultEntries out.1.1 = es) as Hes.
  { rewrite Hres. unfold resultEntries; simpl.
    assert (PresetQueryTool.freshResult (PresetQueryTool.QueryName params)
                                        filter es !! "entries"
            = Some (VEntries es)) as -> by reflexivity.
    apply app_nil_r. }
  rewrite Hes, Htool. split.
  - intros Hle. unfold PresetQueryTool.Execute.
    destruct (String.eqb_spec (PresetQueryTool.QueryName params) "") as [| _];
      [done |].
    cbn [PresetQueryTool.cache PresetQueryTool.rateLimiter].
    rewrite Get_Set_same.
    destruct (Z.gtb_spec (Sub (World.clock w2) (World.clock out.2)) (2 * Minute));
      [lia | reflexivity].
  - intros Hgt. cbn [PresetQueryTool.cache]. rewrite Get_Set_same.
    destruct (Z.gtb_spec (Sub (World.clock w2) (World.clock out.2)) (2 * Minute));
      [reflexivity | lia].
Qed.

Lemma X17_preset_repeated_witness :
  PresetList.second
    = (success (IndentedMap
                  (PresetQueryTool.cachedResult
                     "cloud_run_service_errors"
                     (resultEntries PresetList.first.1.1))),
       PresetList.first.1.2,
       World.elapse (1 * Minute) PresetList.first.2).
Proof.
  refine (proj1 (X17_preset_repeated_within_ttl PresetList.request
                   PresetQueryTool.NewPresetQueryTool
                   (Double.store Sample.threeEntries)
                   (World.elapse (1 * Minute) PresetList.first.2) _ _ _) _).
  - discriminate.
  - vm_compute. reflexivity.
  - vm_compute. reflexivity.
  - vm_compute. discriminate.
Defined.

End ToolExtrasRepeat.

(** ** More on the presets *)

Section PresetFacts.

Import Presets PresetList.

(** The catalogue has four entries, and each preset is filed under its
    own name. *)
Lemma catalogue_cases (name : string) (preset : PresetQuery) :
  CommonPresetQueries !! name = Some preset ->
  Name preset = name /\
  (name = "cloud_run_errors" /\ PageSize preset = 10 \/
   name = "cloud_run_service_errors" /\ PageSize preset = 15 \/
   name = "recent_logs" /\ PageSize preset = 20 \/
   name = "high_severity" /\ PageSize preset = 10).
Proof.
  intros H. unfold CommonPresetQueries in H.
  apply elem_of_list_to_map_2 in H. rewrite !elem_of_cons in H.
  destruct H as [[= -> ->] | [[= -> ->] | [[= -> ->] | [[= -> ->] | H]]]];
    [| | | | by apply elem_of_nil in H];
    (split; [reflexivity |]); tauto.
Qed.

Lemma lowerBound_found (now : Time) (hours : Z) (before : string) :
  Contains (before +:+ lowerBound now hours) (lowerBound now hours) = true.
Proof.
  apply Contains_spec. exists before, "". now rewrite append_nil_r.
Qed.

End PresetFacts.

Section PresetExtras.

Import Presets PresetList Types ToolSpec RepeatSpec.

(** X18: [GetPresetQuery] fails exactly when the name is not in the
    catalogue, or is [cloud_run_service_errors] without a parameter, and
    then returns the empty filter and page size 0.  When it succeeds the
    page size is the one of the preset, between 10 and 20, and the filter
    has a lower time bound of one to six hours before the instant of the
    call. *)
Theorem X18_GetPresetQuery_outcomes :
  forall (now : Time) (name : string) (params : list string),
    let out := GetPresetQuery now name params in
    (out.2 <> None <->
     CommonPresetQueries !! name = None \/
     (name = "cloud_run_service_errors" /\ params = [])) /\
    (out.2 <> None -> out.1.1 = "" /\ out.1.2 = 0) /\
    (out.2 = None ->
     (exists preset, CommonPresetQueries !! name = Some preset /\
                     out.1.2 = PageSize preset) /\
     10 <= out.1.2 <= 20 /\
     exists hours, 1 <= hours <= 6 /\
                   Contains out.1.1 (lowerBound now hours) = true).
Proof.
  intros now name params out. subst out.
  destruct (CommonPresetQueries !! name) as [preset|] eqn:Elook.
  - destruct (catalogue_cases name preset Elook)
      as (_ & [[-> Hp] | [[-> Hp] | [[-> Hp] | [-> Hp]]]]);
      unfold GetPresetQuery; rewrite Elook; simpl String.eqb; cbv iota;
      vm_compute in Elook; injection Elook as <-;
      cbn [fst snd Filter PageSize].
    + split; [split; [intros H; now contradiction H | intros [[=] | [[=] _]]] |].
      split; [intros H; now contradiction H |]. intros _.
      split; [eexists; split; reflexivity |]. split; [simpl; lia |].
      exists 1. split; [lia |].
      exact (lowerBound_found now 1
               ("resource.type=" +:+ dq +:+ "cloud_run_revision" +:+ dq +:+
                " AND severity>=ERROR AND ")).
    + destruct params as [|serviceName rest].
      * split; [split; [intros _; right; now split | discriminate] |].
        split; [intros _; now split | discriminate].
      * split; [split; [intros H; now contradiction H
                       | intros [[=] | [_ [=]]]] |].
        split; [intros H; now contradiction H |]. intros _.
        split; [eexists; split; reflexivity |]. split; [simpl; lia |].
        exists 2. split; [lia |].
        apply (Contains_append_r
                 ("resource.type=" +:+ dq +:+ "cloud_run_revision" +:+ dq +:+
                  " AND resource.labels.service_name=" +:+ dq)
                 (serviceName +:+ dq +:+ " AND severity>=ERROR AND "
                  +:+ lowerBound now 2)).
        apply Contains_append_r.
        exact (lowerBound_found now 2 (dq +:+ " AND severity>=ERROR AND ")).
    + split; [split; [intros H; now contradiction H | intros [[=] | [[=] _]]] |].
      split; [intros H; now contradiction H |]. intros _.
      split; [eexists; split; reflexivity |]. split; [simpl; lia |].
      exists 1. split; [lia |]. apply (lowerBound_found now 1 "").
    + split; [split; [intros H; now contradiction H | intros [[=] | [[=] _]]] |].
      split; [intros H; now contradiction H |]. intros _.
      split; [eexists; split; reflexivity |]. split; [simpl; lia |].
      exists 6. split; [lia |].
      exact (lowerBound_found now 6 "severity>=ERROR AND ").
  - unfold GetPresetQuery. rewrite Elook. simpl.
    split; [split; [intros _; now left | discriminate] |].
    split; [intros _; now split | discriminate].
Qed.

End PresetExtras.

Section PresetToolExtras.

Import Presets PresetList Types ToolSpec RepeatSpec.

Lemma resultEntries_preset_fresh (q filter : string) (es : list LogEntry) :
  resultEntries (success (IndentedMap (PresetQueryTool.freshResult q filter es)))
    = es.
Proof.
  unfold resultEntries; simpl.
  assert (PresetQueryTool.freshResult q filter es !! "entries"
          = Some (VEntries es)) as -> by reflexivity.
  apply app_nil_r.
Qed.

Lemma resultEntries_preset_cached (q : string) (es : list LogEntry) :
  resultEntries (success (IndentedMap (PresetQueryTool.cachedResult q es))) = es.
Proof.
  unfold resultEntries; simpl.
  assert (PresetQueryTool.cachedResult q es !! "entries"
          = Some (VEntries es)) as -> by reflexivity.
  apply app_nil_r.
Qed.

(** The page size of a resolved preset is at most 20. *)
Lemma GetPresetQuery_PageSize (now : Time) (name : string)
      (params : list string) :
  0 <= (GetPresetQuery now name params).1.2 <= 20.
Proof.
  unfold GetPresetQuery.
  destruct (CommonPresetQueries !! name) as [preset|] eqn:Elook;
    [| simpl; lia].
  destruct (catalogue_cases name preset Elook) as (_ & Hcases).
  repeat (match goal with
          | |- context [if ?b then _ else _] => destruct b
          | |- context [match ?l with [] => _ | _ :: _ => _ end] => destruct l
          end; cbn [fst snd]); lia.
Qed.

(** One call of preset_query keeps the bound of the cache, and returns no
    more entries than the bound. *)
Lemma preset_Execute_step (params : PresetQueryTool.PresetQueryArgs)
      (t : PresetQueryTool.PresetQueryTool) (w : World.World) :
  let out := PresetQueryTool.Execute params t w in
  cacheBounded 20 (PresetQueryTool.cache t) ->
  cacheBounded 20 (PresetQueryTool.cache out.1.2) /\
  Z.of_nat (length (resultEntries out.1.1)) <= 20.
Proof.
  intros out Hcache. subst out. unfold PresetQueryTool.Execute.
  destruct (String.eqb (PresetQueryTool.QueryName params) "");
    [split; [exact Hcache | simpl; lia] |].
  destruct (LogCache.Get (LogCache.GenerateKey params) (World.clock w)
                         (PresetQueryTool.cache t))
    as [[cached found] c] eqn:Eget.
  destruct found.
  { apply Get_hit_inv in Eget as (-> & e & He & <-). cbn [fst snd].
    rewrite resultEntries_preset_cached.
    split; [exact Hcache | exact (Hcache _ _ He)]. }
  apply Get_cache_same in Eget as ->.
  pose proof (GetPresetQuery_PageSize (World.clock w)
                (PresetQueryTool.QueryName params)
                (PresetQueryTool.Parameters params)) as Hsize.
  destruct (Presets.GetPresetQuery _ _ _) as [[filter pageSize] [e|]];
    [split; [exact Hcache | simpl; lia] |].
  cbn [fst snd] in Hsize.
  destruct (RateLimiter.ExecuteWithBackoff _ _ _ _)
    as [[[e|] [w' es]] tr] eqn:Erun; cbn [fst snd PresetQueryTool.cache].
  { split; [exact Hcache | simpl; lia]. }
  assert (Z.of_nat (length es) <= 20) as Hlen.
  { apply ExecuteWithBackoff_success_inv in Erun as [[w0 es0] Hop].
    unfold PresetQueryTool.operation, PresetQueryTool.executePresetQuery in Hop.
    change ((w0, es0).1) with w0 in Hop.
    pose proof (listLogEntries_length
                  (ListLogEntries.mkArgs filter pageSize "timestamp desc") w0)
      as Hlen.
    destruct (ListLogEntries.listLogEntries _ w0) as [[es1 err1] w1].
    simpl in Hop, Hlen. injection Hop as _ _ <-. lia. }
  rewrite resultEntries_preset_fresh.
  split; [apply cacheBounded_Set; assumption | exact Hlen].
Qed.

(** X19: preset_query never hands out more than 20 entries.  In every
    state the tool can reach from a new one, whatever the calls made, a
    call returns at most 20 entries, from the store or from the cache, and
    no entry of the cache holds more than 20. *)
Theorem X19_preset_tool_returns_at_most_20 :
  forall (t : PresetQueryTool.PresetQueryTool),
    presetReachable t ->
    forall (params : PresetQueryTool.PresetQueryArgs) (w : World.World),
      let out := PresetQueryTool.Execute params t w in
      Z.of_nat (length (resultEntries out.1.1)) <= 20 /\
      cacheBounded 20 (PresetQueryTool.cache out.1.2).
Proof.
  intros t Hreach.
  assert (cacheBounded 20 (PresetQueryTool.cache t)) as Hcache.
  { induction Hreach as [| params0 t0 w0 _ IH]; [apply cacheBounded_empty |].
    apply (preset_Execute_step params0 t0 w0 IH). }
  intros params w out.
  destruct (preset_Execute_step params t w Hcache) as [Hc Hl].
  split; assumption.
Qed.

Lemma X19_preset_tool_witness :
  Z.of_nat (length (resultEntries PresetList.second.1.1)) <= 20 /\
  cacheBounded 20 (PresetQueryTool.cache PresetList.second.1.2).
Proof.
  apply (X19_preset_tool_returns_at_most_20 PresetList.first.1.2
           (preset_step PresetList.request PresetQueryTool.NewPresetQueryTool
                        (Double.store Sample.threeEntries) preset_new)
           PresetList.request
           (World.elapse (1 * Minute) PresetList.first.2)).
Defined.

(** X20: [ListPresetQueries] returns the presets of the catalogue, each
    once: four presets with four different names, every one filed under
    its own name.  Each listed preset can be resolved under that name
    when a service name is passed along, with the page size the list
    shows. *)
Theorem X20_ListPresetQueries_lists_the_catalogue :
  length ListPresetQueries = 4%nat /\
  NoDup (map Name ListPresetQueries) /\
  (forall preset,
      preset ∈ ListPresetQueries <->
      CommonPresetQueries !! Name preset = Some preset) /\
  (forall preset now serviceName rest,
      preset ∈ ListPresetQueries ->
      let out := GetPresetQuery now (Name preset) (serviceName :: rest) in
      out.2 = None /\ out.1.2 = PageSize preset).
Proof.
  assert (forall preset,
             preset ∈ ListPresetQueries <->
             CommonPresetQueries !! Name preset = Some preset) as Hiff.
  { intros preset. unfold ListPresetQueries. rewrite list_elem_of_fmap. split.
    - intros ([name p] & -> & Hin). apply elem_of_map_to_list in Hin.
      destruct (catalogue_cases name p Hin) as [Hname _].
      cbn [snd]. now rewrite Hname.
    - intros Hlook. exists (Name preset, preset).
      split; [reflexivity | now apply elem_of_map_to_list]. }
  split; [vm_compute; reflexivity |].
  split.
  { assert (map Name ListPresetQueries
            = map fst (map_to_list CommonPresetQueries)) as ->.
    { unfold ListPresetQueries. rewrite map_map. apply map_ext_in.
      intros [name p] Hin. apply list_elem_of_In, elem_of_map_to_list in Hin.
      now destruct (catalogue_cases name p Hin) as [Hname _]. }
    apply NoDup_fst_map_to_list. }
  split; [exact Hiff |].
  intros preset now serviceName rest Hin out. subst out.
  apply Hiff in Hin.
  destruct (catalogue_cases _ _ Hin) as (_ & [[Hn _] | [[Hn _] | [[Hn _] | [Hn _]]]]);
    unfold GetPresetQuery; rewrite Hin, Hn; split; reflexivity.
Qed.

End PresetToolExtras.

(** ** The handlers of server.go *)

Section HandlerExtras.

Import Types ToolSpec RepeatSpec.

Lemma search_withDefaults_StartTime (params : SearchLogs.SearchLogsArgs) :
  SearchLogs.StartTime (SearchLogs.withDefaults params)
    = SearchLogs.StartTime params.
Proof.
  unfold SearchLogs.withDefaults.
  destruct (SearchLogs.PageSize params =? 0); cbn [SearchLogs.PageSize];
    repeat match goal with
           | |- context [if ?b then _ else _] => destruct b
           end; reflexivity.
Qed.

(** X21: a search that comes in through the handler of the server
    reaches the tool with its query, severity and page size only.  Start
    time, end time, resource, log name and order of the request have no
    effect: requests that agree on the three fields get the same answer
    and leave the same cache and store behind.  In particular a start
    time does not lengthen the life of the cached answer: after a call
    that went to the store and succeeded, the answer is found in the
    cache exactly as long as the clock is at most two minutes past the
    end of the call. *)
Theorem X21_search_handler_passes_three_fields :
  forall (arguments : SearchLogs.SearchLogsArgs)
         (tool : SearchLogs.SearchLogsTool) (w : World.World),
    let out := Server.createSearchLogsHandler arguments tool w in
    (forall other,
        SearchLogs.Query other = SearchLogs.Query arguments ->
        SearchLogs.Severity other = SearchLogs.Severity arguments ->
        SearchLogs.PageSize other = SearchLogs.PageSize arguments ->
        Server.createSearchLogsHandler other tool w = out) /\
    (SearchLogs.Query arguments <> "" ->
     (LogCache.Get (Server.searchKey arguments) (World.clock w)
                   (SearchLogs.cache tool)).1.2 = false ->
     Server.IsError out.1.1 = false ->
     forall w2,
       Sub (World.clock w2) (World.clock out.2) <= 2 * Minute <->
       (LogCache.Get (Server.searchKey arguments) (World.clock w2)
                     (SearchLogs.cache out.1.2)).1.2 = true).
Proof.
  intros arguments tool w out. split.
  { intros other Hq Hs Hp. subst out. unfold Server.createSearchLogsHandler.
    now rewrite Hq, Hs, Hp. }
  intros Hq Hmiss Hok w2. subst out.
  unfold Server.createSearchLogsHandler in *. unfold Server.searchKey in *.
  set (args := SearchLogs.mkArgs (SearchLogs.Query arguments) "" ""
                 (SearchLogs.Severity arguments) "" ""
                 (SearchLogs.PageSize arguments) "") in *.
  pose proof (search_Execute_miss_cases args tool w Hq Hmiss) as Hcases.
  cbv zeta in Hcases.
  destruct (SearchLogs.Execute args tool w) as [[result tool'] w'].
  cbn [fst snd] in *.
  destruct Hcases as [[Herr _] | (es & _ & ->)].
  { unfold Server.convert in Hok. cbn [Server.IsError] in Hok. congruence. }
  cbn [SearchLogs.cache]. rewrite Get_Set_same.
  assert (searchTTL (SearchLogs.withDefaults args) = 2 * Minute) as ->.
  { unfold searchTTL. now rewrite search_withDefaults_StartTime. }
  destruct (Z.gtb_spec (Sub (World.clock w2) (World.clock w')) (2 * Minute));
    cbn [fst snd]; split; intros; try lia; try done.
Qed.

End HandlerExtras.

(** ** The MCP server *)

Section McpExtras.

Import Mcp McpSpec.

Context {State : Type}.

Implicit Types (s : MCPServer State) (request params : gmap string Any)
         (st : State).

(** X22: whatever the request, [HandleRequest] stays silent for the
    notification [notifications/initialized] and for nothing else; every
    other request gets a JSON-RPC 2.0 response that carries either a
    result or an error, never both, and the id of the request (nil when
    the request has no method that is a string).  The error is -32600
    exactly when the method is missing or not a string, and -32601 exactly
    when the method is none of the four that the server knows. *)
Theorem X22_HandleRequest_envelope :
  forall s request st,
    let response := (HandleRequest s request st).1 in
    (response = ANil <->
     request !! "method" = Some (AString "notifications/initialized")) /\
    (response <> ANil ->
     member "jsonrpc" response = Some (AString "2.0") /\
     (member "result" response = None <-> member "error" response <> None) /\
     member "id" response
       = Some (match request !! "method" with
               | Some (AString _) => requestId request
               | _ => ANil
               end)) /\
    (errorCode response = Some (-32600) <->
     forall method, request !! "method" <> Some (AString method)) /\
    (errorCode response = Some (-32601) <->
     exists method, request !! "method" = Some (AString method) /\
                    method ∉ knownMethods).
Proof.
  intros s request st response. subst response. unfold HandleRequest.
  assert (forall method, method ∉ knownMethods <->
                         method <> "initialize" /\ method <> "tools/list" /\
                         method <> "tools/call" /\
                         method <> "notifications/initialized") as Hknown.
  { intros method. unfold knownMethods. rewrite !not_elem_of_cons.
    pose proof (not_elem_of_nil method). tauto. }
  destruct (request !! "method") as [[| | | | method | | |]|] eqn:Hm;
    try (split; [split; [discriminate | discriminate] |];
         split; [intros _; split; [reflexivity |];
                 split; [split; [discriminate | reflexivity] | reflexivity] |];
         split; [split; [intros _ method; discriminate | reflexivity] |];
         split; [discriminate | intros (method & [=] & _)]).
  destruct (String.eqb_spec method "initialize") as [-> | H1].
  { cbn [fst]. split; [split; discriminate |].
    split; [intros _; split; [reflexivity |];
            split; [split; [discriminate | intros H; now contradiction H]
                   | reflexivity] |].
    split; [split; [discriminate | intros H; now contradiction (H "initialize")] |].
    split; [discriminate | intros (method & [= <-] & Hn)].
    apply Hknown in Hn. tauto. }
  destruct (String.eqb_spec method "tools/list") as [-> | H2].
  { cbn [fst]. split; [split; discriminate |].
    split; [intros _; split; [reflexivity |];
            split; [split; [discriminate | intros H; now contradiction H]
                   | reflexivity] |].
    split; [split; [discriminate | intros H; now contradiction (H "tools/list")] |].
    split; [discriminate | intros (method & [= <-] & Hn)].
    apply Hknown in Hn. tauto. }
  destruct (String.eqb_spec method "tools/call") as [-> | H3].
  { unfold handleCallTool.
    repeat match goal with
           | |- context [match ?x with _ => _ end] =>
               lazymatch x with
               | context [match _ with _ => _ end] => fail
               | _ => destruct x
               end
           end;
      cbn [fst];
      (split; [split; discriminate |];
       split; [intros _; split; [reflexivity |];
               split; [split; first [discriminate | reflexivity
                                    | intros H; now contradiction H]
                      | reflexivity] |];
       split; [split; [discriminate
                      | intros H; now contradiction (H "tools/call")] |];
       split; [discriminate | intros (method & [= <-] & Hn)];
       apply Hknown in Hn; tauto). }
  destruct (String.eqb_spec method "notifications/initialized") as [-> | H4].
  { cbn [fst]. split; [split; reflexivity |].
    split; [intros H; now contradiction H |].
    split; [split; [discriminate
                   | intros H; now contradiction (H "notifications/initialized")] |].
    split; [discriminate | intros (method & [= <-] & Hn)].
    apply Hknown in Hn. tauto. }
  cbn [fst]. split; [split; [discriminate | intros [= ->]; now contradiction H4] |].
  split; [intros _; split; [reflexivity |];
          split; [split; [discriminate | reflexivity] | reflexivity] |].
  split; [split; [discriminate | intros H; now contradiction (H method)] |].
  split; [intros _; exists method; split; [reflexivity |]; apply Hknown; tauto
         | reflexivity].
Qed.

(** The message of the error for a tool that is not there. *)
Lemma tool_not_found_message (name : string) :
  Sprintf "Tool '%s' not found" [name] = "Tool '" +:+ name +:+ "' not found".
Proof. reflexivity. Qed.

(** X23: a tools/call request runs the tool that is registered under the
    name it gives, once, on the map under [arguments] (an empty map when
    there is none or it is not a map), and answers with the converted
    result of the tool, or with the error -32603 and the text of the error
    that the tool returned.  A name that is not registered gives the error
    -32602 with the name in its data, and runs nothing.  Requests that are
    no call of a registered tool leave the state as it is. *)
Theorem X23_tools_call_runs_the_named_tool :
  forall s request st,
    let out := HandleRequest s request st in
    (forall name params,
        callOf name request params ->
        match tools s !! name with
        | None =>
            errorCode out.1 = Some (-32602) /\
            errorData out.1
              = Some (AString ("Tool '" +:+ name +:+ "' not found")) /\
            out.2 = st
        | Some tool =>
            let run := Execute tool (callArguments params) st in
            out.2 = run.2 /\
            member "id" out.1 = Some (requestId request) /\
            match run.1 with
            | inl result =>
                member "result" out.1
                  = Some (AMap (convertCallToolResultToMap result)) /\
                member "error" out.1 = None
            | inr err =>
                errorCode out.1 = Some (-32603) /\
                errorData out.1 = Some (AString (Error err)) /\
                member "result" out.1 = None
            end
        end) /\
    ((forall name params,
         callOf name request params -> tools s !! name = None) ->
     out.2 = st).
Proof.
  intros s request st out. subst out. split.
  - intros name params (Hm & Hp & Hn).
    unfold HandleRequest, handleCallTool. rewrite Hm.
    change (String.eqb "tools/call" "initialize") with false.
    change (String.eqb "tools/call" "tools/list") with false.
    change (String.eqb "tools/call" "tools/call") with true.
    cbv iota. rewrite Hp, Hn.
    destruct (tools s !! name) as [tool|].
    + fold (callArguments params).
      destruct (Execute tool (callArguments params) st) as [[result | err] st'];
        cbn [fst snd]; repeat split; reflexivity.
    + cbn [fst snd]. rewrite <- tool_not_found_message. repeat split; reflexivity.
  - intros Hnone. unfold HandleRequest.
    destruct (request !! "method") as [[| | | | method | | |]|] eqn:Hm;
      try reflexivity.
    destruct (String.eqb_spec method "initialize"); [reflexivity |].
    destruct (String.eqb_spec method "tools/list"); [reflexivity |].
    destruct (String.eqb_spec method "tools/call") as [-> |].
    + unfold handleCallTool.
      destruct (request !! "params") as [[| | | | | | | params]|] eqn:Hp;
        try reflexivity.
      destruct (params !! "name") as [[| | | | name | | |]|] eqn:Hn;
        try reflexivity.
      rewrite (Hnone name params); [reflexivity |].
      split; [assumption | split; assumption].
    + destruct (String.eqb method "notifications/initialized"); reflexivity.
Qed.

(** X24: [RegisterTool] puts a tool under its own name and touches no
    other name.  A call of that name is answered by the tool just
    registered, whatever was registered before, under that name or under
    others; every request other than tools/list and a call of that name is
    answered as before the registration. *)
Theorem X24_RegisterTool_replaces_one_name :
  forall s (tool : Tool State) request st,
    (forall params,
        callOf (Name tool) request params ->
        HandleRequest (RegisterTool tool s) request st
          = HandleRequest (RegisterTool tool NewMCPServer) request st) /\
    (request !! "method" <> Some (AString "tools/list") ->
     (forall params, ~ callOf (Name tool) request params) ->
     HandleRequest (RegisterTool tool s) request st
       = HandleRequest s request st).
Proof.
  intros s tool request st. split.
  - intros params (Hm & Hp & Hn).
    unfold HandleRequest, handleCallTool. rewrite Hm.
    change (String.eqb "tools/call" "initialize") with false.
    change (String.eqb "tools/call" "tools/list") with false.
    change (String.eqb "tools/call" "tools/call") with true.
    cbv iota. rewrite Hp, Hn. unfold RegisterTool. cbn [tools].
    now rewrite !lookup_insert_eq.
  - intros Hlist Hother. unfold HandleRequest.
    destruct (request !! "method") as [[| | | | method | | |]|] eqn:Hm;
      try reflexivity.
    destruct (String.eqb_spec method "initialize"); [reflexivity |].
    destruct (String.eqb_spec method "tools/list") as [-> |];
      [now contradiction Hlist |].
    destruct (String.eqb_spec method "tools/call") as [-> |]; [| reflexivity].
    unfold handleCallTool.
    destruct (request !! "params") as [[| | | | | | | params]|] eqn:Hp;
      try reflexivity.
    destruct (params !! "name") as [[| | | | name | | |]|] eqn:Hn;
      try reflexivity.
    unfold RegisterTool. cbn [tools].
    rewrite lookup_insert_ne; [reflexivity |].
    intros Heq. apply (Hother params).
    split; [assumption | split; [assumption | now rewrite Heq]].
Qed.

(** In a server built by [RegisterTool], every tool sits under its own
    name. *)
Lemma registered_names s :
  registered s ->
  forall name tool, tools s !! name = Some tool -> Name tool = name.
Proof.
  induction 1 as [| tool s _ IH]; intros name tool' Hlook.
  - unfold NewMCPServer in Hlook. cbn [tools] in Hlook.
    rewrite lookup_empty in Hlook. discriminate Hlook.
  - unfold RegisterTool in Hlook. cbn [tools] in Hlook.
    destruct (decide (Name tool = name)) as [<- | Hne].
    + rewrite lookup_insert_eq in Hlook. now injection Hlook as <-.
    + rewrite lookup_insert_ne in Hlook by exact Hne. now apply IH.
Qed.

Lemma listedNames_handleListTools s (id : Any) :
  listedNames (handleListTools s id)
    = map Name (map snd (map_to_list (tools s))).
Proof.
  unfold handleListTools.
  set (defs := map _ (map snd (map_to_list (tools s)))).
  assert (listedNames
            (AMap (<["jsonrpc":=AString "2.0"]>
                   (<["id":=id]>
                    (<["result":=AMap (<["tools":=ASlice defs]> ∅)]> ∅))))
          = omap (fun def => match member "name" def with
                             | Some (AString name) => Some name
                             | _ => None
                             end) defs) as -> by reflexivity.
  subst defs. induction (map snd (map_to_list (tools s))) as [| tool l IH];
    [reflexivity |].
  cbn [map]. rewrite <- IH. reflexivity.
Qed.

(** X25: in a server built by [RegisterTool] from a new one, tools/list
    shows every registered tool once, under the name it can be called
    with: the names shown are pairwise different, there are as many as
    tools, and a name is shown exactly when a call of it finds a tool. *)
Theorem X25_tools_list_shows_the_callable_tools :
  forall s request st,
    registered s ->
    request !! "method" = Some (AString "tools/list") ->
    let out := HandleRequest s request st in
    out.2 = st /\
    NoDup (listedNames out.1) /\
    length (listedNames out.1) = size (tools s) /\
    (forall name, name ∈ listedNames out.1 <-> is_Some (tools s !! name)).
Proof.
  intros s request st Hreg Hm out. subst out.
  unfold HandleRequest. rewrite Hm.
  change (String.eqb "tools/list" "initialize") with false.
  change (String.eqb "tools/list" "tools/list") with true.
  cbv iota. cbn [fst snd]. rewrite listedNames_handleListTools.
  assert (map Name (map snd (map_to_list (tools s)))
          = map fst (map_to_list (tools s))) as ->.
  { rewrite map_map. apply map_ext_in. intros [name tool] Hin.
    apply list_elem_of_In, elem_of_map_to_list in Hin.
    exact (registered_names s Hreg name tool Hin). }
  split; [reflexivity |]. split; [apply NoDup_fst_map_to_list |].
  split; [now rewrite length_map, length_map_to_list |].
  intros name. rewrite list_elem_of_fmap. split.
  - intros ([name' tool] & -> & Hin). apply elem_of_map_to_list in Hin.
    now exists tool.
  - intros [tool Hlook]. exists (name, tool).
    split; [reflexivity | now apply elem_of_map_to_list].
Qed.

End McpExtras.

Lemma X25_tools_list_witness :
  let out := Mcp.HandleRequest McpSpec.twoCounters McpSpec.listRequest 0%nat in
  out.2 = 0%nat /\
  NoDup (McpSpec.listedNames out.1) /\
  length (McpSpec.listedNames out.1) = size (Mcp.tools McpSpec.twoCounters) /\
  (forall name, name ∈ McpSpec.listedNames out.1 <->
                is_Some (Mcp.tools McpSpec.twoCounters !! name)).
Proof.
  exact (X25_tools_list_shows_the_callable_tools
           McpSpec.twoCounters McpSpec.listRequest 0%nat
           (McpSpec.registered_tool _ _
              (McpSpec.registered_tool _ _ McpSpec.registered_new))
           eq_refl).
Defined.
